(** * sfs-validator: the configuration validator of [validate_config.py]

    A shallow embedding of [src/validate_config.py] and of the part of the
    pydantic (v2) validation semantics its schema classes rely on.

    - The schema classes ([Zone] ... [GearMaintenanceModel]), the two model
      validators of [AIIntegration] and [CustomGearModel], [FIELD_HELP],
      [get_value_by_path], [print_friendly_errors] and [validate_yaml_config]
      are translated from the source file.
    - [validate] is what [model_class.model_validate(data)] does with such a
      class on a document loaded from YAML: pydantic-core's validators in
      their default (lax, Python input) mode.  String-to-number coercion and
      URL parsing are library routines taken as a record of functions
      ([pydantic_core]).
    - [webbrowser.open] is an environment action; it is an argument of
      [print_friendly_errors]. *)

From Stdlib Require Import ZArith List Floats Ascii String.
From stdpp Require Import base strings gmap list pretty.

#[local] Set Warnings "-register-all".

Open Scope string_scope.
Open Scope Z_scope.
Open Scope list_scope.

(* ================================================================== *)
(** ** Values: the document as [yaml.load] returns it *)

(** A parsed YAML document: [None], [bool], [int], [float], [str], [list]
    and [dict] with string keys.  A dict keeps its insertion order, so it is
    an association list; a key occurs once in a dict Python builds. *)
Inductive value : Type :=
| VNone
| VBool (b : bool)
| VInt (z : Z)
| VFloat (f : float)
| VStr (s : string)
| VList (l : list value)
| VDict (d : list (string * value)).

Definition dict := list (string * value).

(** [d.get(k)]; [None] stands for "k not in d". *)
Fixpoint dict_get (d : dict) (k : string) : option value :=
  match d with
  | [] => None
  | (k', v) :: d' => if String.eqb k' k then Some v else dict_get d' k
  end.

(** [d.pop(k, None)], for its effect on [d]. *)
Fixpoint dict_pop (d : dict) (k : string) : dict :=
  match d with
  | [] => []
  | (k', v) :: d' => if String.eqb k' k then dict_pop d' k else (k', v) :: dict_pop d' k
  end.

(** The dict after the object stored under [k] was mutated into [v]: the
    key keeps its position. *)
Fixpoint dict_set (d : dict) (k : string) (v : value) : dict :=
  match d with
  | [] => []
  | (k', v') :: d' => if String.eqb k' k then (k', v) :: d' else (k', v') :: dict_set d' k v
  end.

Definition dict_keys (d : dict) : list string := map fst d.

(** Python truthiness ([not x], [if x:]). *)
Definition truthy (v : value) : bool :=
  match v with
  | VNone => false
  | VBool b => b
  | VInt z => negb (z =? 0)
  | VFloat f => negb (PrimFloat.is_zero f)
  | VStr s => negb (String.eqb s "")
  | VList l => match l with [] => false | _ => true end
  | VDict d => match d with [] => false | _ => true end
  end.

(** A Python exception other than pydantic's [ValidationError]: an
    [AttributeError] for a missing attribute, or one of another class. *)
Inductive exn : Type :=
| AttributeError (attr : string)
| OtherError (cls msg : string).

(* ================================================================== *)
(** ** Validation errors *)

(** One item of an error location: a field name, a dict key or a union
    alternative's label ([str]), or a list index ([int]). *)
Inductive loc_item : Type :=
| LStr (s : string)
| LInt (n : nat).

Definition loc := list loc_item.

(** A literal of a [Literal[...]] annotation. *)
Inductive literal : Type :=
| LitStr (s : string)
| LitInt (z : Z).

(** The error types pydantic reports for the schemas of this program. *)
Inductive err_type : Type :=
| missing
| extra_forbidden
| string_type
| int_type
| int_parsing
| int_parsing_size
| int_from_float
| finite_number
| float_type
| float_parsing
| bool_type
| bool_parsing
| list_type
| dict_type
| model_type (cls : string)
| literal_error (expected : list literal)
| url_type
| url_parsing (reason : string)
| url_scheme
| url_too_long
| value_error (msg : string).

Record line_error : Type := LineError { le_type : err_type; le_loc : loc }.

(** [err.with_outer_location(item)] *)
Definition with_outer_location (item : loc_item) (e : line_error) : line_error :=
  LineError (le_type e) (item :: le_loc e).

(** What a validator hands back, as far as this program looks at it: the
    model validators only test a validated attribute for [is None] and for
    its truth value as a [bool]. *)
Inductive pyobj : Type :=
| ONone
| OBool (b : bool)
| OOpaque.

(** The outcome of a validator: a validated object, a [ValidationError]
    with its line errors, or another exception passing through. *)
Inductive res : Type :=
| Valid (o : pyobj)
| Invalid (errs : list line_error)
| Raised (e : exn).

Definition errors_of (r : res) : list line_error :=
  match r with Invalid errs => errs | _ => [] end.

Definition is_valid (r : res) : bool :=
  match r with Valid _ => true | _ => false end.

Definition invalid1 (t : err_type) : res := Invalid [LineError t []].

(* ================================================================== *)
(** ** Scalar validators (pydantic-core, lax mode, Python input) *)

(** The library's string routines, not modelled further. *)
Record pydantic_core : Type := PydanticCore {
  (** [str_as_int]: the integer a string is read as, or the error type *)
  str_as_int : string -> Z + err_type;
  (** [str_as_float]: the float a string is read as, if any *)
  str_as_float : string -> option float;
  (** [HttpUrl]: the error type for a string that is not an http(s) URL *)
  http_url_error : string -> option err_type
}.

(** The integer a finite float with zero fractional part denotes
    ([float % 1.0 == 0.0]). *)
Definition float_integral (f : float) : option Z :=
  match Prim2SF f with
  | S754_zero _ => Some 0
  | S754_finite s m e =>
      let sign := if s then (-1) else 1 in
      if 0 <=? e then Some (sign * (Z.pos m * 2 ^ e))
      else if (Z.pos m mod 2 ^ (- e)) =? 0 then Some (sign * (Z.pos m / 2 ^ (- e)))
      else None
  | S754_infinity _ | S754_nan => None
  end.

Definition float_finite (f : float) : bool :=
  match Prim2SF f with
  | S754_infinity _ | S754_nan => false
  | _ => true
  end.

(** [float_as_int]: not finite, a fractional part, or outside the open
    interval [(i64::MIN as f64, i64::MAX as f64)] are errors. *)
Definition float_as_int (f : float) : Z + err_type :=
  if negb (float_finite f) then inr finite_number
  else match float_integral f with
       | None => inr int_from_float
       | Some z => if (- 2 ^ 63 <? z) && (z <? 2 ^ 63) then inl z else inr int_parsing_size
       end.

Definition of_parse (p : Z + err_type) : res :=
  match p with inl _ => Valid OOpaque | inr t => invalid1 t end.

Definition validate_str (v : value) : res :=
  match v with
  | VStr _ => Valid OOpaque
  | _ => invalid1 string_type
  end.

(** [int]: an [int] as it is (a [bool] is an [int] in lax mode); a string
    and a float are converted; anything else is [int_type]. *)
Definition validate_int (core : pydantic_core) (v : value) : res :=
  match v with
  | VInt _ | VBool _ => Valid OOpaque
  | VStr s => of_parse (str_as_int core s)
  | VFloat f => of_parse (float_as_int f)
  | _ => invalid1 int_type
  end.

(** A Python [int] converts to a C double unless rounding overflows. *)
Definition int_fits_float (z : Z) : bool := Z.abs z <? 2 ^ 1024 - 2 ^ 970.

Definition validate_float (core : pydantic_core) (v : value) : res :=
  match v with
  | VFloat _ | VBool _ => Valid OOpaque
  | VStr s => match str_as_float core s with
              | Some _ => Valid OOpaque
              | None => invalid1 float_parsing
              end
  | VInt z => if int_fits_float z then Valid OOpaque else invalid1 float_type
  | _ => invalid1 float_type
  end.

Definition ascii_lower (c : ascii) : ascii :=
  let n := nat_of_ascii c in
  if ((65 <=? n) && (n <=? 90))%nat then ascii_of_nat (n + 32)%nat else c.

Fixpoint lower (s : string) : string :=
  match s with
  | EmptyString => EmptyString
  | String c s' => String (ascii_lower c) (lower s')
  end.

Definition mem_string (s : string) (l : list string) : bool :=
  existsb (String.eqb s) l.

(** [str_as_bool] *)
Definition str_as_bool (s : string) : option bool :=
  if String.eqb s "0" || mem_string (lower s) ["f"; "n"; "no"; "off"; "false"] then Some false
  else if String.eqb s "1" || mem_string (lower s) ["t"; "y"; "on"; "yes"; "true"] then Some true
  else None.

(** [int_as_bool] *)
Definition int_as_bool (z : Z) : option bool :=
  if z =? 0 then Some false else if z =? 1 then Some true else None.

Definition of_bool_parse (p : option bool) : res :=
  match p with Some b => Valid (OBool b) | None => invalid1 bool_parsing end.

(** [bool]: a [bool] as it is; a string and the numbers 0 and 1 are
    converted; a number that is no 64-bit integer, and anything else, is
    [bool_type]. *)
Definition validate_bool (v : value) : res :=
  match v with
  | VBool b => Valid (OBool b)
  | VStr s => of_bool_parse (str_as_bool s)
  | VInt z => if (- 2 ^ 63 <=? z) && (z <? 2 ^ 63) then of_bool_parse (int_as_bool z)
              else invalid1 bool_type
  | VFloat f => match float_as_int f with
                | inl z => of_bool_parse (int_as_bool z)
                | inr _ => invalid1 bool_type
                end
  | _ => invalid1 bool_type
  end.

Definition validate_http_url (core : pydantic_core) (v : value) : res :=
  match v with
  | VStr s => match http_url_error core s with
              | None => Valid OOpaque
              | Some t => invalid1 t
              end
  | _ => invalid1 url_type
  end.

(** Python's [==] between a literal and an input. *)
Definition literal_eq (lit : literal) (v : value) : bool :=
  match lit, v with
  | LitStr s, VStr s' => String.eqb s s'
  | LitInt z, VInt z' => z =? z'
  | LitInt z, VBool b => z =? (if b then 1 else 0)
  | LitInt z, VFloat f => match float_integral f with Some z' => z =? z' | None => false end
  | _, _ => false
  end.

(** [Literal[...]]: the input equals one of the expected values. *)
Definition validate_literal (expected : list literal) (v : value) : res :=
  if existsb (fun lit => literal_eq lit v) expected then Valid OOpaque
  else invalid1 (literal_error expected).

Definition obj_of (v : value) : pyobj :=
  match v with
  | VNone => ONone
  | VBool b => OBool b
  | _ => OOpaque
  end.

(* ================================================================== *)
(** ** Schemas *)

(** A field of a model class: [f_name : f_type], looked up in the input
    under [f_alias] ([Field(..., alias=...)], the name itself otherwise),
    with the validated default of a [= None] declaration. *)
Record field (T : Type) : Type := Field {
  f_name : string;
  f_alias : string;
  f_type : T;
  f_default : option pyobj
}.
Arguments Field {T}.
Arguments f_name {T}.
Arguments f_alias {T}.
Arguments f_type {T}.
Arguments f_default {T}.

(** A validated model instance, by attribute. *)
Definition instance := list (string * pyobj).

(** [getattr(values, name, None)] *)
Fixpoint getattr (values : instance) (name : string) : pyobj :=
  match values with
  | [] => ONone
  | (n, o) :: rest => if String.eqb n name then o else getattr rest name
  end.

(** A model class: its name and its [@model_validator]s.  The [before]
    validator gets the raw input and hands back the object that is
    validated (for the two of this program the input itself, mutated in
    place), or raises; the [after] validator gets the instance and may
    raise [ValueError(msg)]. *)
Record model_class : Type := ModelClass {
  cls_name : string;
  before : option (value -> exn + value);
  after : option (instance -> option string)
}.

(** The annotations the schema classes use.  [Optional[X]] admits [None]
    besides [X]; whether a field may be absent is a matter of its default
    ([f_default]), not of its annotation.  A [Union] carries the label of
    each alternative, as it shows in an error location ([str],
    [dict[str,int]]).  [extra = "forbid"] is set in every class of the
    program, so it is part of [TModel]. *)
Inductive ty : Type :=
| TAny
| TStr
| TInt
| TFloat
| TBool
| THttpUrl
| TLiteral (expected : list literal)
| TOptional (t : ty)
| TUnion (alts : list (string * ty))
| TList (t : ty)
| TDict (t : ty)
| TModel (m : model_class) (fields : list (field ty)).

(* ================================================================== *)
(** ** The validator *)

(** What a loop over parts has collected: the line errors, or an
    exception that ended it. *)
Definition collected := (list line_error + exn)%type.

Definition finish (c : collected) (o : pyobj) : res :=
  match c with
  | inl [] => Valid o
  | inl errs => Invalid errs
  | inr e => Raised e
  end.

(** A validator call also leaves the input object as [before] validators
    below it mutated it: [validate t v = (v', r)]. *)
Definition validator := value -> value * res.

(** [List[X]]: every item in turn, its errors under its index. *)
Definition validate_items (V : validator) : nat -> list value -> list value * collected :=
  fix go (i : nat) (l : list value) {struct l} :=
    match l with
    | [] => ([], inl [])
    | x :: l' =>
        match V x with
        | (x', Raised e) => (x' :: l', inr e)
        | (x', r) =>
            let '(l'', c) := go (S i) l' in
            (x' :: l'',
             match c with
             | inl errs => inl (map (with_outer_location (LInt i)) (errors_of r) ++ errs)
             | inr e => inr e
             end)
        end
    end.

(** [Dict[str, X]]: every value in turn, its errors under its key. *)
Definition validate_entries (V : validator) : dict -> dict * collected :=
  fix go (d : dict) {struct d} :=
    match d with
    | [] => ([], inl [])
    | (k, x) :: d' =>
        match V x with
        | (x', Raised e) => ((k, x') :: d', inr e)
        | (x', r) =>
            let '(d'', c) := go d' in
            ((k, x') :: d'',
             match c with
             | inl errs => inl (map (with_outer_location (LStr k)) (errors_of r) ++ errs)
             | inr e => inr e
             end)
        end
    end.

(** [Union[...]]: the alternatives in order on the same input.  The union
    is valid when an alternative is; when none is, the line errors of all
    alternatives are reported, each under its alternative's label.  (Which
    of several valid alternatives supplies the value is pydantic's "smart"
    choice; the unions of this program have scalar and dict alternatives
    only, whose values this program never looks at.) *)
Definition validate_union {A : Type} (V : A -> validator) : list (string * A) -> validator :=
  fix go (alts : list (string * A)) (v : value) {struct alts} :=
    match alts with
    | [] => (v, Invalid [])
    | (label, a) :: rest =>
        match V a v with
        | (v', Invalid errs) =>
            match go rest v' with
            | (v'', Invalid errs') =>
                (v'', Invalid (map (with_outer_location (LStr label)) errs ++ errs'))
            | other => other
            end
        | other => other
        end
    end.

(** What the fields of a model collect: the attributes and the line
    errors, or an exception. *)
Definition fields_result := (instance * list line_error + exn)%type.

(** The fields of a model in declaration order: a field found under its
    alias is validated, its errors under the alias; a field not found takes
    its default, or is [missing]. *)
Definition validate_fields {A : Type} (V : A -> validator) : list (field A) -> dict -> dict * fields_result :=
  fix go (fs : list (field A)) (d : dict) {struct fs} :=
    match fs with
    | [] => (d, inl ([], []))
    | f :: fs' =>
        match dict_get d (f_alias f) with
        | Some x =>
            match V (f_type f) x with
            | (x', Raised e) => (dict_set d (f_alias f) x', inr e)
            | (x', r) =>
                let '(d', c) := go fs' (dict_set d (f_alias f) x') in
                (d',
                 match c with
                 | inl (attrs, errs) =>
                     inl (match r with Valid o => (f_name f, o) :: attrs | _ => attrs end,
                          map (with_outer_location (LStr (f_alias f))) (errors_of r) ++ errs)
                 | inr e => inr e
                 end)
            end
        | None =>
            let '(d', c) := go fs' d in
            (d',
             match c with
             | inl (attrs, errs) =>
                 match f_default f with
                 | Some o => inl ((f_name f, o) :: attrs, errs)
                 | None => inl (attrs, LineError missing [LStr (f_alias f)] :: errs)
                 end
             | inr e => inr e
             end)
        end
    end.

(** [extra = "forbid"]: every key of the input that is no field's alias,
    in input order. *)
Definition extra_errors (aliases : list string) (d : dict) : list line_error :=
  flat_map (fun kv => if mem_string (fst kv) aliases then []
                      else [LineError extra_forbidden [LStr (fst kv)]]) d.

(** The [after] validator runs on an instance, that is when the fields
    left no error; its [ValueError] is one [value_error] at the model's own
    location. *)
Definition run_after (m : model_class) (values : instance) : res :=
  match after m with
  | Some check =>
      match check values with
      | Some msg => invalid1 (value_error msg)
      | None => Valid OOpaque
      end
  | None => Valid OOpaque
  end.

Definition run_before (m : model_class) (v : value) : exn + value :=
  match before m with
  | Some hook => hook v
  | None => inr v
  end.

Definition finish_model (m : model_class) {A : Type} (fields : list (field A))
    (d : dict) (c : fields_result) : res :=
  match c with
  | inr e => Raised e
  | inl (values, errs) =>
      match errs ++ extra_errors (map f_alias fields) d with
      | [] => run_after m values
      | errs' => Invalid errs'
      end
  end.

Section Validate.

Context (core : pydantic_core).

(** [validate t v]: the validator of annotation [t] on input [v].  A model
    class runs its [before] validator on the raw input, then its fields
    and the check for unexpected keys, then, on an instance only, its
    [after] validator. *)
Fixpoint validate (t : ty) (v : value) {struct t} : value * res :=
  match t with
  | TAny => (v, Valid (obj_of v))
  | TStr => (v, validate_str v)
  | TInt => (v, validate_int core v)
  | TFloat => (v, validate_float core v)
  | TBool => (v, validate_bool v)
  | THttpUrl => (v, validate_http_url core v)
  | TLiteral expected => (v, validate_literal expected v)
  | TOptional t' =>
      match v with
      | VNone => (v, Valid ONone)
      | _ => validate t' v
      end
  | TUnion alts => validate_union validate alts v
  | TList t' =>
      match v with
      | VList l => let '(l', c) := validate_items (validate t') 0 l in (VList l', finish c OOpaque)
      | _ => (v, invalid1 list_type)
      end
  | TDict t' =>
      match v with
      | VDict d => let '(d', c) := validate_entries (validate t') d in (VDict d', finish c OOpaque)
      | _ => (v, invalid1 dict_type)
      end
  | TModel m fields =>
      match run_before m v with
      | inl e => (v, Raised e)
      | inr (VDict d) =>
          let '(d', c) := validate_fields validate fields d in
          (VDict d', finish_model m fields d' c)
      | inr v' => (v', invalid1 (model_type (cls_name m)))
      end
  end.

End Validate.

(* ================================================================== *)
(** ** The schema classes of [validate_config.py] *)

Definition plain (cls : string) : model_class := ModelClass cls None None.

(** [name: t], required *)
Definition req (name : string) (t : ty) : field ty := Field name name t None.

(* --- config.yaml models --- *)

Definition Locale : ty :=
  TLiteral (map LitStr ["en_US"; "fr_FR"; "it_IT"; "nl_BE"; "de_DE"; "pt_BR"; "pt_PT"; "zh_CN"]).
Definition UnitSystem : ty := TLiteral [LitStr "metric"; LitStr "imperial"].
Definition TimeFormat : ty := TLiteral [LitInt 12; LitInt 24].
Definition Visibility : ty := TLiteral (map LitStr ["everyone"; "followers_only"; "only_me"]).
Definition HeartRateMode : ty := TLiteral [LitStr "relative"; LitStr "absolute"].
Definition AIProvider : ty :=
  TLiteral (map LitStr ["anthropic"; "gemini"; "ollama"; "openAI"; "deepseek"; "mistral"]).

Definition Zone : ty :=
  TModel (plain "Zone")
    [ Field "from_" "from" TInt None;
      req "to" (TOptional TInt) ].

Definition HeartRateZones : ty :=
  TModel (plain "HeartRateZones")
    [ req "mode" HeartRateMode;
      req "default" (TDict Zone) ].

Definition maxHeartRateFormula_ty : ty :=
  TUnion [("str", TStr); ("dict[str,int]", TDict TInt)].

Definition weight_ty : ty := TUnion [("int", TInt); ("float", TFloat)].

Definition Athlete : ty :=
  TModel (plain "Athlete")
    [ req "birthday" TStr;
      req "maxHeartRateFormula" maxHeartRateFormula_ty;
      req "heartRateZones" HeartRateZones;
      req "weightHistory" (TDict weight_ty);
      req "ftpHistory" (TList TInt) ].

Definition General : ty :=
  TModel (plain "General")
    [ req "appUrl" THttpUrl;
      req "appSubTitle" (TOptional TStr);
      req "profilePictureUrl" (TOptional TStr);
      req "ntfyUrl" (TOptional TStr);
      req "athlete" Athlete ].

Definition DateFormat : ty :=
  TModel (plain "DateFormat") [ req "short" TStr; req "normal" TStr ].

Definition Appearance : ty :=
  TModel (plain "Appearance")
    [ req "locale" Locale;
      req "unitSystem" UnitSystem;
      req "timeFormat" TimeFormat;
      req "dateFormat" DateFormat;
      req "sportTypesSortingOrder" (TList TStr) ].

Definition ImportSettings : ty :=
  TModel (plain "ImportSettings")
    [ req "numberOfNewActivitiesToProcessPerImport" TInt;
      req "sportTypesToImport" (TList TStr);
      req "activityVisibilitiesToImport" (TList Visibility);
      req "skipActivitiesRecordedBefore" (TOptional TStr);
      req "activitiesToSkipDuringImport" (TList TStr) ].

Definition EddingtonEntry : ty :=
  TModel (plain "EddingtonEntry")
    [ req "label" TStr;
      req "showInNavBar" TBool;
      req "sportTypesToInclude" (TList TStr) ].

Definition Metrics : ty :=
  TModel (plain "Metrics")
    [ req "eddington" (TList EddingtonEntry);
      req "consistencyChallenges" (TList TAny) ].

Definition Zwift : ty :=
  TModel (plain "Zwift")
    [ req "level" (TOptional TInt);
      req "racingScore" (TOptional TInt) ].

Definition AIConfiguration : ty :=
  TModel (plain "AIConfiguration")
    [ req "key" TStr;
      req "model" TStr;
      req "url" (TOptional TStr) ].

(** [if x:] on a validated attribute (a validated [bool] is an [OBool]). *)
Definition obj_truthy (o : pyobj) : bool :=
  match o with
  | ONone => false
  | OBool b => b
  | OOpaque => true
  end.

Definition is_None (o : pyobj) : bool :=
  match o with ONone => true | _ => false end.

(** [values.get('enabled', False)] *)
Definition get_enabled (d : dict) : value :=
  match dict_get d "enabled" with
  | Some x => x
  | None => VBool false
  end.

(** [AIIntegration.skip_nested_if_disabled]; [values.get] of an input that
    is no mapping raises [AttributeError]. *)
Definition AIIntegration_skip_nested_if_disabled (values : value) : exn + value :=
  match values with
  | VDict d =>
      if negb (truthy (get_enabled d))
      then inr (VDict (dict_pop (dict_pop d "provider") "configuration"))
      else inr values
  | _ => inl (AttributeError "get")
  end.

(** [AIIntegration.check_required_if_enabled] *)
Definition AIIntegration_check_required_if_enabled (values : instance) : option string :=
  if obj_truthy (getattr values "enabled") then
    if is_None (getattr values "provider")
    then Some "provider is required when AI integration is enabled"
    else if is_None (getattr values "configuration")
    then Some "configuration is required when AI integration is enabled"
    else None
  else None.

Definition AIIntegration_fields : list (field ty) :=
  [ req "enabled" TBool;
    req "enableUI" TBool;
    Field "provider" "provider" (TOptional AIProvider) (Some ONone);
    Field "configuration" "configuration" (TOptional AIConfiguration) (Some ONone) ].

Definition AIIntegration_class : model_class :=
  ModelClass "AIIntegration"
    (Some AIIntegration_skip_nested_if_disabled)
    (Some AIIntegration_check_required_if_enabled).

Definition AIIntegration : ty := TModel AIIntegration_class AIIntegration_fields.

Definition Integrations : ty :=
  TModel (plain "Integrations") [ req "ai" AIIntegration ].

Definition ConfigModel : ty :=
  TModel (plain "ConfigModel")
    [ req "general" General;
      req "appearance" Appearance;
      Field "import_" "import" ImportSettings None;
      req "metrics" Metrics;
      req "zwift" Zwift;
      req "integrations" Integrations ].

(* --- custom-gear.yaml models --- *)

Definition CustomGearEntry : ty :=
  TModel (plain "CustomGearEntry")
    [ req "tag" TStr; req "label" TStr; req "isRetired" TBool ].

(** [CustomGearModel.skip_nested_if_disabled] *)
Definition CustomGearModel_skip_nested_if_disabled (values : value) : exn + value :=
  match values with
  | VDict d =>
      if negb (truthy (get_enabled d))
      then inr (VDict (dict_pop (dict_pop d "hashtagPrefix") "customGears"))
      else inr values
  | _ => inl (AttributeError "get")
  end.

(** [CustomGearModel.check_required_if_enabled] *)
Definition CustomGearModel_check_required_if_enabled (values : instance) : option string :=
  if obj_truthy (getattr values "enabled") then
    if is_None (getattr values "hashtagPrefix")
    then Some "hashtagPrefix is required when custom gear is enabled"
    else if is_None (getattr values "customGears")
    then Some "customGears is required when custom gear is enabled"
    else None
  else None.

Definition CustomGearModel_fields : list (field ty) :=
  [ req "enabled" TBool;
    req "hashtagPrefix" TStr;
    req "customGears" (TList CustomGearEntry) ].

Definition CustomGearModel_class : model_class :=
  ModelClass "CustomGearModel"
    (Some CustomGearModel_skip_nested_if_disabled)
    (Some CustomGearModel_check_required_if_enabled).

Definition CustomGearModel : ty := TModel CustomGearModel_class CustomGearModel_fields.

(* --- gear-maintenance.yaml models --- *)

Definition MaintenanceInterval : ty :=
  TModel (plain "MaintenanceInterval") [ req "value" TInt; req "unit" TStr ].

Definition MaintenanceTask : ty :=
  TModel (plain "MaintenanceTask")
    [ req "tag" TStr; req "label" TStr; req "interval" MaintenanceInterval ].

Definition Component : ty :=
  TModel (plain "Component")
    [ req "tag" TStr;
      req "label" TStr;
      req "imgSrc" (TOptional TStr);
      req "attachedTo" (TList TStr);
      req "maintenance" (TList MaintenanceTask) ].

Definition GearImage : ty :=
  TModel (plain "GearImage") [ req "gearId" TStr; req "imgSrc" (TOptional TStr) ].

Definition GearMaintenanceModel : ty :=
  TModel (plain "GearMaintenanceModel")
    [ req "enabled" TBool;
      req "hashtagPrefix" TStr;
      req "components" (TList Component);
      req "gears" (TList GearImage) ].

(* ================================================================== *)
(** ** [ValidationError.errors()] *)

(** An error as [print_friendly_errors] reads it: [err['loc']],
    [err['msg']] and [err.get('type')]. *)
Record error_dict : Type := ErrorDict {
  ed_type : option string;
  ed_loc : loc;
  ed_msg : string
}.

Definition repr_literal (lit : literal) : string :=
  match lit with
  | LitStr s => "'" +:+ s +:+ "'"
  | LitInt z => pretty z
  end.

(** ["'a', 'b' or 'c'"] *)
Fixpoint expected_repr (expected : list literal) : string :=
  match expected with
  | [] => ""
  | [x] => repr_literal x
  | [x; y] => repr_literal x +:+ " or " +:+ repr_literal y
  | x :: rest => repr_literal x +:+ ", " +:+ expected_repr rest
  end.

Definition error_type_str (t : err_type) : string :=
  match t with
  | missing => "missing"
  | extra_forbidden => "extra_forbidden"
  | string_type => "string_type"
  | int_type => "int_type"
  | int_parsing => "int_parsing"
  | int_parsing_size => "int_parsing_size"
  | int_from_float => "int_from_float"
  | finite_number => "finite_number"
  | float_type => "float_type"
  | float_parsing => "float_parsing"
  | bool_type => "bool_type"
  | bool_parsing => "bool_parsing"
  | list_type => "list_type"
  | dict_type => "dict_type"
  | model_type _ => "model_type"
  | literal_error _ => "literal_error"
  | url_type => "url_type"
  | url_parsing _ => "url_parsing"
  | url_scheme => "url_scheme"
  | url_too_long => "url_too_long"
  | value_error _ => "value_error"
  end.

Definition error_msg (t : err_type) : string :=
  match t with
  | missing => "Field required"
  | extra_forbidden => "Extra inputs are not permitted"
  | string_type => "Input should be a valid string"
  | int_type => "Input should be a valid integer"
  | int_parsing => "Input should be a valid integer, unable to parse string as an integer"
  | int_parsing_size => "Unable to parse input string as an integer, exceeded maximum size"
  | int_from_float => "Input should be a valid integer, got a number with a fractional part"
  | finite_number => "Input should be a finite number"
  | float_type => "Input should be a valid number"
  | float_parsing => "Input should be a valid number, unable to parse string as a number"
  | bool_type => "Input should be a valid boolean"
  | bool_parsing => "Input should be a valid boolean, unable to interpret input"
  | list_type => "Input should be a valid list"
  | dict_type => "Input should be a valid dictionary"
  | model_type cls => "Input should be a valid dictionary or instance of " +:+ cls
  | literal_error expected => "Input should be " +:+ expected_repr expected
  | url_type => "URL input should be a string or URL"
  | url_parsing reason => "Input should be a valid URL, " +:+ reason
  | url_scheme => "URL scheme should be 'http' or 'https'"
  | url_too_long => "URL should have at most 2083 characters"
  | value_error msg => "Value error, " +:+ msg
  end.

Definition errors (errs : list line_error) : list error_dict :=
  map (fun e => ErrorDict (Some (error_type_str (le_type e))) (le_loc e) (error_msg (le_type e))) errs.

(* ================================================================== *)
(** ** Error display *)

Record help_entry : Type := HelpEntry { desc : string; doc : string }.

Definition FIELD_HELP : gmap string help_entry :=
  list_to_map
    [ ("general.appUrl",
       HelpEntry "Base URL where the app is hosted." "main-configuration");
      ("general.athlete.birthday",
       HelpEntry "Your birthday in YYYY-MM-DD format." "main-configuration");
      ("general.athlete.maxHeartRateFormula",
       HelpEntry "Method or override for max heart rate."
                 "main-configuration?id=athlete-heart-rate-zones");
      ("general.athlete.weightHistory",
       HelpEntry "Map of dates to weight values (int/float)."
                 "main-configuration?id=athlete-weight-history");
      ("appearance.locale",
       HelpEntry "UI language of the app." "main-configuration");
      ("import.numberOfNewActivitiesToProcessPerImport",
       HelpEntry "Max number of new activities to fetch." "main-configuration");
      ("metrics.eddington",
       HelpEntry "Custom Eddington score tabs." "main-configuration");
      ("integrations.ai.provider",
       HelpEntry "Which AI service to use" "ai-integration");
      ("custom-gear.name",
       HelpEntry "Custom name to display for this gear item." "custom-gear");
      ("custom-gear.stravaGearId",
       HelpEntry "The Strava gear ID this entry links to." "custom-gear");
      ("custom-gear.weight",
       HelpEntry "Weight in kilograms (optional)." "custom-gear");
      ("custom-gear.default",
       HelpEntry "Marks this gear item as the default selection." "custom-gear");
      ("gear-maintenance.stravaGearId",
       HelpEntry "The Strava gear ID to which maintenance applies." "gear-maintenance");
      ("gear-maintenance.maintenanceDistance",
       HelpEntry "Distance threshold (in km) after which maintenance is due."
                 "gear-maintenance");
      ("gear-maintenance.resetDistance",
       HelpEntry "Optional distance to reset the maintenance counter." "gear-maintenance") ].

Definition DOC_BASE_URL : string :=
  "https://statistics-for-strava-docs.robiningelbrecht.be/#/configuration/".

Definition value_not_found : value := VStr "<value not found>".

(** [get_value_by_path]: the nested value under a list of keys/indexes. *)
Fixpoint get_value_by_path (data : value) (path : loc) : value :=
  match path with
  | [] => data
  | key :: path' =>
      match data, key with
      | VDict d, LStr k =>
          match dict_get d k with
          | Some x => get_value_by_path x path'
          | None => value_not_found
          end
      | VList l, LInt i =>
          match nth_error l i with
          | Some x => get_value_by_path x path'
          | None => value_not_found
          end
      | _, _ => value_not_found
      end
  end.

(** [str(p)] of a location item *)
Definition str_loc_item (p : loc_item) : string :=
  match p with
  | LStr s => s
  | LInt n => pretty n
  end.

Definition loc_str_of (loc_path : loc) : string :=
  String.concat "." (map str_loc_item loc_path).

(** A [print] call, by the line's layout and the values formatted in. *)
Inductive line : Type :=
| PValidationFailed
| PField (loc_str msg : string)
| PInvalidValue (invalid_value : value)
| PDesc (desc : string)
| PSeeDocs (doc_url : string)
| PExpected (expected : string)
| PDocs (url : string)
| PBlank
| PFileNotFound (file_path : string)
| PIsValid (file_path : string)
| PHasErrors (file_path : string)
| PException (e : exn).

(** What a run of the display left behind: the lines printed, the URLs
    [webbrowser.open] was called with (in call order), and the exception
    that ended it, if one did. *)
Record display : Type := Display {
  printed : list line;
  opened : list string;
  raised : option exn
}.

(** [webbrowser.open(url)]: returns, or raises. *)
Definition browser := string -> option exn.

(** The lines of one error that come before the [if field_info:] test. *)
Definition lines_of_error (original_data : value) (err : error_dict) : list line :=
  [ PField (loc_str_of (ed_loc err)) (ed_msg err);
    PInvalidValue (get_value_by_path original_data (ed_loc err)) ].

Definition expected_of (err : error_dict) : string :=
  "Expected type: " +:+ match ed_type err with Some t => t | None => "unknown" end.

(** The [for err in errors:] loop of [print_friendly_errors], with the
    set [printed_links] as it stands before [errors]. *)
Fixpoint print_errors (open : browser) (original_data : value) (auto_open_docs : bool)
    (errors : list error_dict) (printed_links : gset string) : display :=
  match errors with
  | [] => Display [] [] None
  | err :: rest =>
      let continue (lines : list line) (urls : list string) (links : gset string) :=
        let d := print_errors open original_data auto_open_docs rest links in
        Display (lines_of_error original_data err ++ lines ++ [PBlank] ++ printed d)
                (urls ++ opened d) (raised d) in
      match FIELD_HELP !! loc_str_of (ed_loc err) with
      | Some field_info =>
          let doc_url := DOC_BASE_URL +:+ doc field_info in
          let lines := [PDesc (desc field_info); PSeeDocs doc_url] in
          if auto_open_docs && negb (bool_decide (doc_url ∈ printed_links)) then
            match open doc_url with
            | Some e => Display (lines_of_error original_data err ++ lines) [doc_url] (Some e)
            | None => continue lines [doc_url] ({[doc_url]} ∪ printed_links)
            end
          else continue lines [] printed_links
      | None =>
          continue [PExpected (expected_of err); PDocs DOC_BASE_URL] [] printed_links
      end
  end.

Definition print_friendly_errors (open : browser) (errors : list error_dict)
    (original_data : value) (auto_open_docs : bool) : display :=
  let d := print_errors open original_data auto_open_docs errors ∅ in
  Display (PValidationFailed :: printed d) (opened d) (raised d).

(* ================================================================== *)
(** ** YAML + validation runner *)

(** How a call ends: it returns, [sys.exit(code)], or an exception
    nothing catches. *)
Inductive ending : Type :=
| Returns
| SysExit (code : Z)
| Uncaught (e : exn).

(** A run of [validate_yaml_config]: the display, how the call ended, and
    the loaded document [data] as the run left it. *)
Record run : Type := Run {
  shown : display;
  ended : ending;
  data_after : option value
}.

(** What the lines before the [try] find at a path: no file
    ([path.exists()] is false); a file on which [path.open] or [yaml.load]
    raises (an I/O, decoding or parser error); or the document that
    [yaml.load] returns. *)
Inductive yaml_file : Type :=
| Missing
| Unreadable (e : exn)
| Loaded (data : value).

(** [validate_yaml_config(file_path, model_class, open_docs)] on the file
    at the path.  [path.open] and [yaml.load] stand before the [try], so
    their exception leaves the call uncaught, with nothing printed and no
    [sys.exit]; the [except] block covers [model_validate] only. *)
Definition validate_yaml_config (core : pydantic_core) (open : browser)
    (file : yaml_file) (file_path : string) (model_class : ty) (open_docs : bool) : run :=
  match file with
  | Missing => Run (Display [PFileNotFound file_path] [] None) (SysExit 1) None
  | Unreadable e => Run (Display [] [] None) (Uncaught e) None
  | Loaded data =>
      match validate core model_class data with
      | (data', Valid _) => Run (Display [PIsValid file_path] [] None) Returns (Some data')
      | (data', Invalid errs) =>
          let d := print_friendly_errors open (errors errs) data' open_docs in
          Run (Display (PHasErrors file_path :: printed d) (opened d) (raised d))
              (match raised d with Some e => Uncaught e | None => SysExit 1 end)
              (Some data')
      | (data', Raised e) =>
          Run (Display [PHasErrors file_path; PException e] [] None) (SysExit 1) (Some data')
      end
  end.

(* ================================================================== *)
(** ** The violation kinds of the specification *)

Inductive violation_kind : Type :=
| missing_field
| unexpected_field
| type_mismatch
| invalid_enum_value
| no_union_match
| model_check.

(** The specification's kind of each error type the validator reports;
    none of them is [no_union_match]. *)
Definition kind_of (t : err_type) : violation_kind :=
  match t with
  | missing => missing_field
  | extra_forbidden => unexpected_field
  | literal_error _ => invalid_enum_value
  | value_error _ => model_check
  | _ => type_mismatch
  end.

(** A sample of the library routines for evaluating examples: decimal
    digits are an integer, no string is a float, and a string is taken
    for a URL when it starts with the scheme. *)
Fixpoint digits_value (s : string) (acc : Z) : option Z :=
  match s with
  | EmptyString => Some acc
  | String c s' =>
      let n := nat_of_ascii c in
      if ((48 <=? n) && (n <=? 57))%nat then digits_value s' (10 * acc + Z.of_nat (n - 48))
      else None
  end.

Definition sample_core : pydantic_core :=
  PydanticCore
    (fun s => match s with
              | EmptyString => inr int_parsing
              | _ => match digits_value s 0 with Some z => inl z | None => inr int_parsing end
              end)
    (fun _ => None)
    (fun s => if String.prefix "http://" s || String.prefix "https://" s then None
              else Some (url_parsing "relative URL without a base")).

(** A browser that never raises, and one that always does. *)
Definition quiet_browser : browser := fun _ => None.
Definition failing_browser : browser :=
  fun _ => Some (OtherError "webbrowser.Error" "could not locate runnable browser").

(* ================================================================== *)
(** ** Notions the statements below use *)

(** No [before] validator anywhere in an annotation. *)
Fixpoint no_before (t : ty) : bool :=
  match t with
  | TOptional t' | TList t' | TDict t' => no_before t'
  | TUnion alts => forallb (fun a => no_before (snd a)) alts
  | TModel m fields =>
      match before m with
      | None => forallb (fun f => no_before (f_type f)) fields
      | Some _ => false
      end
  | _ => true
  end.

Definition not_raised (r : res) : Prop :=
  match r with Raised _ => False | _ => True end.

(** A validator that leaves its input as it was and lets no exception
    through. *)
Definition pure_validator (W : validator) : Prop :=
  forall x, fst (W x) = x /\ not_raised (snd (W x)).

(** The line errors one field contributes to its model, read off the
    input dict alone. *)
Definition field_errors {A : Type} (V : A -> validator) (d : dict) (f : field A) : list line_error :=
  match dict_get d (f_alias f) with
  | Some x => map (with_outer_location (LStr (f_alias f))) (errors_of (snd (V (f_type f) x)))
  | None =>
      match f_default f with
      | Some _ => []
      | None => [LineError missing [LStr (f_alias f)]]
      end
  end.

(** The attribute one valid field contributes to the instance. *)
Definition field_attr {A : Type} (V : A -> validator) (d : dict) (f : field A) : list (string * pyobj) :=
  match dict_get d (f_alias f) with
  | Some x => match snd (V (f_type f) x) with Valid o => [(f_name f, o)] | _ => [] end
  | None => match f_default f with Some o => [(f_name f, o)] | None => [] end
  end.

(** All field-level line errors of a model on the dict [d]: those of its
    fields in declaration order, then the unexpected keys. *)
Definition field_level_errors {A : Type} (V : A -> validator) (fields : list (field A)) (d : dict)
    : list line_error :=
  flat_map (field_errors V d) fields ++ extra_errors (map f_alias fields) d.

(** The error lies at or below the key [k]. *)
Definition loc_under (k : string) (e : line_error) : bool :=
  match le_loc e with
  | LStr k' :: _ => String.eqb k' k
  | _ => false
  end.

(** The lines after the two of [lines_of_error], for an error with or
    without a help entry. *)
Definition help_lines (err : error_dict) : list line :=
  match FIELD_HELP !! loc_str_of (ed_loc err) with
  | Some field_info => [PDesc (desc field_info); PSeeDocs (DOC_BASE_URL +:+ doc field_info)]
  | None => [PExpected (expected_of err); PDocs DOC_BASE_URL]
  end.

(** The rendered block of one error, and the part of it printed before
    [webbrowser.open] is called. *)
Definition partial_block (original_data : value) (err : error_dict) : list line :=
  lines_of_error original_data err ++ help_lines err.

Definition block (original_data : value) (err : error_dict) : list line :=
  partial_block original_data err ++ [PBlank].

(** The documentation link of an error, when it has a help entry. *)
Definition doc_url_of (err : error_dict) : option string :=
  match FIELD_HELP !! loc_str_of (ed_loc err) with
  | Some field_info => Some (DOC_BASE_URL +:+ doc field_info)
  | None => None
  end.

(** The object a [before] validator leaves behind, raising or not. *)
Definition left_by (hook : value -> exn + value) (v : value) : value :=
  match hook v with
  | inr v' => v'
  | inl _ => v
  end.

(** [d] with the object under [k], if any, replaced by [g] of it. *)
Definition dict_update (d : dict) (k : string) (g : value -> value) : dict :=
  match dict_get d k with
  | Some x => dict_set d k (g x)
  | None => d
  end.

Definition on_dict (g : dict -> dict) (v : value) : value :=
  match v with
  | VDict d => VDict (g d)
  | _ => v
  end.

(** The config document with [integrations.ai] as
    [AIIntegration.skip_nested_if_disabled] leaves it. *)
Definition config_after (data : value) : value :=
  on_dict (fun d =>
    dict_update d "integrations" (on_dict (fun di =>
      dict_update di "ai" (left_by AIIntegration_skip_nested_if_disabled)))) data.

(* ================================================================== *)
(** ** Entry point *)

(** The [__main__] block: the three files in turn, each with
    [open_docs=False]; a [sys.exit] (or an uncaught exception) in one call
    ends the program, so the calls after it do not happen.  The result is
    the list of the calls made. *)
Definition main (core : pydantic_core) (open : browser)
    (config custom_gear gear_maintenance : yaml_file) : list run :=
  let r1 := validate_yaml_config core open config "config.yaml" ConfigModel false in
  match ended r1 with
  | Returns =>
      let r2 := validate_yaml_config core open custom_gear "custom-gear.yaml"
                  CustomGearModel false in
      match ended r2 with
      | Returns =>
          [ r1; r2;
            validate_yaml_config core open gear_maintenance "gear-maintenance.yaml"
              GearMaintenanceModel false ]
      | _ => [r1; r2]
      end
  | _ => [r1]
  end.

(* ================================================================== *)
(** ** Further notions *)

(** The walk of [get_value_by_path], with [None] where the function
    returns its ["<value not found>"] text. *)
Fixpoint resolve (data : value) (path : loc) : option value :=
  match path with
  | [] => Some data
  | key :: path' =>
      match data, key with
      | VDict d, LStr k =>
          match dict_get d k with
          | Some x => resolve x path'
          | None => None
          end
      | VList l, LInt i =>
          match nth_error l i with
          | Some x => resolve x path'
          | None => None
          end
      | _, _ => None
      end
  end.

(** No [Union] anywhere in an annotation. *)
Fixpoint no_union (t : ty) : bool :=
  match t with
  | TOptional t' | TList t' | TDict t' => no_union t'
  | TUnion _ => false
  | TModel _ fields => forallb (fun f => no_union (f_type f)) fields
  | _ => true
  end.

(** Every dict of a document has each key once, as a Python dict does. *)
Fixpoint unique_keys (v : value) : bool :=
  match v with
  | VList l => forallb unique_keys l
  | VDict d =>
      bool_decide (NoDup (map fst d)) && forallb (fun kv => unique_keys (snd kv)) d
  | _ => true
  end.

(** The documentation links of the errors that have a help entry. *)
Definition doc_urls (errors : list error_dict) : list string :=
  omap doc_url_of errors.

(** The library routines report parsing errors, never [missing]. *)
Definition reports_no_missing (core : pydantic_core) : Prop :=
  (forall s, str_as_int core s <> inr missing) /\
  (forall s, http_url_error core s <> Some missing).

(** The location of a violation in the document: that of a [missing]
    field leads nowhere, any other leads to a value. *)
Definition located (v : value) (e : line_error) : Prop :=
  (le_type e = missing -> resolve v (le_loc e) = None) /\
  (le_type e <> missing -> is_Some (resolve v (le_loc e))).

(** A validator all of whose violations are so located. *)
Definition well_located (W : validator) : Prop :=
  forall x, unique_keys x = true -> Forall (located x) (errors_of (snd (W x))).

(** The file exists, loads, and its document is valid for the class. *)
Definition valid_file (core : pydantic_core) (file : yaml_file) (model_class : ty) : bool :=
  match file with
  | Loaded data => is_valid (snd (validate core model_class data))
  | _ => false
  end.

(** [isinstance(v, dict)] *)
Definition is_dict (v : value) : bool :=
  match v with
  | VDict _ => true
  | _ => false
  end.

(** The field is not in the input, or is [None] there: its attribute [is
    None] on an instance (for a field with the default [None]). *)
Definition absent_or_null (d : dict) (k : string) : bool :=
  match dict_get d k with
  | Some VNone | None => true
  | Some _ => false
  end.

(* ================================================================== *)
(** * Properties *)

(** ** Dicts *)

Lemma dict_get_set_ne (d : dict) (k k' : string) (v : value) :
  k <> k' -> dict_get (dict_set d k v) k' = dict_get d k'.
Proof.
  intros Hne. induction d as [|[k0 v0] d IH]; simpl; [reflexivity|].
  destruct (String.eqb k0 k) eqn:E0; simpl.
  - apply String.eqb_eq in E0. subst k0.
    destruct (String.eqb k k') eqn:E1; [apply String.eqb_eq in E1; contradiction|reflexivity].
  - destruct (String.eqb k0 k'); [reflexivity|apply IH].
Qed.

Lemma dict_set_same (d : dict) (k : string) (v : value) :
  dict_get d k = Some v -> dict_set d k v = d.
Proof.
  induction d as [|[k0 v0] d IH]; simpl; [reflexivity|].
  destruct (String.eqb k0 k) eqn:E0.
  - intros [= ->]. reflexivity.
  - intros H. rewrite IH; [reflexivity|exact H].
Qed.

Lemma dict_keys_set (d : dict) (k : string) (v : value) :
  dict_keys (dict_set d k v) = dict_keys d.
Proof.
  unfold dict_keys. induction d as [|[k0 v0] d IH]; simpl; [reflexivity|].
  destruct (String.eqb k0 k); simpl; [reflexivity|]. now rewrite IH.
Qed.

Lemma dict_get_pop_same (d : dict) (k : string) : dict_get (dict_pop d k) k = None.
Proof.
  induction d as [|[k0 v0] d IH]; simpl; [reflexivity|].
  destruct (String.eqb k0 k) eqn:E0; simpl; [exact IH|]. now rewrite E0.
Qed.

Lemma dict_get_pop_ne (d : dict) (k k' : string) :
  k <> k' -> dict_get (dict_pop d k) k' = dict_get d k'.
Proof.
  intros Hne. induction d as [|[k0 v0] d IH]; simpl; [reflexivity|].
  destruct (String.eqb k0 k) eqn:E0; simpl.
  - apply String.eqb_eq in E0. subst k0.
    destruct (String.eqb k k') eqn:E1; [apply String.eqb_eq in E1; contradiction|exact IH].
  - destruct (String.eqb k0 k'); [reflexivity|exact IH].
Qed.

Lemma extra_errors_keys (aliases : list string) (d d' : dict) :
  dict_keys d = dict_keys d' -> extra_errors aliases d = extra_errors aliases d'.
Proof.
  unfold dict_keys, extra_errors. revert d'.
  induction d as [|[k v] d IH]; intros [|[k' v'] d']; simpl; try discriminate; [reflexivity|].
  intros [= -> H]. now rewrite (IH d' H).
Qed.

(** ** Induction over annotations *)

Section TyInd.

Variable P : ty -> Prop.
Hypothesis HAny : P TAny.
Hypothesis HStr : P TStr.
Hypothesis HInt : P TInt.
Hypothesis HFloat : P TFloat.
Hypothesis HBool : P TBool.
Hypothesis HUrl : P THttpUrl.
Hypothesis HLiteral : forall expected, P (TLiteral expected).
Hypothesis HOptional : forall t, P t -> P (TOptional t).
Hypothesis HUnion : forall alts, Forall (fun a => P (snd a)) alts -> P (TUnion alts).
Hypothesis HList : forall t, P t -> P (TList t).
Hypothesis HDict : forall t, P t -> P (TDict t).
Hypothesis HModel : forall m fields, Forall (fun f => P (f_type f)) fields -> P (TModel m fields).

Fixpoint ty_nested_ind (t : ty) : P t :=
  match t with
  | TAny => HAny
  | TStr => HStr
  | TInt => HInt
  | TFloat => HFloat
  | TBool => HBool
  | THttpUrl => HUrl
  | TLiteral expected => HLiteral expected
  | TOptional t' => HOptional t' (ty_nested_ind t')
  | TUnion alts =>
      HUnion alts
        ((fix go (l : list (string * ty)) : Forall (fun a => P (snd a)) l :=
            match l with
            | [] => @List.Forall_nil _ _
            | a :: l' => @List.Forall_cons _ _ a l' (ty_nested_ind (snd a)) (go l')
            end) alts)
  | TList t' => HList t' (ty_nested_ind t')
  | TDict t' => HDict t' (ty_nested_ind t')
  | TModel m fields =>
      HModel m fields
        ((fix go (l : list (field ty)) : Forall (fun f => P (f_type f)) l :=
            match l with
            | [] => @List.Forall_nil _ _
            | f :: l' => @List.Forall_cons _ _ f l' (ty_nested_ind (f_type f)) (go l')
            end) fields)
  end.

End TyInd.

(** ** Validators that neither mutate nor raise *)

Lemma validate_items_pure (V : validator) :
  pure_validator V ->
  forall l i, exists errs, validate_items V i l = (l, inl errs).
Proof.
  intros HV. induction l as [|x l IH]; intros i; simpl; [eauto|].
  destruct (HV x) as [Hx Hr]. destruct (V x) as [x' r]. simpl in *. subst x'.
  destruct (IH (S i)) as [errs ->].
  destruct r; [eauto|eauto|contradiction].
Qed.

Lemma validate_entries_pure (V : validator) :
  pure_validator V ->
  forall d, exists errs, validate_entries V d = (d, inl errs).
Proof.
  intros HV. induction d as [|[k x] d IH]; simpl; [eauto|].
  destruct (HV x) as [Hx Hr]. destruct (V x) as [x' r]. simpl in *. subst x'.
  destruct IH as [errs ->].
  destruct r; [eauto|eauto|contradiction].
Qed.

Lemma validate_union_pure {A : Type} (V : A -> validator) (alts : list (string * A)) :
  Forall (fun a => pure_validator (V (snd a))) alts ->
  pure_validator (validate_union V alts).
Proof.
  induction 1 as [|[label a] alts Ha _ IH]; intros v; simpl; [auto|].
  simpl in Ha. destruct (Ha v) as [Hv Hr]. destruct (V a v) as [v' r]. simpl in *. subst v'.
  destruct r as [o|errs|e]; simpl; [auto| |contradiction].
  destruct (IH v) as [Hv' Hr']. destruct (validate_union V alts v) as [v' r'].
  simpl in *. subst v'. destruct r'; simpl; auto.
Qed.

Lemma validate_fields_pure {A : Type} (V : A -> validator) (fs : list (field A)) :
  Forall (fun f => pure_validator (V (f_type f))) fs ->
  forall d, exists c, validate_fields V fs d = (d, inl c).
Proof.
  induction 1 as [|f fs Hf _ IH]; intros d; simpl; [eauto|].
  destruct (dict_get d (f_alias f)) as [x|] eqn:Hget.
  - destruct (Hf x) as [Hx Hr]. destruct (V (f_type f) x) as [x' r]. simpl in *. subst x'.
    rewrite (dict_set_same _ _ _ Hget).
    destruct (IH d) as [[attrs errs] ->].
    destruct r; [eauto|eauto|contradiction].
  - destruct (IH d) as [[attrs errs] ->]. destruct (f_default f); eauto.
Qed.

Lemma not_raised_finish (errs : list line_error) (o : pyobj) : not_raised (finish (inl errs) o).
Proof. destruct errs; exact I. Qed.

Lemma not_raised_finish_model (m : model_class) {A : Type} (fields : list (field A))
    (d : dict) (c : instance * list line_error) :
  not_raised (finish_model m fields d (inl c)).
Proof.
  destruct c as [values errs]. unfold finish_model, run_after.
  destruct (errs ++ _); [|exact I].
  destruct (after m) as [check|]; [|exact I]. destruct (check values); exact I.
Qed.

Lemma validate_no_before (core : pydantic_core) (t : ty) :
  no_before t = true -> pure_validator (validate core t).
Proof.
  induction t as [| | | | | | expected | t IH | alts IH | t IH | t IH | m fields IH]
    using ty_nested_ind; simpl; intros Hnb v; simpl; try (split; [reflexivity|]).
  - exact I.
  - destruct v; exact I.
  - unfold validate_int, of_parse. destruct v; try exact I.
    + destruct (float_as_int f); exact I.
    + destruct (str_as_int core s); exact I.
  - unfold validate_float. destruct v; try exact I.
    + destruct (int_fits_float z); exact I.
    + destruct (str_as_float core s); exact I.
  - unfold validate_bool, of_bool_parse. destruct v; try exact I.
    + destruct (_ && _); [destruct (int_as_bool z)|]; exact I.
    + destruct (float_as_int f) as [z|]; [destruct (int_as_bool z)|]; exact I.
    + destruct (str_as_bool s); exact I.
  - unfold validate_http_url. destruct v; try exact I. destruct (http_url_error core s); exact I.
  - unfold validate_literal. destruct (existsb _ _); exact I.
  - destruct v; try apply (IH Hnb); split; [reflexivity|exact I].
  - apply validate_union_pure.
    rewrite forallb_forall in Hnb. rewrite Forall_forall in IH |- *.
    intros a Ha. apply (IH a Ha), (Hnb a). now apply list_elem_of_In.
  - destruct v; try (split; [reflexivity|exact I]).
    destruct (validate_items_pure _ (IH Hnb) l 0%nat) as [errs ->]. simpl.
    split; [reflexivity|apply not_raised_finish].
  - destruct v; try (split; [reflexivity|exact I]).
    destruct (validate_entries_pure _ (IH Hnb) d) as [errs ->]. simpl.
    split; [reflexivity|apply not_raised_finish].
  - unfold run_before. destruct (before m); [discriminate|].
    destruct v; try (split; [reflexivity|exact I]).
    assert (Hp : Forall (fun f => pure_validator (validate core (f_type f))) fields).
    { rewrite forallb_forall in Hnb. rewrite Forall_forall in IH |- *.
      intros f Hf. apply (IH f Hf), (Hnb f). now apply list_elem_of_In. }
    destruct (validate_fields_pure _ _ Hp d) as [c ->]. simpl.
    split; [reflexivity|apply not_raised_finish_model].
Qed.

(** ** What the fields of a model collect *)

Lemma flat_map_ext_In {A B : Type} (g h : A -> list B) (l : list A) :
  (forall a, In a l -> g a = h a) -> flat_map g l = flat_map h l.
Proof.
  induction l as [|a l IH]; simpl; intros H; [reflexivity|].
  rewrite (H a (or_introl eq_refl)), IH; [reflexivity|]. intros b Hb. apply H. now right.
Qed.

Lemma field_errors_set {A : Type} (V : A -> validator) (d : dict) (k : string) (x : value)
    (f : field A) :
  k <> f_alias f -> field_errors V (dict_set d k x) f = field_errors V d f.
Proof. intros Hne. unfold field_errors. now rewrite dict_get_set_ne. Qed.

Lemma field_attr_set {A : Type} (V : A -> validator) (d : dict) (k : string) (x : value)
    (f : field A) :
  k <> f_alias f -> field_attr V (dict_set d k x) f = field_attr V d f.
Proof. intros Hne. unfold field_attr. now rewrite dict_get_set_ne. Qed.

Lemma validate_fields_keys {A : Type} (V : A -> validator) (fs : list (field A)) (d : dict) :
  dict_keys (fst (validate_fields V fs d)) = dict_keys d.
Proof.
  revert d. induction fs as [|f fs IH]; intros d; simpl; [reflexivity|].
  destruct (dict_get d (f_alias f)) as [x|].
  - destruct (V (f_type f) x) as [x' r].
    specialize (IH (dict_set d (f_alias f) x')).
    destruct (validate_fields V fs (dict_set d (f_alias f) x')) as [d' c]. simpl in IH.
    destruct r; simpl; rewrite ?IH; apply dict_keys_set.
  - specialize (IH d). destruct (validate_fields V fs d) as [d' c]. exact IH.
Qed.

(** With distinct aliases, the fields collect, each from the input dict
    alone, their line errors and attributes in declaration order. *)
Lemma validate_fields_collect {A : Type} (V : A -> validator) (fs : list (field A)) :
  NoDup (map f_alias fs) ->
  forall d d' values errs,
    validate_fields V fs d = (d', inl (values, errs)) ->
    errs = flat_map (field_errors V d) fs /\ values = flat_map (field_attr V d) fs.
Proof.
  induction fs as [|f fs IH]; simpl; intros Hnd d d' values errs Hrun.
  - now inversion Hrun.
  - apply NoDup_cons in Hnd as [Hf Hnd].
    assert (Hne : forall g, In g fs -> f_alias f <> f_alias g).
    { intros g Hg Heq. apply Hf. rewrite Heq. apply list_elem_of_In, in_map, Hg. }
    unfold field_errors at 1, field_attr at 1.
    destruct (dict_get d (f_alias f)) as [x|] eqn:Hget.
    + destruct (V (f_type f) x) as [x' r] eqn:HV. simpl.
      destruct (validate_fields V fs (dict_set d (f_alias f) x')) as [d1 c] eqn:Hrest.
      assert (Hc : match c with
                   | inl (values', errs') =>
                       errs' = flat_map (field_errors V d) fs /\
                       values' = flat_map (field_attr V d) fs
                   | inr _ => True
                   end).
      { destruct c as [[values' errs']|]; [|exact I].
        destruct (IH Hnd _ _ _ _ Hrest) as [-> ->]. split.
        - apply flat_map_ext_In. intros g Hg. apply field_errors_set, Hne, Hg.
        - apply flat_map_ext_In. intros g Hg. apply field_attr_set, Hne, Hg. }
      destruct r as [o|es|e]; [| |discriminate];
        (destruct c as [[values' errs']|]; [|discriminate]);
        destruct Hc as [-> ->]; inversion Hrun; subst; split; reflexivity.
    + destruct (validate_fields V fs d) as [d1 c] eqn:Hrest.
      destruct c as [[values' errs']|]; [|discriminate].
      destruct (IH Hnd _ _ _ _ Hrest) as [-> ->].
      destruct (f_default f); inversion Hrun; subst; split; reflexivity.
Qed.

Section Model.

Context (core : pydantic_core).

(** A model lets through the exception of a validator below it;
    otherwise it reports all field-level line errors together, and runs
    its [after] validator only when there is none. *)
Lemma validate_model (m : model_class) (fields : list (field ty)) (v : value) (d : dict) :
  NoDup (map f_alias fields) ->
  run_before m v = inr (VDict d) ->
  not_raised (snd (validate core (TModel m fields) v)) ->
  snd (validate core (TModel m fields) v) =
    match field_level_errors (validate core) fields d with
    | [] => run_after m (flat_map (field_attr (validate core) d) fields)
    | errs => Invalid errs
    end.
Proof.
  intros Hnd Hbefore. simpl. rewrite Hbefore.
  pose proof (validate_fields_keys (validate core) fields d) as Hkeys.
  destruct (validate_fields (validate core) fields d) as [d' c] eqn:Hrun. simpl in *.
  destruct c as [[values errs]|e]; simpl; [intros _|contradiction].
  destruct (validate_fields_collect _ _ Hnd _ _ _ _ Hrun) as [-> ->].
  unfold field_level_errors. now rewrite (extra_errors_keys _ _ _ Hkeys).
Qed.

(** Below a model whose field annotations have no [before] validator,
    nothing raises. *)
Lemma validate_model_not_raised (m : model_class) (fields : list (field ty)) (v : value)
    (d : dict) :
  forallb (fun f => no_before (f_type f)) fields = true ->
  run_before m v = inr (VDict d) ->
  fst (validate core (TModel m fields) v) = VDict d /\
  not_raised (snd (validate core (TModel m fields) v)).
Proof.
  intros Hnb Hbefore. simpl. rewrite Hbefore.
  assert (Hp : Forall (fun f => pure_validator (validate core (f_type f))) fields).
  { rewrite forallb_forall in Hnb. apply Forall_forall. intros f Hf.
    apply validate_no_before, Hnb, list_elem_of_In, Hf. }
  destruct (validate_fields_pure _ _ Hp d) as [c ->]. simpl.
  split; [reflexivity|apply not_raised_finish_model].
Qed.

End Model.

(** ** The error display *)

(** One turn of the [for err in errors:] loop. *)
Lemma print_errors_cons (open : browser) (original_data : value) (auto_open_docs : bool)
    (err : error_dict) (rest : list error_dict) (printed_links : gset string) :
  print_errors open original_data auto_open_docs (err :: rest) printed_links =
    let continue (urls : list string) (links : gset string) :=
      let d := print_errors open original_data auto_open_docs rest links in
      Display (block original_data err ++ printed d) (urls ++ opened d) (raised d) in
    match doc_url_of err with
    | Some doc_url =>
        if auto_open_docs && negb (bool_decide (doc_url ∈ printed_links)) then
          match open doc_url with
          | Some e => Display (partial_block original_data err) [doc_url] (Some e)
          | None => continue [doc_url] ({[doc_url]} ∪ printed_links)
          end
        else continue [] printed_links
    | None => continue [] printed_links
    end.
Proof.
  cbn [print_errors]. unfold doc_url_of, block, partial_block, help_lines.
  destruct (FIELD_HELP !! loc_str_of (ed_loc err)) as [field_info|]; cbv zeta.
  - destruct (auto_open_docs && negb (bool_decide (_ ∈ printed_links))).
    + destruct (open _); [reflexivity|]. now rewrite <- !app_assoc.
    + now rewrite <- !app_assoc.
  - now rewrite <- !app_assoc.
Qed.

(** Every URL the loop opens is new: it is not in [printed_links], and
    it is opened once. *)
Lemma print_errors_opened (open : browser) (original_data : value) (auto_open_docs : bool)
    (errors : list error_dict) :
  forall printed_links : gset string,
    let d := print_errors open original_data auto_open_docs errors printed_links in
    NoDup (opened d) /\ forall url, In url (opened d) -> url ∉ printed_links.
Proof.
  induction errors as [|err rest IH]; intros links; cbv zeta.
  - split; [constructor|intros url []].
  - rewrite print_errors_cons. cbv zeta.
    destruct (doc_url_of err) as [doc_url|]; [|apply IH].
    destruct (auto_open_docs && negb (bool_decide (doc_url ∈ links))) eqn:Hopen;
      [|apply IH].
    apply andb_prop in Hopen as [_ Hin]. apply negb_true_iff, bool_decide_eq_false in Hin.
    destruct (open doc_url) as [e|]; cbn [opened app].
    + split; [apply NoDup_singleton|]. intros url [<-|[]]. exact Hin.
    + destruct (IH ({[doc_url]} ∪ links)) as [Hnd Hfresh]. split.
      * apply NoDup_cons. split; [|exact Hnd].
        intros Hu. apply list_elem_of_In in Hu. apply (Hfresh _ Hu).
        apply elem_of_union. left. now apply elem_of_singleton.
      * intros url [<-|Hu]; [exact Hin|].
        intros Hl. apply (Hfresh _ Hu), elem_of_union. now right.
Qed.

(** When no call of [webbrowser.open] can raise, the loop renders the
    block of every error. *)
Lemma print_errors_all (open : browser) (original_data : value) (auto_open_docs : bool)
    (errors : list error_dict) :
  auto_open_docs = false \/ (forall url, open url = None) ->
  forall printed_links : gset string,
    let d := print_errors open original_data auto_open_docs errors printed_links in
    raised d = None /\ printed d = flat_map (block original_data) errors.
Proof.
  intros Hquiet. induction errors as [|err rest IH]; intros links; cbv zeta; [auto|].
  rewrite print_errors_cons. cbv zeta. cbn [flat_map].
  assert (Hgo : forall urls links',
    let d := print_errors open original_data auto_open_docs rest links' in
    raised (Display (block original_data err ++ printed d) (urls ++ opened d) (raised d)) = None /\
    printed (Display (block original_data err ++ printed d) (urls ++ opened d) (raised d)) =
      block original_data err ++ flat_map (block original_data) rest).
  { intros urls links'. cbv zeta. cbn [raised printed].
    destruct (IH links') as [-> ->]. auto. }
  destruct (doc_url_of err) as [doc_url|]; [|apply Hgo].
  destruct (auto_open_docs && negb (bool_decide (doc_url ∈ links))) eqn:Hopen; [|apply Hgo].
  destruct Hquiet as [->|Hquiet]; [discriminate|]. rewrite Hquiet. apply Hgo.
Qed.

(** When the loop ends with an exception, [webbrowser.open] raised it at
    some error's link: the errors before are rendered, that error's block
    stops after its link, and no later error is rendered. *)
Lemma print_errors_raised (open : browser) (original_data : value) (auto_open_docs : bool)
    (errors : list error_dict) :
  forall (printed_links : gset string) (e : exn),
    let d := print_errors open original_data auto_open_docs errors printed_links in
    raised d = Some e ->
    exists pre err post url,
      errors = pre ++ err :: post /\ doc_url_of err = Some url /\ open url = Some e /\
      auto_open_docs = true /\
      printed d = flat_map (block original_data) pre ++ partial_block original_data err.
Proof.
  induction errors as [|err rest IH]; intros links e; cbv zeta; [discriminate|].
  rewrite print_errors_cons. cbv zeta.
  assert (Hgo : forall urls links',
    let d := print_errors open original_data auto_open_docs rest links' in
    raised (Display (block original_data err ++ printed d) (urls ++ opened d) (raised d)) = Some e ->
    exists pre err' post url,
      err :: rest = pre ++ err' :: post /\ doc_url_of err' = Some url /\ open url = Some e /\
      auto_open_docs = true /\
      printed (Display (block original_data err ++ printed d) (urls ++ opened d) (raised d)) =
        flat_map (block original_data) pre ++ partial_block original_data err').
  { intros urls links'. cbv zeta. cbn [raised printed]. intros Hr.
    destruct (IH links' e Hr) as (pre & err' & post & url & -> & ? & ? & ? & ->).
    exists (err :: pre), err', post, url. cbn [flat_map app]. rewrite <- app_assoc. auto. }
  destruct (doc_url_of err) as [doc_url|] eqn:Hdoc; [|apply Hgo].
  destruct (auto_open_docs && negb (bool_decide (doc_url ∈ links))) eqn:Hopen; [|apply Hgo].
  destruct (open doc_url) as [e'|] eqn:Hraise; [|apply Hgo].
  cbn [raised printed]. intros [= ->]. exists [], err, rest, doc_url.
  apply andb_prop in Hopen as [-> _]. auto.
Qed.

(** C9: in one run of [print_friendly_errors], whatever the errors, the
    document, the [auto_open_docs] flag and the behaviour of
    [webbrowser.open], no documentation link is passed to
    [webbrowser.open] twice: the URLs opened, in call order, have no
    duplicate, however many errors resolve to the same link. *)
Theorem C9_each_link_opened_once (open : browser) (errors : list error_dict)
    (original_data : value) (auto_open_docs : bool) :
  NoDup (opened (print_friendly_errors open errors original_data auto_open_docs)).
Proof.
  unfold print_friendly_errors. cbn [opened].
  apply (print_errors_opened open original_data auto_open_docs errors ∅).
Qed.

(** The forward direction.  With [auto_open_docs] set, the first error
    whose link [webbrowser.open] raises on ends the loop with that
    exception (the links of the errors before it opening without one):
    the errors before are rendered, that error's block stops after its
    link. *)
Lemma print_errors_raises (open : browser) (original_data : value)
    (pre : list error_dict) (err : error_dict) (post : list error_dict) (url : string)
    (e : exn) :
  Forall (fun err' => forall u, doc_url_of err' = Some u -> open u = None) pre ->
  doc_url_of err = Some url -> open url = Some e ->
  forall printed_links : gset string, url ∉ printed_links ->
    let d := print_errors open original_data true (pre ++ err :: post) printed_links in
    raised d = Some e /\
    printed d = flat_map (block original_data) pre ++ partial_block original_data err.
Proof.
  intros Hpre Hdoc Hopen.
  induction Hpre as [|p pre Hp _ IH]; intros links Hfresh; cbv zeta; cbn [app flat_map];
    rewrite print_errors_cons; cbv zeta.
  - rewrite Hdoc. cbn [andb]. rewrite (bool_decide_eq_false_2 _ Hfresh). cbn [negb].
    rewrite Hopen. auto.
  - assert (Hgo : forall urls links', url ∉ links' ->
      let d := print_errors open original_data true (pre ++ err :: post) links' in
      raised (Display (block original_data p ++ printed d) (urls ++ opened d) (raised d))
        = Some e /\
      printed (Display (block original_data p ++ printed d) (urls ++ opened d) (raised d))
        = (block original_data p ++ flat_map (block original_data) pre)
          ++ partial_block original_data err).
    { intros urls links' Hfresh'. cbv zeta. cbn [raised printed].
      destruct (IH links' Hfresh') as [-> ->]. now rewrite app_assoc. }
    destruct (doc_url_of p) as [u|] eqn:Hu; [|now apply Hgo].
    cbn [andb]. destruct (bool_decide (u ∈ links)); cbn [negb]; [now apply Hgo|].
    rewrite (Hp u eq_refl). apply Hgo.
    intros Hin. apply elem_of_union in Hin as [Hin|Hin]; [|contradiction].
    apply elem_of_singleton in Hin. subst u. rewrite (Hp url eq_refl) in Hopen.
    discriminate Hopen.
Qed.

(** An exception of [webbrowser.open] leaves [print_friendly_errors] inside
    the [except] block of [validate_yaml_config], so nothing catches it. *)
Lemma validate_yaml_config_uncaught (core : pydantic_core) (open : browser) (data : value)
    (file_path : string) (model_class : ty) (open_docs : bool) (e : exn) :
  raised (shown (validate_yaml_config core open (Loaded data) file_path model_class open_docs))
    = Some e ->
  ended (validate_yaml_config core open (Loaded data) file_path model_class open_docs)
    = Uncaught e.
Proof.
  unfold validate_yaml_config.
  destruct (validate core model_class data) as [data' [o|errs|e']]; cbn [shown raised ended];
    try discriminate.
  now intros ->.
Qed.

(** The run on a document with violations, when [webbrowser.open] raises
    on the link of one of them: the call ends with that exception
    uncaught, and prints nothing after the link. *)
Lemma validate_yaml_config_raises (core : pydantic_core) (open : browser) (data : value)
    (file_path : string) (model_class : ty) (line_errors : list line_error)
    (pre : list error_dict) (err : error_dict) (post : list error_dict) (url : string)
    (e : exn) :
  snd (validate core model_class data) = Invalid line_errors ->
  errors line_errors = pre ++ err :: post ->
  Forall (fun err' => forall u, doc_url_of err' = Some u -> open u = None) pre ->
  doc_url_of err = Some url -> open url = Some e ->
  let r := validate_yaml_config core open (Loaded data) file_path model_class true in
  ended r = Uncaught e /\
  printed (shown r) =
    PHasErrors file_path :: PValidationFailed ::
    flat_map (block (fst (validate core model_class data))) pre
    ++ partial_block (fst (validate core model_class data)) err.
Proof.
  intros Hres Herrs Hpre Hdoc Hopen. cbv zeta. unfold validate_yaml_config.
  destruct (validate core model_class data) as [data' r]. cbn [fst snd] in *. subst r.
  unfold print_friendly_errors. cbv zeta. cbn [shown ended printed raised]. rewrite Herrs.
  destruct (print_errors_raises open data' pre err post url e Hpre Hdoc Hopen ∅)
    as [-> ->]; [apply not_elem_of_empty|]. auto.
Qed.

(** C8, counterexample: with a browser that raises, the run on a config
    document with fourteen violations ends with the browser's exception
    uncaught, after the lines of the first violation only. *)
Lemma C8_counterexample :
  let data := VDict [("general", VDict [("appUrl", VInt 3)]);
                     ("appearance", VDict [("locale", VStr "xx")])] in
  let r := validate_yaml_config sample_core failing_browser (Loaded data) "config.yaml"
             ConfigModel true in
  length (errors_of (snd (validate sample_core ConfigModel data))) = 14%nat /\
  ended r = Uncaught (OtherError "webbrowser.Error" "could not locate runnable browser") /\
  printed (shown r) =
    [ PHasErrors "config.yaml"; PValidationFailed;
      PField "general.appUrl" "URL input should be a string or URL";
      PInvalidValue (VInt 3);
      PDesc "Base URL where the app is hosted.";
      PSeeDocs "https://statistics-for-strava-docs.robiningelbrecht.be/#/configuration/main-configuration" ].
Proof. vm_compute. repeat split. Qed.

(** C8, as the code has it: a failure of [webbrowser.open] is not
    swallowed.  When [auto_open_docs] is off or [webbrowser.open] never
    raises, [print_friendly_errors] ends normally and renders the block of
    every error.  When [auto_open_docs] is set and [webbrowser.open]
    raises [e] on the link of an error (the links of the errors before it
    opening without exception), [print_friendly_errors] ends with [e]:
    the blocks of the errors before are rendered, the block of that error
    stops after its link, and no later error is rendered; and
    [validate_yaml_config] on a document with these violations ends with
    [e] uncaught, not with [sys.exit(1)].  Conversely, an exception that
    ends the display was raised by [webbrowser.open] in this way. *)
Theorem C8_browser_failure_ends_display (open : browser) (errs : list error_dict)
    (original_data : value) (auto_open_docs : bool) :
  let d := print_friendly_errors open errs original_data auto_open_docs in
  (auto_open_docs = false \/ (forall url, open url = None) ->
   raised d = None /\
   printed d = PValidationFailed :: flat_map (block original_data) errs)
  /\
  (forall pre err post url e,
   errs = pre ++ err :: post ->
   Forall (fun err' => forall u, doc_url_of err' = Some u -> open u = None) pre ->
   doc_url_of err = Some url -> open url = Some e -> auto_open_docs = true ->
   raised d = Some e /\
   printed d = PValidationFailed ::
               flat_map (block original_data) pre ++ partial_block original_data err)
  /\
  (forall e, raised d = Some e ->
   exists pre err post url,
     errs = pre ++ err :: post /\ doc_url_of err = Some url /\ open url = Some e /\
     auto_open_docs = true /\
     printed d = PValidationFailed ::
                 flat_map (block original_data) pre ++ partial_block original_data err)
  /\
  (forall core data file_path model_class line_errors pre err post url e,
   snd (validate core model_class data) = Invalid line_errors ->
   errors line_errors = pre ++ err :: post ->
   Forall (fun err' => forall u, doc_url_of err' = Some u -> open u = None) pre ->
   doc_url_of err = Some url -> open url = Some e ->
   let r := validate_yaml_config core open (Loaded data) file_path model_class true in
   ended r = Uncaught e /\
   printed (shown r) =
     PHasErrors file_path :: PValidationFailed ::
     flat_map (block (fst (validate core model_class data))) pre
     ++ partial_block (fst (validate core model_class data)) err)
  /\
  (forall core data file_path model_class e,
   raised (shown (validate_yaml_config core open (Loaded data) file_path model_class
                    auto_open_docs)) = Some e ->
   ended (validate_yaml_config core open (Loaded data) file_path model_class auto_open_docs)
     = Uncaught e).
Proof.
  unfold print_friendly_errors. cbv zeta. cbn [raised printed].
  split; [|split; [|split; [|split]]].
  - intros Hquiet.
    destruct (print_errors_all open original_data auto_open_docs errs Hquiet ∅) as [-> ->].
    auto.
  - intros pre err post url e -> Hpre Hdoc Hopen ->.
    destruct (print_errors_raises open original_data pre err post url e Hpre Hdoc Hopen ∅)
      as [-> ->]; [apply not_elem_of_empty|]. auto.
  - intros e Hr.
    destruct (print_errors_raised open original_data auto_open_docs errs ∅ e Hr)
      as (pre & err & post & url & ? & ? & ? & ? & ->).
    exists pre, err, post, url. auto.
  - intros core data file_path model_class line_errors pre err post url e.
    apply validate_yaml_config_raises.
  - intros. now apply validate_yaml_config_uncaught.
Qed.

(** ** Unions *)

(** The line errors of the alternatives of a union, each under its
    alternative's label. *)
Lemma validate_union_none {A : Type} (V : A -> validator) (alts : list (string * A)) (v : value) :
  Forall (fun a => pure_validator (V (snd a))) alts ->
  existsb (fun a => is_valid (snd (V (snd a) v))) alts = false ->
  validate_union V alts v =
    (v, Invalid (flat_map (fun a => map (with_outer_location (LStr (fst a)))
                                        (errors_of (snd (V (snd a) v)))) alts)).
Proof.
  induction 1 as [|[label a] alts Ha _ IH]; simpl; [reflexivity|].
  intros Hnone. apply orb_false_elim in Hnone as [Hinv Hnone].
  simpl in Ha. destruct (Ha v) as [Hv Hr]. destruct (V a v) as [v' r]. simpl in *. subst v'.
  destruct r as [o|errs|e]; [discriminate| |contradiction].
  now rewrite (IH Hnone).
Qed.

Lemma validate_union_some {A : Type} (V : A -> validator) (alts : list (string * A)) (v : value) :
  Forall (fun a => pure_validator (V (snd a))) alts ->
  existsb (fun a => is_valid (snd (V (snd a) v))) alts = true ->
  exists o, validate_union V alts v = (v, Valid o).
Proof.
  induction 1 as [|[label a] alts Ha _ IH]; simpl; [discriminate|].
  intros Hsome. simpl in Ha. destruct (Ha v) as [Hv Hr].
  destruct (V a v) as [v' r]. simpl in *. subst v'.
  destruct r as [o|errs|e]; [eauto| |contradiction].
  destruct (IH Hsome) as [o ->]. eauto.
Qed.

Lemma pure_alternatives (core : pydantic_core) (alts : list (string * ty)) :
  forallb (fun a => no_before (snd a)) alts = true ->
  Forall (fun a => pure_validator (validate core (snd a))) alts.
Proof.
  intros Hnb. rewrite forallb_forall in Hnb. apply Forall_forall. intros a Ha.
  apply validate_no_before, Hnb, list_elem_of_In, Ha.
Qed.

(** C3, counterexample: [maxHeartRateFormula: 42] matches neither [str] nor
    [Dict[str, int]]; the union reports two violations, the failure of
    each alternative under the alternative's label, and none of them is a
    [no_union_match]. *)
Lemma C3_counterexample :
  validate sample_core maxHeartRateFormula_ty (VInt 42) =
    (VInt 42, Invalid [ LineError string_type [LStr "str"];
                        LineError dict_type [LStr "dict[str,int]"] ]) /\
  map (fun e => kind_of (le_type e))
      (errors_of (snd (validate sample_core maxHeartRateFormula_ty (VInt 42))))
    = [type_mismatch; type_mismatch].
Proof. split; reflexivity. Qed.

(** C3, as the code has it: for a union whose alternatives have no
    [before] validator (as those of this program), a value that an
    alternative accepts gives no violation; a value that no alternative
    accepts gives the violations of every alternative, in the order of the
    alternatives, each located under the union's path extended by the
    alternative's label. *)
Theorem C3_union_reports_every_alternative (core : pydantic_core)
    (alts : list (string * ty)) (v : value) :
  forallb (fun a => no_before (snd a)) alts = true ->
  (existsb (fun a => is_valid (snd (validate core (snd a) v))) alts = true ->
   exists o, validate core (TUnion alts) v = (v, Valid o))
  /\
  (existsb (fun a => is_valid (snd (validate core (snd a) v))) alts = false ->
   validate core (TUnion alts) v =
     (v, Invalid (flat_map (fun a => map (with_outer_location (LStr (fst a)))
                                         (errors_of (snd (validate core (snd a) v)))) alts))).
Proof.
  intros Hnb. apply pure_alternatives with (core := core) in Hnb. split; intros Hex.
  - apply (validate_union_some (validate core) alts v Hnb Hex).
  - apply (validate_union_none (validate core) alts v Hnb Hex).
Qed.

(** C3, witness: the union of [maxHeartRateFormula] on the string
    ["fox"] (accepted by [str]) and on [42] (accepted by no alternative). *)
Lemma C3_witness :
  (exists o, validate sample_core maxHeartRateFormula_ty (VStr "fox") = (VStr "fox", Valid o)) /\
  validate sample_core maxHeartRateFormula_ty (VInt 42) =
    (VInt 42, Invalid [ LineError string_type [LStr "str"];
                        LineError dict_type [LStr "dict[str,int]"] ]).
Proof.
  split.
  - apply (proj1 (C3_union_reports_every_alternative sample_core
                    [("str", TStr); ("dict[str,int]", TDict TInt)] (VStr "fox") eq_refl)).
    reflexivity.
  - apply (proj2 (C3_union_reports_every_alternative sample_core
                    [("str", TStr); ("dict[str,int]", TDict TInt)] (VInt 42) eq_refl)).
    reflexivity.
Defined.

(** ** The line errors at or below one field *)

Lemma filter_map_const {A B : Type} (P : B -> bool) (g : A -> B) (b : bool) (l : list A) :
  (forall a, P (g a) = b) ->
  List.filter P (map g l) = if b then map g l else [].
Proof.
  intros HP. induction l as [|a l IH]; simpl; [now destruct b|].
  rewrite HP, IH. now destruct b.
Qed.

Lemma filter_under_field_errors {A : Type} (V : A -> validator) (d : dict) (g : field A)
    (k : string) :
  List.filter (loc_under k) (field_errors V d g) =
    if String.eqb (f_alias g) k then field_errors V d g else [].
Proof.
  unfold field_errors. destruct (dict_get d (f_alias g)) as [x|].
  - apply filter_map_const. reflexivity.
  - destruct (f_default g); simpl; [now destruct (String.eqb _ _)|].
    unfold loc_under. simpl. now destruct (String.eqb _ _).
Qed.

Lemma mem_string_In (s : string) (l : list string) : mem_string s l = true <-> In s l.
Proof.
  unfold mem_string. rewrite existsb_exists. split.
  - intros (x & Hx & Heq). apply String.eqb_eq in Heq. now subst.
  - intros Hs. exists s. split; [exact Hs|apply String.eqb_refl].
Qed.

Lemma filter_under_extra (aliases : list string) (d : dict) (k : string) :
  In k aliases -> List.filter (loc_under k) (extra_errors aliases d) = [].
Proof.
  intros Hk. unfold extra_errors. induction d as [|[k' x] d IH]; simpl; [reflexivity|].
  rewrite List.filter_app, IH, app_nil_r.
  destruct (mem_string k' aliases) eqn:Hmem; simpl; [reflexivity|].
  unfold loc_under. simpl. destruct (String.eqb k' k) eqn:Heq; [|reflexivity].
  apply String.eqb_eq in Heq. subst k'. apply mem_string_In in Hk. congruence.
Qed.

Lemma filter_under_other_fields {A : Type} (V : A -> validator) (d : dict) (fs : list (field A))
    (k : string) :
  ~ In k (map f_alias fs) ->
  List.filter (loc_under k) (flat_map (field_errors V d) fs) = [].
Proof.
  induction fs as [|g fs IH]; simpl; intros Hk; [reflexivity|].
  rewrite List.filter_app, filter_under_field_errors, IH by tauto.
  destruct (String.eqb (f_alias g) k) eqn:Heq; [|reflexivity].
  apply String.eqb_eq in Heq. tauto.
Qed.

Lemma filter_under_fields {A : Type} (V : A -> validator) (d : dict) (fs : list (field A))
    (f : field A) :
  NoDup (map f_alias fs) -> In f fs ->
  List.filter (loc_under (f_alias f)) (flat_map (field_errors V d) fs) = field_errors V d f.
Proof.
  induction fs as [|g fs IH]; simpl; intros Hnd Hin; [contradiction|].
  apply NoDup_cons in Hnd as [Hg Hnd]. rewrite list_elem_of_In in Hg.
  rewrite List.filter_app, filter_under_field_errors.
  destruct Hin as [->|Hin].
  - rewrite String.eqb_refl, filter_under_other_fields by exact Hg. apply app_nil_r.
  - rewrite (IH Hnd Hin).
    destruct (String.eqb (f_alias g) (f_alias f)) eqn:Heq; [|reflexivity].
    apply String.eqb_eq in Heq. exfalso. apply Hg. rewrite Heq. now apply in_map.
Qed.

Lemma filter_under_field_level {A : Type} (V : A -> validator) (d : dict) (fs : list (field A))
    (f : field A) :
  NoDup (map f_alias fs) -> In f fs ->
  List.filter (loc_under (f_alias f)) (field_level_errors V fs d) = field_errors V d f.
Proof.
  intros Hnd Hin. unfold field_level_errors.
  rewrite List.filter_app, filter_under_fields, filter_under_extra by (auto using in_map).
  apply app_nil_r.
Qed.

Lemma filter_under_run_after (m : model_class) (values : instance) (k : string) :
  List.filter (loc_under k) (errors_of (run_after m values)) = [].
Proof.
  unfold run_after. destruct (after m) as [check|]; [|reflexivity].
  destruct (check values); reflexivity.
Qed.

(** Unless an exception ends the validation, the line errors a model
    reports at or below a field are those the field contributes. *)
Lemma errors_under_field (core : pydantic_core) (m : model_class) (fields : list (field ty))
    (v : value) (d : dict) (f : field ty) :
  NoDup (map f_alias fields) -> In f fields ->
  run_before m v = inr (VDict d) ->
  not_raised (snd (validate core (TModel m fields) v)) ->
  List.filter (loc_under (f_alias f)) (errors_of (snd (validate core (TModel m fields) v)))
    = field_errors (validate core) d f.
Proof.
  intros Hnd Hin Hbefore Hnr.
  rewrite (validate_model core m fields v d Hnd Hbefore Hnr).
  rewrite <- (filter_under_field_level (validate core) d fields f Hnd Hin).
  destruct (field_level_errors (validate core) fields d); [|reflexivity].
  apply filter_under_run_after.
Qed.

(** C4, counterexample: [Zwift.level] is declared [Optional[int]]; a
    [zwift] map without the key [level] is reported: the field is
    [missing]. *)
Lemma C4_counterexample :
  validate sample_core Zwift (VDict [("racingScore", VNone)]) =
    (VDict [("racingScore", VNone)], Invalid [LineError missing [LStr "level"]]).
Proof. reflexivity. Qed.

(** C4, as the code has it: [Optional[X]] permits the value [None], not
    absence.  For a field [f] annotated [Optional[t]] of any model class,
    unless an exception ends the validation: when the key is absent and the
    field has no default, exactly one violation lies at or below the
    field's path, [missing] at the field itself; when the key is absent and the
    field has a default ([provider], [configuration]), or the key is
    present with the value [None], no violation lies at or below the
    field's path. *)
Theorem C4_optional_permits_none_not_absence (core : pydantic_core) (m : model_class)
    (fields : list (field ty)) (v : value) (d : dict) (f : field ty) (t : ty) :
  NoDup (map f_alias fields) -> In f fields -> f_type f = TOptional t ->
  run_before m v = inr (VDict d) ->
  not_raised (snd (validate core (TModel m fields) v)) ->
  let under := List.filter (loc_under (f_alias f))
                 (errors_of (snd (validate core (TModel m fields) v))) in
  (dict_get d (f_alias f) = None -> f_default f = None ->
   under = [LineError missing [LStr (f_alias f)]])
  /\ (dict_get d (f_alias f) = None -> f_default f <> None -> under = [])
  /\ (dict_get d (f_alias f) = Some VNone -> under = []).
Proof.
  intros Hnd Hin Ht Hbefore Hnr. cbv zeta.
  rewrite (errors_under_field core m fields v d f Hnd Hin Hbefore Hnr).
  unfold field_errors. repeat split.
  - intros -> ->. reflexivity.
  - intros ->. destruct (f_default f); [reflexivity|congruence].
  - intros ->. rewrite Ht. reflexivity.
Qed.

Lemma NoDup_Zwift_aliases : NoDup ["level"; "racingScore"].
Proof. apply (bool_decide_unpack _). vm_compute. exact I. Defined.

(** C4, witness: [Zwift] on a map with [racingScore: null] and no
    [level]. *)
Lemma C4_witness :
  List.filter (loc_under "level")
    (errors_of (snd (validate sample_core Zwift (VDict [("racingScore", VNone)]))))
    = [LineError missing [LStr "level"]]
  /\ List.filter (loc_under "racingScore")
       (errors_of (snd (validate sample_core Zwift (VDict [("racingScore", VNone)])))) = [].
Proof.
  split.
  - apply (proj1 (C4_optional_permits_none_not_absence sample_core (plain "Zwift")
             [req "level" (TOptional TInt); req "racingScore" (TOptional TInt)]
             (VDict [("racingScore", VNone)]) [("racingScore", VNone)]
             (req "level" (TOptional TInt)) TInt
             NoDup_Zwift_aliases (or_introl eq_refl) eq_refl eq_refl I));
      reflexivity.
  - apply (proj2 (proj2 (C4_optional_permits_none_not_absence sample_core (plain "Zwift")
             [req "level" (TOptional TInt); req "racingScore" (TOptional TInt)]
             (VDict [("racingScore", VNone)]) [("racingScore", VNone)]
             (req "racingScore" (TOptional TInt)) TInt
             NoDup_Zwift_aliases (or_intror (or_introl eq_refl)) eq_refl eq_refl I))).
    reflexivity.
Defined.

(** ** Numbers *)

Lemma float_integral_finite (f : float) (n : Z) :
  float_integral f = Some n -> float_finite f = true.
Proof. unfold float_integral, float_finite. destruct (Prim2SF f); congruence. Qed.

(** C5, counterexample: [ftpHistory: [250.0]], a [float] at an [int]
    position, is accepted with no violation. *)
Lemma C5_counterexample :
  validate sample_core (TList TInt) (VList [VFloat 250%float]) =
    (VList [VFloat 250%float], Valid OOpaque).
Proof. reflexivity. Qed.

(** C5, as the code has it: an [int] position accepts a [float] exactly
    when the float is an integer strictly between [-2^63] and [2^63]
    (the lax conversion, as for [250.0]); every other [float] there gives
    exactly one violation, a type mismatch.  The [float]-accepting
    positions of the program, the values of [weightHistory], accept every
    [int]; a bare [float] annotation accepts an [int] exactly when it
    converts to a double. *)
Theorem C5_float_at_int_position (core : pydantic_core) (f : float) (z : Z) :
  (snd (validate core TInt (VFloat f)) = Valid OOpaque <->
   exists n, float_integral f = Some n /\ - 2 ^ 63 < n < 2 ^ 63)
  /\ (snd (validate core TInt (VFloat f)) = Valid OOpaque \/
      exists t, snd (validate core TInt (VFloat f)) = Invalid [LineError t []] /\
                kind_of t = type_mismatch)
  /\ validate core weight_ty (VInt z) = (VInt z, Valid OOpaque)
  /\ (snd (validate core TFloat (VInt z)) = Valid OOpaque <-> int_fits_float z = true).
Proof.
  cbn [validate snd validate_int validate_float]. unfold float_as_int.
  pose proof (float_integral_finite f) as Hfin.
  split; [|split; [|split; [reflexivity|]]].
  - destruct (float_integral f) as [n|] eqn:Hint.
    + rewrite (Hfin n eq_refl). cbn [negb].
      destruct ((- 2 ^ 63 <? n) && (n <? 2 ^ 63)) eqn:Hrange; cbn [of_parse]; split.
      * intros _. exists n. apply andb_prop in Hrange as [H1 H2].
        apply Z.ltb_lt in H1, H2. auto.
      * reflexivity.
      * discriminate.
      * intros (n' & [= <-] & H1 & H2).
        apply Z.ltb_lt in H1, H2. rewrite H1, H2 in Hrange. discriminate.
    + split; [destruct (float_finite f); discriminate|]. intros (n & [=] & _).
  - destruct (negb (float_finite f)); [right; eexists; split; reflexivity|].
    destruct (float_integral f) as [n|]; [|right; eexists; split; reflexivity].
    destruct (_ && _); [left; reflexivity|right; eexists; split; reflexivity].
  - destruct (int_fits_float z); split; auto; discriminate.
Qed.

(** ** The conditional objects *)

Lemma NoDup_AIIntegration_aliases : NoDup (map f_alias AIIntegration_fields).
Proof. apply (bool_decide_unpack _). vm_compute. exact I. Defined.

Lemma NoDup_CustomGearModel_aliases : NoDup (map f_alias CustomGearModel_fields).
Proof. apply (bool_decide_unpack _). vm_compute. exact I. Defined.

Lemma get_enabled_true (d : dict) :
  dict_get d "enabled" = Some (VBool true) -> truthy (get_enabled d) = true.
Proof. unfold get_enabled. now intros ->. Qed.

(** On a mapping, the [before] validators do not raise: they hand back
    the mapping, without the gated keys when [enabled] is falsy or
    absent. *)
Lemma AIIntegration_skip_dict (d : dict) :
  AIIntegration_skip_nested_if_disabled (VDict d) =
    inr (VDict (if truthy (get_enabled d) then d
                else dict_pop (dict_pop d "provider") "configuration")).
Proof. unfold AIIntegration_skip_nested_if_disabled. now destruct (truthy _). Qed.

Lemma CustomGearModel_skip_dict (d : dict) :
  CustomGearModel_skip_nested_if_disabled (VDict d) =
    inr (VDict (if truthy (get_enabled d) then d
                else dict_pop (dict_pop d "hashtagPrefix") "customGears")).
Proof. unfold CustomGearModel_skip_nested_if_disabled. now destruct (truthy _). Qed.

Section Conditional.

Context (core : pydantic_core).

(** [CustomGearModel] with a truthy [enabled]: an absent gated field is
    [missing], and nothing else lies at or below its path. *)
Lemma CustomGearModel_enabled_absent (d : dict) (g : string) :
  truthy (get_enabled d) = true ->
  In g ["hashtagPrefix"; "customGears"] -> dict_get d g = None ->
  List.filter (loc_under g) (errors_of (snd (validate core CustomGearModel (VDict d))))
    = [LineError missing [LStr g]].
Proof.
  intros Hen Hg Hget.
  assert (Hbefore : run_before CustomGearModel_class (VDict d) = inr (VDict d)).
  { cbn [run_before CustomGearModel_class before]. now rewrite CustomGearModel_skip_dict, Hen. }
  destruct (validate_model_not_raised core CustomGearModel_class CustomGearModel_fields
              (VDict d) d eq_refl Hbefore) as [_ Hnr].
  destruct Hg as [<-|[<-|[]]].
  - etransitivity; [exact (errors_under_field core CustomGearModel_class CustomGearModel_fields (VDict d) d
               (req "hashtagPrefix" TStr) NoDup_CustomGearModel_aliases
               (or_intror (or_introl eq_refl)) Hbefore Hnr)|].
    unfold field_errors. cbn [f_alias req f_default]. now rewrite Hget.
  - etransitivity; [exact (errors_under_field core CustomGearModel_class CustomGearModel_fields (VDict d) d
               (req "customGears" (TList CustomGearEntry)) NoDup_CustomGearModel_aliases
               (or_intror (or_intror (or_introl eq_refl))) Hbefore Hnr)|].
    unfold field_errors. cbn [f_alias req f_default]. now rewrite Hget.
Qed.

(** [CustomGearModel] with a falsy or absent [enabled]: the gated keys are
    removed from the input, and each gated field is then [missing]. *)
Lemma CustomGearModel_disabled (d : dict) (g : string) :
  truthy (get_enabled d) = false ->
  In g ["hashtagPrefix"; "customGears"] ->
  fst (validate core CustomGearModel (VDict d))
    = VDict (dict_pop (dict_pop d "hashtagPrefix") "customGears") /\
  List.filter (loc_under g) (errors_of (snd (validate core CustomGearModel (VDict d))))
    = [LineError missing [LStr g]].
Proof.
  intros Hen Hg.
  set (d' := dict_pop (dict_pop d "hashtagPrefix") "customGears").
  assert (Hbefore : run_before CustomGearModel_class (VDict d) = inr (VDict d')).
  { cbn [run_before CustomGearModel_class before]. now rewrite CustomGearModel_skip_dict, Hen. }
  destruct (validate_model_not_raised core CustomGearModel_class CustomGearModel_fields
              (VDict d) d' eq_refl Hbefore) as [Hfst Hnr].
  split; [exact Hfst|].
  destruct Hg as [<-|[<-|[]]].
  - etransitivity; [exact (errors_under_field core CustomGearModel_class CustomGearModel_fields (VDict d) d'
               (req "hashtagPrefix" TStr) NoDup_CustomGearModel_aliases
               (or_intror (or_introl eq_refl)) Hbefore Hnr)|].
    unfold field_errors, d'. cbn [f_alias req f_default].
    now rewrite dict_get_pop_ne, dict_get_pop_same by discriminate.
  - etransitivity; [exact (errors_under_field core CustomGearModel_class CustomGearModel_fields (VDict d) d'
               (req "customGears" (TList CustomGearEntry)) NoDup_CustomGearModel_aliases
               (or_intror (or_intror (or_introl eq_refl))) Hbefore Hnr)|].
    unfold field_errors, d'. cbn [f_alias req f_default].
    now rewrite dict_get_pop_same.
Qed.

(** [AIIntegration] with a falsy or absent [enabled]: the gated keys are
    removed from the input, and no violation lies at or below a gated
    field, whatever was stored there. *)
Lemma AIIntegration_disabled (d : dict) (g : string) :
  truthy (get_enabled d) = false ->
  In g ["provider"; "configuration"] ->
  fst (validate core AIIntegration (VDict d))
    = VDict (dict_pop (dict_pop d "provider") "configuration") /\
  not_raised (snd (validate core AIIntegration (VDict d))) /\
  List.filter (loc_under g) (errors_of (snd (validate core AIIntegration (VDict d)))) = [].
Proof.
  intros Hen Hg.
  set (d' := dict_pop (dict_pop d "provider") "configuration").
  assert (Hbefore : run_before AIIntegration_class (VDict d) = inr (VDict d')).
  { cbn [run_before AIIntegration_class before]. now rewrite AIIntegration_skip_dict, Hen. }
  destruct (validate_model_not_raised core AIIntegration_class AIIntegration_fields
              (VDict d) d' eq_refl Hbefore) as [Hfst Hnr].
  split; [exact Hfst|]. split; [exact Hnr|].
  destruct Hg as [<-|[<-|[]]].
  - etransitivity; [exact (errors_under_field core AIIntegration_class AIIntegration_fields (VDict d) d'
               (Field "provider" "provider" (TOptional AIProvider) (Some ONone))
               NoDup_AIIntegration_aliases
               (or_intror (or_intror (or_introl eq_refl))) Hbefore Hnr)|].
    unfold field_errors, d'. cbn [f_alias f_default].
    now rewrite dict_get_pop_ne, dict_get_pop_same by discriminate.
  - etransitivity; [exact (errors_under_field core AIIntegration_class AIIntegration_fields (VDict d) d'
               (Field "configuration" "configuration" (TOptional AIConfiguration) (Some ONone))
               NoDup_AIIntegration_aliases
               (or_intror (or_intror (or_intror (or_introl eq_refl)))) Hbefore Hnr)|].
    unfold field_errors, d'. cbn [f_alias f_default].
    now rewrite dict_get_pop_same.
Qed.

End Conditional.

Lemma field_attr_cases {A : Type} (V : A -> validator) (d : dict) (f : field A) :
  field_attr V d f = [] \/ exists o, field_attr V d f = [(f_name f, o)].
Proof.
  unfold field_attr. destruct (dict_get d (f_alias f)) as [x|].
  - destruct (snd (V (f_type f) x)); eauto.
  - destruct (f_default f); eauto.
Qed.

(** Closes a goal [exists g', In g' _ /\ (_ -> g' = _) /\ _ = _] with the
    gated field [g]. *)
Ltac names_gated g :=
  exists g; split; [simpl; auto|]; split; [first [discriminate|reflexivity]|reflexivity].

Section Required.

Context (core : pydantic_core).

(** On an instance of [AIIntegration] with [enabled: true] and a gated
    field absent from the input, [check_required_if_enabled] raises, for
    the first of [provider], [configuration] that is [None]. *)
Lemma AIIntegration_after_enabled (d : dict) (g : string) :
  dict_get d "enabled" = Some (VBool true) ->
  In g ["provider"; "configuration"] -> dict_get d g = None ->
  exists g', In g' ["provider"; "configuration"] /\
    (dict_get d "provider" = None -> g' = "provider") /\
    run_after AIIntegration_class (flat_map (field_attr (validate core) d) AIIntegration_fields)
      = invalid1 (value_error (g' +:+ " is required when AI integration is enabled")).
Proof.
  intros Hen Hg Hget.
  cbn [flat_map AIIntegration_fields]. rewrite app_nil_r.
  assert (HE : field_attr (validate core) d (req "enabled" TBool) = [("enabled", OBool true)]).
  { unfold field_attr. cbn [f_alias req]. now rewrite Hen. }
  rewrite HE. clear HE.
  unfold run_after. cbn [after AIIntegration_class].
  unfold AIIntegration_check_required_if_enabled.
  destruct (field_attr_cases (validate core) d (req "enableUI" TBool)) as [->|[oU ->]];
    cbn [f_name req].
  all: destruct (dict_get d "provider") as [x|] eqn:HP.
  all: try (assert (HC : field_attr (validate core) d
              (Field "configuration" "configuration" (TOptional AIConfiguration) (Some ONone))
              = [("configuration", ONone)]);
            [ destruct Hg as [<-|[<-|[]]]; [congruence|];
              unfold field_attr; cbn [f_alias f_default f_name]; now rewrite Hget
            | rewrite HC ]).
  all: try (assert (HPa : field_attr (validate core) d
              (Field "provider" "provider" (TOptional AIProvider) (Some ONone))
              = [("provider", ONone)]);
            [ unfold field_attr; cbn [f_alias f_default f_name]; now rewrite HP
            | rewrite HPa; names_gated "provider" ]).
  all: destruct (field_attr_cases (validate core) d
                   (Field "provider" "provider" (TOptional AIProvider) (Some ONone)))
         as [->|[oP ->]]; cbn [f_name]; [|destruct oP].
  all: first [names_gated "provider" | names_gated "configuration"].
Qed.

(** [AIIntegration] with [enabled: true] and a gated field absent: the
    validation fails, with no violation at or below the absent field; when
    no field-level violation exists, the only violation is the
    [value_error] of [check_required_if_enabled] at the model's own
    location. *)
Lemma AIIntegration_enabled_absent (d : dict) (g : string) :
  dict_get d "enabled" = Some (VBool true) ->
  In g ["provider"; "configuration"] -> dict_get d g = None ->
  is_valid (snd (validate core AIIntegration (VDict d))) = false /\
  not_raised (snd (validate core AIIntegration (VDict d))) /\
  List.filter (loc_under g) (errors_of (snd (validate core AIIntegration (VDict d)))) = [] /\
  (field_level_errors (validate core) AIIntegration_fields d = [] ->
   exists g', In g' ["provider"; "configuration"] /\
     (dict_get d "provider" = None -> g' = "provider") /\
     snd (validate core AIIntegration (VDict d))
       = invalid1 (value_error (g' +:+ " is required when AI integration is enabled"))).
Proof.
  intros Hen Hg Hget.
  assert (Hbefore : run_before AIIntegration_class (VDict d) = inr (VDict d)).
  { cbn [run_before AIIntegration_class before].
    now rewrite AIIntegration_skip_dict, (get_enabled_true d Hen). }
  destruct (validate_model_not_raised core AIIntegration_class AIIntegration_fields
              (VDict d) d eq_refl Hbefore) as [_ Hnr].
  pose proof (validate_model core AIIntegration_class AIIntegration_fields (VDict d) d
                NoDup_AIIntegration_aliases Hbefore Hnr) as Hr.
  destruct (AIIntegration_after_enabled d g Hen Hg Hget) as (g' & Hg' & Hfirst & Hafter).
  change (TModel AIIntegration_class AIIntegration_fields) with AIIntegration in *.
  repeat split.
  - rewrite Hr. destruct (field_level_errors _ _ _); [now rewrite Hafter|reflexivity].
  - exact Hnr.
  - destruct Hg as [<-|[<-|[]]].
    + etransitivity;
        [exact (errors_under_field core AIIntegration_class AIIntegration_fields (VDict d) d
                  (Field "provider" "provider" (TOptional AIProvider) (Some ONone))
                  NoDup_AIIntegration_aliases
                  (or_intror (or_intror (or_introl eq_refl))) Hbefore Hnr)|].
      unfold field_errors. cbn [f_alias f_default]. now rewrite Hget.
    + etransitivity;
        [exact (errors_under_field core AIIntegration_class AIIntegration_fields (VDict d) d
                  (Field "configuration" "configuration" (TOptional AIConfiguration) (Some ONone))
                  NoDup_AIIntegration_aliases
                  (or_intror (or_intror (or_intror (or_introl eq_refl)))) Hbefore Hnr)|].
      unfold field_errors. cbn [f_alias f_default]. now rewrite Hget.
  - intros Hnone. rewrite Hnone in Hr. exists g'. rewrite Hr. auto.
Qed.

End Required.

(** C1, counterexample: [AIIntegration] with [enabled: true] and neither
    [provider] nor [configuration]: the one violation is a [value_error]
    at the model's own location (the empty path); no [missing] violation
    lies at [provider] or at [configuration]. *)
Lemma C1_counterexample :
  let data := VDict [("enabled", VBool true); ("enableUI", VBool true)] in
  snd (validate sample_core AIIntegration data) =
    Invalid [LineError (value_error "provider is required when AI integration is enabled") []]
  /\ List.filter (loc_under "provider") (errors_of (snd (validate sample_core AIIntegration data)))
     = []
  /\ List.filter (loc_under "configuration")
       (errors_of (snd (validate sample_core AIIntegration data))) = [].
Proof. repeat split. Qed.

(** C1, as the code has it: with [enabled: true] and a gated field absent
    from the input map, [CustomGearModel] reports exactly one violation at
    or below that field's path, [missing] at the field itself, and its kind is
    missing-field.  [AIIntegration] always fails, but with no violation at
    or below the absent field's path: when no field-level violation
    exists, its only violation is a [value_error] at the model's own path,
    whose message names the first of [provider], [configuration] that is
    absent. *)
Theorem C1_gated_field_absent_when_enabled (core : pydantic_core) (d : dict) :
  dict_get d "enabled" = Some (VBool true) ->
  (forall g, In g ["hashtagPrefix"; "customGears"] -> dict_get d g = None ->
   List.filter (loc_under g) (errors_of (snd (validate core CustomGearModel (VDict d))))
     = [LineError missing [LStr g]] /\
   kind_of missing = missing_field)
  /\
  (forall g, In g ["provider"; "configuration"] -> dict_get d g = None ->
   is_valid (snd (validate core AIIntegration (VDict d))) = false /\
   not_raised (snd (validate core AIIntegration (VDict d))) /\
   List.filter (loc_under g) (errors_of (snd (validate core AIIntegration (VDict d)))) = [] /\
   (field_level_errors (validate core) AIIntegration_fields d = [] ->
    exists g', In g' ["provider"; "configuration"] /\
      (dict_get d "provider" = None -> g' = "provider") /\
      snd (validate core AIIntegration (VDict d))
        = invalid1 (value_error (g' +:+ " is required when AI integration is enabled")))).
Proof.
  intros Hen. split.
  - intros g Hg Hget. split; [|reflexivity].
    apply CustomGearModel_enabled_absent; auto using get_enabled_true.
  - intros g Hg Hget. apply AIIntegration_enabled_absent; assumption.
Qed.

(** C1, witness: the map [{enabled: true, enableUI: true}], for
    [hashtagPrefix] of [CustomGearModel] and [provider] of
    [AIIntegration]. *)
Lemma C1_witness :
  let d := [("enabled", VBool true); ("enableUI", VBool true)] in
  List.filter (loc_under "hashtagPrefix")
    (errors_of (snd (validate sample_core CustomGearModel (VDict d))))
    = [LineError missing [LStr "hashtagPrefix"]]
  /\ is_valid (snd (validate sample_core AIIntegration (VDict d))) = false
  /\ snd (validate sample_core AIIntegration (VDict d))
     = invalid1 (value_error "provider is required when AI integration is enabled").
Proof.
  cbv zeta.
  pose proof (C1_gated_field_absent_when_enabled sample_core
                [("enabled", VBool true); ("enableUI", VBool true)] eq_refl) as [Hgear Hai].
  split; [|split].
  - apply (Hgear "hashtagPrefix"); [simpl; auto|reflexivity].
  - apply (Hai "provider"); [simpl; auto|reflexivity].
  - destruct (Hai "provider" (or_introl eq_refl) eq_refl) as (_ & _ & _ & Hafter).
    destruct (Hafter eq_refl) as (g' & _ & Hfirst & Hres).
    rewrite (Hfirst eq_refl) in Hres. exact Hres.
Defined.

(** ** Aggregation *)

(** C2, counterexample: an [ai] map that lacks a valid [enableUI], a
    [provider] and a [configuration] takes three passes to report them:
    the pass on the map itself reports [enableUI] only (the [after]
    validator does not run); with [enableUI] fixed, the pass reports
    [provider] only (the [after] validator stops at its first [raise]);
    with [provider] fixed as well, the pass reports [configuration]. *)
Lemma C2_counterexample :
  snd (validate sample_core AIIntegration
         (VDict [("enabled", VBool true); ("enableUI", VNone)]))
    = Invalid [LineError bool_type [LStr "enableUI"]]
  /\ snd (validate sample_core AIIntegration
            (VDict [("enabled", VBool true); ("enableUI", VBool true)]))
     = Invalid [LineError (value_error "provider is required when AI integration is enabled") []]
  /\ snd (validate sample_core AIIntegration
            (VDict [("enabled", VBool true); ("enableUI", VBool true);
                    ("provider", VStr "openAI")]))
     = Invalid [LineError (value_error "configuration is required when AI integration is enabled") []].
Proof. repeat split. Qed.

(** C2, as the code has it: the field-level violations of a model are
    collected and reported together.  For a model class with distinct field
    aliases on an input map, either an exception below ends the validation,
    or, when there is a field-level violation, the pass reports exactly the
    violations of every field in declaration order followed by the
    unexpected keys; the model-level check ([after] validator) runs only
    when there is no field-level violation, and reports at most one. *)
Theorem C2_field_level_violations_collected (core : pydantic_core) (m : model_class)
    (fields : list (field ty)) (v : value) (d : dict) :
  NoDup (map f_alias fields) ->
  run_before m v = inr (VDict d) ->
  (exists e, snd (validate core (TModel m fields) v) = Raised e)
  \/ (field_level_errors (validate core) fields d <> [] /\
      snd (validate core (TModel m fields) v)
        = Invalid (flat_map (field_errors (validate core) d) fields
                   ++ extra_errors (map f_alias fields) d))
  \/ (field_level_errors (validate core) fields d = [] /\
      (snd (validate core (TModel m fields) v) = Valid OOpaque \/
       exists msg, snd (validate core (TModel m fields) v) = invalid1 (value_error msg))).
Proof.
  intros Hnd Hbefore.
  destruct (snd (validate core (TModel m fields) v)) as [o|errs|e] eqn:Hres;
    [| |left; eauto]; right.
  all: pose proof (validate_model core m fields v d Hnd Hbefore) as Hr;
       rewrite Hres in Hr; specialize (Hr I); fold (field_level_errors (validate core) fields d).
  all: destruct (field_level_errors (validate core) fields d) as [|e0 es];
       [right; split; [reflexivity|] | left; split; [discriminate|]].
  all: try (unfold run_after in Hr; destruct (after m) as [check|];
            [destruct (check _) as [msg|]|]; inversion Hr; subst; eauto; fail).
  - discriminate.
  - exact Hr.
Qed.

Lemma NoDup_CustomGearEntry_aliases : NoDup ["tag"; "label"; "isRetired"].
Proof. apply (bool_decide_unpack _). vm_compute. exact I. Defined.

(** C2, witness: a custom gear entry with two type errors in different
    fields; both are reported in one pass. *)
Lemma C2_witness :
  snd (validate sample_core CustomGearEntry
         (VDict [("tag", VInt 1); ("label", VInt 2); ("isRetired", VBool true)]))
    = Invalid [LineError string_type [LStr "tag"]; LineError string_type [LStr "label"]].
Proof.
  destruct (C2_field_level_violations_collected sample_core (plain "CustomGearEntry")
              [req "tag" TStr; req "label" TStr; req "isRetired" TBool]
              (VDict [("tag", VInt 1); ("label", VInt 2); ("isRetired", VBool true)])
              [("tag", VInt 1); ("label", VInt 2); ("isRetired", VBool true)]
              NoDup_CustomGearEntry_aliases eq_refl)
    as [[e He]|[[_ Hr]|[Hnone _]]].
  - discriminate He.
  - exact Hr.
  - discriminate Hnone.
Defined.

(** ** The gate when [enabled] is falsy or absent *)

Lemma filter_singleton_In {A : Type} (P : A -> bool) (l : list A) (x : A) :
  List.filter P l = [x] -> In x l.
Proof.
  intros H. apply (proj1 (List.filter_In P x l)). rewrite H. now left.
Qed.

(** C6: [CustomGearModel] breaks the gate.  With [enabled] false or absent
    the [before] validator removes [hashtagPrefix] and [customGears], but
    both fields are declared without a default, so the validation always
    fails and reports each of them [missing]. *)
Theorem C6_custom_gear_disabled_reports_gated_missing (core : pydantic_core) (d : dict) :
  dict_get d "enabled" = Some (VBool false) \/ dict_get d "enabled" = None ->
  exists errs,
    snd (validate core CustomGearModel (VDict d)) = Invalid errs /\
    In (LineError missing [LStr "hashtagPrefix"]) errs /\
    In (LineError missing [LStr "customGears"]) errs.
Proof.
  intros Hen.
  assert (Hfalsy : truthy (get_enabled d) = false).
  { unfold get_enabled. now destruct Hen as [-> | ->]. }
  destruct (CustomGearModel_disabled core d "hashtagPrefix" Hfalsy) as [_ Hprefix];
    [simpl; auto|].
  destruct (CustomGearModel_disabled core d "customGears" Hfalsy) as [_ Hgears];
    [simpl; auto|].
  destruct (snd (validate core CustomGearModel (VDict d))) as [o|errs|e];
    [discriminate Hprefix| |discriminate Hprefix].
  exists errs. eauto using filter_singleton_In.
Qed.

(** C6, witness: a disabled custom-gear document with well-formed gated
    fields. *)
Lemma C6_witness :
  exists errs,
    snd (validate sample_core CustomGearModel
           (VDict [("enabled", VBool false); ("hashtagPrefix", VStr "sfs");
                   ("customGears", VList [])])) = Invalid errs /\
    In (LineError missing [LStr "hashtagPrefix"]) errs /\
    In (LineError missing [LStr "customGears"]) errs.
Proof.
  apply (C6_custom_gear_disabled_reports_gated_missing sample_core
           [("enabled", VBool false); ("hashtagPrefix", VStr "sfs"); ("customGears", VList [])]).
  left. reflexivity.
Defined.

(** C10: the gate is Python truthiness.  For every input map whose
    [enabled] is falsy or absent the [before] validators remove the gated
    keys, so what was stored there is never validated.  In [AIIntegration]
    no violation lies at or below a gated field.  In [CustomGearModel]
    each gated field is then reported [missing]: the fields stay
    required. *)
Theorem C10_falsy_gate_strips_gated_fields (core : pydantic_core) (d : dict) :
  truthy (get_enabled d) = false ->
  (fst (validate core AIIntegration (VDict d))
     = VDict (dict_pop (dict_pop d "provider") "configuration") /\
   forall g, In g ["provider"; "configuration"] ->
     List.filter (loc_under g) (errors_of (snd (validate core AIIntegration (VDict d)))) = [])
  /\
  (fst (validate core CustomGearModel (VDict d))
     = VDict (dict_pop (dict_pop d "hashtagPrefix") "customGears") /\
   forall g, In g ["hashtagPrefix"; "customGears"] ->
     List.filter (loc_under g) (errors_of (snd (validate core CustomGearModel (VDict d))))
       = [LineError missing [LStr g]]).
Proof.
  intros Hfalsy. repeat split.
  - apply (AIIntegration_disabled core d "provider" Hfalsy). simpl. auto.
  - intros g Hg. apply (AIIntegration_disabled core d g Hfalsy Hg).
  - apply (CustomGearModel_disabled core d "hashtagPrefix" Hfalsy). simpl. auto.
  - intros g Hg. apply (CustomGearModel_disabled core d g Hfalsy Hg).
Qed.

(** C10, witness: [enabled: 0] with a malformed [hashtagPrefix]: the key is
    removed and never validated, and the field is reported [missing]. *)
Lemma C10_witness :
  validate sample_core CustomGearModel (VDict [("enabled", VInt 0); ("hashtagPrefix", VInt 7)])
    = (VDict [("enabled", VInt 0)],
       Invalid [LineError missing [LStr "hashtagPrefix"];
                LineError missing [LStr "customGears"]])
  /\ List.filter (loc_under "hashtagPrefix")
       (errors_of (snd (validate sample_core CustomGearModel
                          (VDict [("enabled", VInt 0); ("hashtagPrefix", VInt 7)]))))
     = [LineError missing [LStr "hashtagPrefix"]].
Proof.
  split; [reflexivity|].
  apply (proj2 (proj2 (C10_falsy_gate_strips_gated_fields sample_core
                         [("enabled", VInt 0); ("hashtagPrefix", VInt 7)] eq_refl))).
  simpl. auto.
Defined.

(** ** The document after a pass *)

Lemma validate_fields_app_pure {A : Type} (V : A -> validator) (fs1 fs2 : list (field A)) :
  Forall (fun f => pure_validator (V (f_type f))) fs1 ->
  forall d, fst (validate_fields V (fs1 ++ fs2) d) = fst (validate_fields V fs2 d).
Proof.
  induction 1 as [|f fs1 Hf _ IH]; intros d; simpl; [reflexivity|].
  destruct (dict_get d (f_alias f)) as [x|] eqn:Hget.
  - destruct (Hf x) as [Hx Hr]. destruct (V (f_type f) x) as [x' r]. simpl in *. subst x'.
    rewrite (dict_set_same _ _ _ Hget). specialize (IH d).
    destruct (validate_fields V (fs1 ++ fs2) d) as [d' c]. simpl in IH. subst d'.
    destruct r; [reflexivity|reflexivity|contradiction].
  - specialize (IH d). destruct (validate_fields V (fs1 ++ fs2) d) as [d' c]. exact IH.
Qed.

Lemma validate_fields_single {A : Type} (V : A -> validator) (f : field A) (d : dict) :
  fst (validate_fields V [f] d) = dict_update d (f_alias f) (fun x => fst (V (f_type f) x)).
Proof.
  simpl. unfold dict_update. destruct (dict_get d (f_alias f)) as [x|]; [|reflexivity].
  destruct (V (f_type f) x) as [x' r]. now destruct r.
Qed.

Lemma dict_update_ext (d : dict) (k : string) (g h : value -> value) :
  (forall x, g x = h x) -> dict_update d k g = dict_update d k h.
Proof. intros Hgh. unfold dict_update. destruct (dict_get d k); [now rewrite Hgh|reflexivity]. Qed.

Section After.

Context (core : pydantic_core).

Lemma validate_unchanged (t : ty) (v : value) :
  no_before t = true -> fst (validate core t v) = v.
Proof. intros Hnb. apply (validate_no_before core t Hnb v). Qed.

Lemma AIIntegration_after (v : value) :
  fst (validate core AIIntegration v) = left_by AIIntegration_skip_nested_if_disabled v.
Proof.
  unfold left_by. destruct v as [| | | | | |d];
    try reflexivity.
  rewrite AIIntegration_skip_dict.
  apply (validate_model_not_raised core AIIntegration_class AIIntegration_fields (VDict d)).
  - reflexivity.
  - cbn [run_before AIIntegration_class before]. apply AIIntegration_skip_dict.
Qed.

Lemma CustomGearModel_after (v : value) :
  fst (validate core CustomGearModel v) = left_by CustomGearModel_skip_nested_if_disabled v.
Proof.
  unfold left_by. destruct v as [| | | | | |d];
    try reflexivity.
  rewrite CustomGearModel_skip_dict.
  apply (validate_model_not_raised core CustomGearModel_class CustomGearModel_fields (VDict d)).
  - reflexivity.
  - cbn [run_before CustomGearModel_class before]. apply CustomGearModel_skip_dict.
Qed.

Lemma Integrations_after (v : value) :
  fst (validate core Integrations v) =
    on_dict (fun di => dict_update di "ai" (left_by AIIntegration_skip_nested_if_disabled)) v.
Proof.
  destruct v as [| | | | | |d]; try reflexivity.
  unfold Integrations. cbn [validate run_before plain before on_dict].
  pose proof (validate_fields_single (validate core) (req "ai" AIIntegration) d) as Hsingle.
  destruct (validate_fields (validate core) [req "ai" AIIntegration] d) as [d' c].
  cbn [fst] in *. rewrite Hsingle. f_equal. apply dict_update_ext, AIIntegration_after.
Qed.

Lemma ConfigModel_after (v : value) : fst (validate core ConfigModel v) = config_after v.
Proof.
  destruct v as [| | | | | |d]; try reflexivity.
  unfold ConfigModel, config_after. cbn [validate run_before plain before on_dict].
  pose proof (validate_fields_app_pure (validate core)
                [ req "general" General; req "appearance" Appearance;
                  Field "import_" "import" ImportSettings None;
                  req "metrics" Metrics; req "zwift" Zwift ]
                [ req "integrations" Integrations ]) as Happ.
  pose proof (validate_fields_single (validate core) (req "integrations" Integrations) d)
    as Hsingle.
  cbn [app] in Happ. rewrite <- Happ in Hsingle.
  - destruct (validate_fields (validate core) _ d) as [d' c].
    cbn [fst] in *. rewrite Hsingle. f_equal. apply dict_update_ext, Integrations_after.
  - repeat constructor; apply validate_no_before; reflexivity.
Qed.

Lemma data_after_validate (open : browser) (data : value) (file_path : string)
    (model_class : ty) (open_docs : bool) :
  data_after (validate_yaml_config core open (Loaded data) file_path model_class open_docs)
    = Some (fst (validate core model_class data)).
Proof.
  unfold validate_yaml_config.
  destruct (validate core model_class data) as [data' [o|errs|e]]; reflexivity.
Qed.

End After.

Lemma dict_keys_pop (d : dict) (k : string) :
  dict_keys (dict_pop d k) = List.filter (fun k' => negb (String.eqb k' k)) (dict_keys d).
Proof.
  unfold dict_keys. induction d as [|[k0 v0] d IH]; simpl; [reflexivity|].
  destruct (String.eqb k0 k); simpl; now rewrite IH.
Qed.

Lemma dict_get_set_same (d : dict) (k : string) (v : value) :
  is_Some (dict_get d k) -> dict_get (dict_set d k v) k = Some v.
Proof.
  induction d as [|[k0 v0] d IH]; simpl; [intros [x Hx]; discriminate Hx|].
  destruct (String.eqb k0 k) eqn:E0; simpl; rewrite E0; [reflexivity|exact IH].
Qed.

(** What [dict_update] leaves under each key. *)
Lemma dict_get_update (d : dict) (k k' : string) (g : value -> value) :
  dict_get (dict_update d k g) k'
    = if String.eqb k k' then option_map g (dict_get d k') else dict_get d k'.
Proof.
  unfold dict_update. destruct (String.eqb k k') eqn:E.
  - apply String.eqb_eq in E. subst k'. destruct (dict_get d k) as [x|] eqn:Hget.
    + rewrite dict_get_set_same by (rewrite Hget; eauto). reflexivity.
    + now rewrite Hget.
  - apply String.eqb_neq in E. destruct (dict_get d k); [|reflexivity].
    now apply dict_get_set_ne.
Qed.

(** What a [before] validator leaves of a mapping: the mapping itself
    when [enabled] is truthy; otherwise the mapping without the two gated
    keys, every other key in its place and with its value. *)
Lemma skip_nested_frame (d : dict) :
  (exists d',
     left_by CustomGearModel_skip_nested_if_disabled (VDict d) = VDict d' /\
     (truthy (get_enabled d) = true -> d' = d) /\
     (truthy (get_enabled d) = false ->
      dict_get d' "hashtagPrefix" = None /\ dict_get d' "customGears" = None /\
      dict_keys d' = List.filter (fun k => negb (String.eqb k "customGears"))
                       (List.filter (fun k => negb (String.eqb k "hashtagPrefix"))
                          (dict_keys d))) /\
     (forall k, k <> "hashtagPrefix" -> k <> "customGears" -> dict_get d' k = dict_get d k))
  /\
  (exists d',
     left_by AIIntegration_skip_nested_if_disabled (VDict d) = VDict d' /\
     (truthy (get_enabled d) = true -> d' = d) /\
     (truthy (get_enabled d) = false ->
      dict_get d' "provider" = None /\ dict_get d' "configuration" = None /\
      dict_keys d' = List.filter (fun k => negb (String.eqb k "configuration"))
                       (List.filter (fun k => negb (String.eqb k "provider"))
                          (dict_keys d))) /\
     (forall k, k <> "provider" -> k <> "configuration" -> dict_get d' k = dict_get d k)).
Proof.
  unfold left_by. rewrite CustomGearModel_skip_dict, AIIntegration_skip_dict.
  split; eexists; (split; [reflexivity|]); destruct (truthy (get_enabled d));
    (split; [congruence|]); (split; [try discriminate|]).
  all: try (intros _; split; [|split];
            [ rewrite dict_get_pop_ne by discriminate; apply dict_get_pop_same
            | apply dict_get_pop_same
            | now rewrite !dict_keys_pop ]).
  all: intros k H1 H2; try reflexivity; now rewrite !dict_get_pop_ne by congruence.
Qed.

(** On an input that is no mapping the [before] validators raise, and
    leave it as it is. *)
Lemma skip_nested_not_dict (v : value) :
  is_dict v = false ->
  left_by CustomGearModel_skip_nested_if_disabled v = v /\
  left_by AIIntegration_skip_nested_if_disabled v = v.
Proof. destruct v; try discriminate; intros _; split; reflexivity. Qed.

(** [config_after] changes the document at [integrations.ai] only. *)
Lemma config_after_frame (data : value) :
  (forall k, k <> "integrations" ->
     resolve (config_after data) [LStr k] = resolve data [LStr k])
  /\ (forall k, k <> "ai" ->
        resolve (config_after data) [LStr "integrations"; LStr k]
          = resolve data [LStr "integrations"; LStr k])
  /\ resolve (config_after data) [LStr "integrations"; LStr "ai"]
       = option_map (left_by AIIntegration_skip_nested_if_disabled)
           (resolve data [LStr "integrations"; LStr "ai"]).
Proof.
  destruct data as [| | | | | |d]; try (repeat split; reflexivity).
  unfold config_after. cbn [on_dict resolve].
  assert (Hunder : forall k,
    match dict_get (dict_update d "integrations"
             (on_dict (fun di => dict_update di "ai"
                (left_by AIIntegration_skip_nested_if_disabled)))) "integrations" with
    | Some x => match x with
                | VDict d0 => match dict_get d0 k with Some x0 => Some x0 | None => None end
                | _ => None
                end
    | None => None
    end
    = match dict_get d "integrations" with
      | Some (VDict di) =>
          if String.eqb "ai" k
          then option_map (left_by AIIntegration_skip_nested_if_disabled) (dict_get di k)
          else dict_get di k
      | _ => None
      end).
  { intros k. rewrite dict_get_update, String.eqb_refl.
    destruct (dict_get d "integrations") as [[| | | | | |di]|]; try reflexivity.
    cbn [option_map on_dict]. rewrite dict_get_update.
    destruct (String.eqb "ai" k); [|now destruct (dict_get di k)].
    now destruct (dict_get di k). }
  split; [|split].
  - intros k Hk. rewrite dict_get_update.
    destruct (String.eqb "integrations" k) eqn:E; [|reflexivity].
    apply String.eqb_eq in E. congruence.
  - intros k Hk. rewrite Hunder.
    destruct (String.eqb "ai" k) eqn:E; [apply String.eqb_eq in E; congruence|].
    destruct (dict_get d "integrations") as [[| | | | | |di]|]; try reflexivity.
    now destruct (dict_get di k).
  - rewrite Hunder, String.eqb_refl.
    destruct (dict_get d "integrations") as [[| | | | | |di]|]; try reflexivity.
    now destruct (dict_get di "ai").
Qed.

(** C7, counterexample: the pass over a disabled custom-gear document
    removes [hashtagPrefix] and [customGears] from the loaded document. *)
Lemma C7_counterexample :
  let data := VDict [("enabled", VBool false); ("hashtagPrefix", VStr "sfs");
                     ("customGears", VList [])] in
  data_after (validate_yaml_config sample_core quiet_browser (Loaded data) "custom-gear.yaml"
                CustomGearModel false)
    = Some (VDict [("enabled", VBool false)])
  /\ get_value_by_path data [LStr "hashtagPrefix"] = VStr "sfs"
  /\ get_value_by_path (VDict [("enabled", VBool false)]) [LStr "hashtagPrefix"] = value_not_found.
Proof. repeat split. Qed.

(** C7, as the code has it: a pass changes the loaded document only
    through the two [before] validators.  A gear-maintenance document is
    left as it was parsed; a custom-gear document ends as
    [CustomGearModel.skip_nested_if_disabled] leaves it; a config document
    ends with [integrations.ai] as [AIIntegration.skip_nested_if_disabled]
    leaves it, and is unchanged everywhere else.  Those leave an input
    that is no mapping as it is, and a mapping unchanged when its
    [enabled] is truthy; when [enabled] is falsy or absent the two gated
    keys are removed (they are no longer keys of the mapping) and nothing
    else: the other keys stay in their order, each with its value.  (The
    document is a tree: a mapping that a YAML alias places at a second
    path is one object in Python, and would change at both.) *)
Theorem C7_pass_removes_only_gated_keys (core : pydantic_core) (open : browser)
    (data : value) (file_path : string) (open_docs : bool) :
  data_after (validate_yaml_config core open (Loaded data) file_path GearMaintenanceModel
                open_docs)
    = Some data
  /\ data_after (validate_yaml_config core open (Loaded data) file_path CustomGearModel
                   open_docs)
     = Some (left_by CustomGearModel_skip_nested_if_disabled data)
  /\ data_after (validate_yaml_config core open (Loaded data) file_path ConfigModel open_docs)
     = Some (config_after data)
  /\ (forall d, exists d',
        left_by CustomGearModel_skip_nested_if_disabled (VDict d) = VDict d' /\
        (truthy (get_enabled d) = true -> d' = d) /\
        (truthy (get_enabled d) = false ->
         dict_get d' "hashtagPrefix" = None /\ dict_get d' "customGears" = None /\
         dict_keys d' = List.filter (fun k => negb (String.eqb k "customGears"))
                          (List.filter (fun k => negb (String.eqb k "hashtagPrefix"))
                             (dict_keys d))) /\
        (forall k, k <> "hashtagPrefix" -> k <> "customGears" -> dict_get d' k = dict_get d k))
  /\ (forall d, exists d',
        left_by AIIntegration_skip_nested_if_disabled (VDict d) = VDict d' /\
        (truthy (get_enabled d) = true -> d' = d) /\
        (truthy (get_enabled d) = false ->
         dict_get d' "provider" = None /\ dict_get d' "configuration" = None /\
         dict_keys d' = List.filter (fun k => negb (String.eqb k "configuration"))
                          (List.filter (fun k => negb (String.eqb k "provider"))
                             (dict_keys d))) /\
        (forall k, k <> "provider" -> k <> "configuration" -> dict_get d' k = dict_get d k))
  /\ (forall v, is_dict v = false ->
        left_by CustomGearModel_skip_nested_if_disabled v = v /\
        left_by AIIntegration_skip_nested_if_disabled v = v)
  /\ (forall k, k <> "integrations" ->
        resolve (config_after data) [LStr k] = resolve data [LStr k])
  /\ (forall k, k <> "ai" ->
        resolve (config_after data) [LStr "integrations"; LStr k]
          = resolve data [LStr "integrations"; LStr k])
  /\ resolve (config_after data) [LStr "integrations"; LStr "ai"]
       = option_map (left_by AIIntegration_skip_nested_if_disabled)
           (resolve data [LStr "integrations"; LStr "ai"]).
Proof.
  rewrite !data_after_validate.
  rewrite (validate_unchanged core GearMaintenanceModel data eq_refl).
  rewrite CustomGearModel_after, ConfigModel_after.
  split; [reflexivity|]. split; [reflexivity|]. split; [reflexivity|].
  split; [intros d; apply (skip_nested_frame d)|].
  split; [intros d; apply (skip_nested_frame d)|].
  split; [exact skip_nested_not_dict|].
  exact (config_after_frame data).
Qed.

(** ** Examples *)

(** [extra = "forbid"]: an unexpected key is one violation at that key. *)
Example DateFormat_extra_key :
  validate sample_core DateFormat
    (VDict [("short", VStr "d-m-y"); ("normal", VStr "d-m-Y"); ("extra", VInt 1)])
  = (VDict [("short", VStr "d-m-y"); ("normal", VStr "d-m-Y"); ("extra", VInt 1)],
     Invalid [LineError extra_forbidden [LStr "extra"]]).
Proof. reflexivity. Qed.

(** [general.appUrl] and [appearance.locale] share the documentation page
    [main-configuration]: both violations are rendered, the page is opened
    once. *)
Example shared_link_opened_once :
  let d := print_friendly_errors quiet_browser
             (errors [ LineError url_type [LStr "general"; LStr "appUrl"];
                       LineError (literal_error [LitStr "metric"; LitStr "imperial"])
                                 [LStr "appearance"; LStr "locale"] ])
             (VDict []) true in
  opened d = [DOC_BASE_URL +:+ "main-configuration"] /\
  length (List.filter (fun l => match l with PSeeDocs _ => true | _ => false end) (printed d))
    = 2%nat /\
  raised d = None.
Proof. vm_compute. repeat split. Qed.

(** A list item that fails is located by its index; the items around it
    are still validated. *)
Example ftpHistory_items :
  snd (validate sample_core (TList TInt)
         (VList [VInt 240; VFloat 250.5%float; VNone; VInt 260]))
  = Invalid [LineError int_from_float [LInt 1]; LineError int_type [LInt 2]].
Proof. reflexivity. Qed.

(** An input that is no mapping makes [values.get] raise in the [before]
    validator: the run prints the exception text and exits with status 1. *)
Example custom_gear_document_is_a_list :
  validate_yaml_config sample_core quiet_browser (Loaded (VList [])) "custom-gear.yaml"
    CustomGearModel false
  = Run (Display [PHasErrors "custom-gear.yaml"; PException (AttributeError "get")] [] None)
        (SysExit 1) (Some (VList [])).
Proof. reflexivity. Qed.

(* ================================================================== *)
(** * Further properties *)

(** ** [get_value_by_path] *)

Lemma get_value_by_path_not_found (path : loc) :
  get_value_by_path value_not_found path = value_not_found.
Proof. destruct path as [|[k|i] path]; reflexivity. Qed.

(** X1: walking a path in two legs is walking it in one: the value under
    [p ++ q] is the value under [q] of the value under [p].  This holds
    also when the first leg fails, since the ["<value not found>"] text it
    returns has nothing below it. *)
Theorem get_value_by_path_app (data : value) (p q : loc) :
  get_value_by_path data (p ++ q) = get_value_by_path (get_value_by_path data p) q.
Proof.
  revert data. induction p as [|key p IH]; intros data; simpl; [reflexivity|].
  destruct data as [| | | | |l|d], key as [k|i]; simpl;
    try (symmetry; apply get_value_by_path_not_found).
  - destruct (nth_error l i) as [x|]; [apply IH|].
    symmetry. apply get_value_by_path_not_found.
  - destruct (dict_get d k) as [x|]; [apply IH|].
    symmetry. apply get_value_by_path_not_found.
Qed.

Lemma get_value_by_path_resolve (data : value) (path : loc) :
  get_value_by_path data path =
    match resolve data path with
    | Some x => x
    | None => value_not_found
    end.
Proof.
  revert data. induction path as [|key path IH]; intros data; simpl; [reflexivity|].
  destruct data as [| | | | |l|d], key as [k|i]; try reflexivity.
  - destruct (nth_error l i); [apply IH|reflexivity].
  - destruct (dict_get d k); [apply IH|reflexivity].
Qed.

(** ** Where the violations lie in the document *)

Lemma located_here (v : value) (t : err_type) : t <> missing -> located v (LineError t []).
Proof. intros Ht. split; simpl; [contradiction|eauto]. Qed.

Lemma located_under_key (d : dict) (k : string) (x : value) (e : line_error) :
  dict_get d k = Some x -> located x e -> located (VDict d) (with_outer_location (LStr k) e).
Proof. intros Hget [H1 H2]. split; simpl; rewrite Hget; assumption. Qed.

Lemma located_under_index (l : list value) (i : nat) (x : value) (e : line_error) :
  nth_error l i = Some x -> located x e -> located (VList l) (with_outer_location (LInt i) e).
Proof. intros Hget [H1 H2]. split; simpl; rewrite Hget; assumption. Qed.

Lemma dict_get_In (d : dict) (k : string) (x : value) : dict_get d k = Some x -> In (k, x) d.
Proof.
  induction d as [|[k' x'] d IH]; simpl; [discriminate|].
  destruct (String.eqb k' k) eqn:Heq.
  - apply String.eqb_eq in Heq. intros [= ->]. subst. now left.
  - intros H. right. now apply IH.
Qed.

Lemma dict_get_key (d : dict) (k : string) (x : value) :
  In (k, x) d -> is_Some (dict_get d k).
Proof.
  induction d as [|[k' x'] d IH]; simpl; [contradiction|].
  destruct (String.eqb k' k) eqn:Heq; [eauto|].
  intros [[= -> ->]|H]; [|now apply IH]. rewrite String.eqb_refl in Heq. discriminate.
Qed.

Lemma dict_get_app_fresh (pre d : dict) (k : string) :
  ~ In k (map fst pre) -> dict_get (pre ++ d) k = dict_get d k.
Proof.
  induction pre as [|[k' x'] pre IH]; simpl; [reflexivity|]. intros Hk.
  destruct (String.eqb k' k) eqn:Heq; [|apply IH; tauto].
  apply String.eqb_eq in Heq. tauto.
Qed.

Lemma Forall_located_errors_of_finish (v : value) (errs : list line_error) (o : pyobj) :
  Forall (located v) errs -> Forall (located v) (errors_of (finish (inl errs) o)).
Proof. destruct errs; simpl; auto. Qed.

Section Located.

Context (core : pydantic_core) (Hcore : reports_no_missing core).

Lemma validate_items_located (V : validator) :
  pure_validator V -> 
  forall l pre errs,
    Forall (fun x => unique_keys x = true -> Forall (located x) (errors_of (snd (V x)))) l ->
    forallb unique_keys l = true ->
    snd (validate_items V (length pre) l) = inl errs ->
    Forall (located (VList (pre ++ l))) errs.
Proof.
  intros HV. induction l as [|x l IH]; intros pre errs Hl Hu; simpl.
  - intros [= <-]. constructor.
  - apply Forall_cons in Hl as [Hx Hl]. simpl in Hu. apply andb_prop in Hu as [Hux Hu].
    destruct (HV x) as [Hfst Hnr]. destruct (V x) as [x' r]. simpl in *. subst x'.
    specialize (IH (pre ++ [x])). rewrite length_app in IH. simpl in IH.
    replace (length pre + 1)%nat with (S (length pre)) in IH by lia.
    rewrite <- app_assoc in IH. simpl in IH.
    destruct (validate_items V (S (length pre)) l) as [l'' c]. simpl in IH.
    assert (Hhere : Forall (located (VList (pre ++ x :: l)))
                      (map (with_outer_location (LInt (length pre))) (errors_of r))).
    { apply Forall_map. eapply Forall_impl; [apply (Hx Hux)|]. intros e He.
      apply located_under_index with (x := x); [|exact He].
      rewrite nth_error_app2 by lia. now rewrite Nat.sub_diag. }
    destruct r as [o|es|e]; [| |contradiction];
      (destruct c as [errs'|]; cbn [snd]; [|discriminate]);
      intros [= <-]; try (apply Forall_app_2; [exact Hhere|]); auto.
Qed.

Lemma validate_entries_located (V : validator) :
  pure_validator V ->
  forall d pre errs,
    Forall (fun kv => unique_keys (snd kv) = true ->
                      Forall (located (snd kv)) (errors_of (snd (V (snd kv))))) d ->
    forallb (fun kv => unique_keys (snd kv)) d = true ->
    NoDup (map fst (pre ++ d)) ->
    snd (validate_entries V d) = inl errs ->
    Forall (located (VDict (pre ++ d))) errs.
Proof.
  intros HV. induction d as [|[k x] d IH]; intros pre errs Hd Hu Hnd; simpl.
  - intros [= <-]. constructor.
  - apply Forall_cons in Hd as [Hx Hd]. simpl in Hx, Hu. apply andb_prop in Hu as [Hux Hu].
    destruct (HV x) as [Hfst Hnr]. destruct (V x) as [x' r]. simpl in *. subst x'.
    specialize (IH (pre ++ [(k, x)])). rewrite <- app_assoc in IH. simpl in IH.
    destruct (validate_entries V d) as [d'' c]. simpl in IH.
    assert (Hhere : Forall (located (VDict (pre ++ (k, x) :: d)))
                      (map (with_outer_location (LStr k)) (errors_of r))).
    { apply Forall_map. eapply Forall_impl; [apply (Hx Hux)|]. intros e He.
      apply located_under_key with (x := x); [|exact He].
      rewrite dict_get_app_fresh; [simpl; now rewrite String.eqb_refl|].
      rewrite map_app in Hnd. simpl in Hnd. apply NoDup_app in Hnd as (_ & Hnd & _).
      intros Hk. apply (Hnd k); [now apply list_elem_of_In|]. left. }
    destruct r as [o|es|e]; [| |contradiction];
      (destruct c as [errs'|]; cbn [snd]; [|discriminate]);
      intros [= <-]; try (apply Forall_app_2; [exact Hhere|]); auto.
Qed.

Lemma validate_fields_located (V : ty -> validator) (d : dict) :
  (forall k x, dict_get d k = Some x -> unique_keys x = true) ->
  forall fs values errs,
    Forall (fun f => pure_validator (V (f_type f)) /\ well_located (V (f_type f))) fs ->
    snd (validate_fields V fs d) = inl (values, errs) ->
    Forall (located (VDict d)) errs.
Proof.
  intros Hd. induction fs as [|f fs IH]; intros values errs Hfs; simpl.
  - intros [= <- <-]. constructor.
  - apply Forall_cons in Hfs as [[Hpure Hloc] Hfs].
    destruct (dict_get d (f_alias f)) as [x|] eqn:Hget.
    + destruct (Hpure x) as [Hfst Hnr]. specialize (Hloc x (Hd _ _ Hget)).
      destruct (V (f_type f) x) as [x' r]. simpl in *. subst x'.
      rewrite (dict_set_same _ _ _ Hget).
      assert (Hhere : Forall (located (VDict d))
                        (map (with_outer_location (LStr (f_alias f))) (errors_of r))).
      { apply Forall_map. eapply Forall_impl; [exact Hloc|]. intros e He.
        now apply located_under_key with (x := x). }
      specialize (IH) . destruct (validate_fields V fs d) as [d' c]. simpl in IH.
      destruct r as [o|es|e]; [| |contradiction];
        (destruct c as [[values' errs']|]; cbn [snd]; [|discriminate]);
        intros [= <- <-]; try (apply Forall_app_2; [exact Hhere|]); eauto.
    + destruct (validate_fields V fs d) as [d' c]. simpl in IH.
      destruct c as [[values' errs']|]; cbn [snd]; [|discriminate].
      destruct (f_default f); intros [= <- <-]; eauto.
      constructor; [|eauto]. split; simpl; [now rewrite Hget|congruence].
Qed.

Lemma extra_errors_located (aliases : list string) (d d0 : dict) :
  (forall kv, In kv d -> In kv d0) ->
  Forall (located (VDict d0)) (extra_errors aliases d).
Proof.
  unfold extra_errors. induction d as [|[k x] d IH]; intros Hsub; simpl; [constructor|].
  apply Forall_app_2; [|apply IH; intros kv Hkv; apply Hsub; now right].
  destruct (mem_string k aliases); [constructor|]. constructor; [|constructor].
  split; simpl; [discriminate|]. intros _.
  destruct (dict_get_key d0 k x (Hsub _ (or_introl eq_refl))) as [y ->]. eauto.
Qed.

Lemma scalar_located (v : value) (r : res) :
  (forall t, r = invalid1 t -> t <> missing) ->
  (r = Valid OOpaque \/ (exists b, r = Valid (OBool b)) \/ exists t, r = invalid1 t) ->
  Forall (located v) (errors_of r).
Proof.
  intros Hne [->|[[b ->]|[t ->]]]; simpl; try constructor; [|constructor].
  apply located_here, Hne. reflexivity.
Qed.


Ltac here :=
  first [ apply List.Forall_nil
        | apply List.Forall_cons; [apply located_here; try discriminate|apply List.Forall_nil] ].

Lemma validate_located (t : ty) :
  no_before t = true -> no_union t = true -> well_located (validate core t).
Proof.
  destruct Hcore as [Hint Hurl].
  induction t as [| | | | | | expected | t IH | alts IH | t IH | t IH | m fields IH]
    using ty_nested_ind; simpl; intros Hnb Hnu v Huniq; simpl.
  - constructor.
  - destruct v; here.
  - unfold validate_int, of_parse. destruct v; try here.
    + destruct (float_as_int f) as [z|t] eqn:Hf; [constructor|]. here.
      intros ->. unfold float_as_int in Hf.
      destruct (negb (float_finite f)); [discriminate|].
      destruct (float_integral f) as [n|]; [|discriminate].
      destruct ((- 2 ^ 63 <? n) && (n <? 2 ^ 63)); discriminate.
    + destruct (str_as_int core s) as [z|t] eqn:Hs; [constructor|]. here.
      intros ->. exact (Hint s Hs).
  - unfold validate_float. destruct v; try here.
    + destruct (int_fits_float z); here.
    + destruct (str_as_float core s); here.
  - unfold validate_bool, of_bool_parse. destruct v; try here.
    + destruct (_ && _); [destruct (int_as_bool z)|]; here.
    + destruct (float_as_int f) as [z|]; [destruct (int_as_bool z)|]; here.
    + destruct (str_as_bool s); here.
  - unfold validate_http_url. destruct v; try here.
    destruct (http_url_error core s) as [t|] eqn:Hs; [|constructor]. here.
    intros ->. exact (Hurl s Hs).
  - unfold validate_literal. destruct (existsb _ _); here.
  - destruct v; try apply (IH Hnb Hnu); try exact Huniq. constructor.
  - discriminate.
  - destruct v as [| | | | |l|d]; try here.
    pose proof (validate_items_located (validate core t) (validate_no_before core t Hnb)
                  l [] ) as Hitems.
    destruct (validate_items_pure _ (validate_no_before core t Hnb) l 0%nat) as [errs Hrun].
    simpl in Hitems. rewrite Hrun in Hitems |- *. simpl.
    apply Forall_located_errors_of_finish, Hitems; [|exact Huniq|reflexivity].
    apply Forall_forall. intros x _. apply (IH Hnb Hnu).
  - destruct v as [| | | | |l|d]; try here.
    simpl in Huniq. apply andb_prop in Huniq as [Hkeys Huniq].
    apply bool_decide_eq_true in Hkeys.
    pose proof (validate_entries_located (validate core t) (validate_no_before core t Hnb)
                  d [] ) as Hentries.
    destruct (validate_entries_pure _ (validate_no_before core t Hnb) d) as [errs Hrun].
    simpl in Hentries. rewrite Hrun in Hentries |- *. simpl.
    apply Forall_located_errors_of_finish, Hentries; [|exact Huniq|exact Hkeys|reflexivity].
    apply Forall_forall. intros kv _. apply (IH Hnb Hnu).
  - unfold run_before. destruct (before m); [discriminate|].
    destruct v as [| | | | |l|d]; try here.
    simpl in Huniq. apply andb_prop in Huniq as [Hkeys Huniq].
    assert (Hchildren : forall k x, dict_get d k = Some x -> unique_keys x = true).
    { intros k x Hget. rewrite forallb_forall in Huniq.
      apply (Huniq (k, x)), dict_get_In, Hget. }
    assert (Hfs : Forall (fun f => pure_validator (validate core (f_type f)) /\
                                   well_located (validate core (f_type f))) fields).
    { rewrite forallb_forall in Hnb, Hnu. rewrite Forall_forall in IH |- *.
      intros f Hf. pose proof (proj1 (list_elem_of_In _ _) Hf) as Hf'. split.
      - apply validate_no_before, Hnb, Hf'.
      - apply (IH f Hf); [apply Hnb|apply Hnu]; exact Hf'. }
    assert (Hpure : Forall (fun f => pure_validator (validate core (f_type f))) fields).
    { eapply Forall_impl; [exact Hfs|]. now intros f [? _]. }
    destruct (validate_fields_pure _ _ Hpure d) as [[values errs] Hrun].
    pose proof (validate_fields_located (validate core) d Hchildren fields values errs Hfs)
      as Hlocated.
    rewrite Hrun in Hlocated |- *. specialize (Hlocated eq_refl). simpl.
    pose proof (extra_errors_located (map f_alias fields) d d (fun kv H => H)) as Hextra.
    destruct (errs ++ extra_errors (map f_alias fields) d) as [|e es] eqn:Hall.
    + unfold run_after. destruct (after m) as [check|]; [|constructor].
      destruct (check values); here.
    + rewrite <- Hall. simpl. now apply Forall_app_2.
Qed.

End Located.

Lemma sample_core_reports_no_missing : reports_no_missing sample_core.
Proof.
  split; intros s; simpl.
  - destruct s; [discriminate|]. destruct (digits_value _ _); discriminate.
  - destruct (_ || _); discriminate.
Qed.

(** X2: for an annotation without [Union] and without [before] validator
    (as [GearMaintenanceModel] and everything below it), on a document
    whose dicts have each key once, every violation is located where
    [get_value_by_path] can follow: the location of a violation other than
    [missing] leads to a value of the document, which is the invalid value
    the report shows; the location of a [missing] field leads nowhere, and
    the report shows ["<value not found>"]. *)
Theorem violation_locations_resolve (core : pydantic_core) (t : ty) (v : value)
    (e : line_error) :
  reports_no_missing core ->
  no_before t = true -> no_union t = true -> unique_keys v = true ->
  In e (errors_of (snd (validate core t v))) ->
  (le_type e = missing ->
   resolve v (le_loc e) = None /\ get_value_by_path v (le_loc e) = value_not_found)
  /\
  (le_type e <> missing ->
   exists x, resolve v (le_loc e) = Some x /\ get_value_by_path v (le_loc e) = x).
Proof.
  intros Hcore Hnb Hnu Huniq He.
  pose proof (validate_located core Hcore t Hnb Hnu v Huniq) as Hall.
  rewrite Forall_forall in Hall. destruct (Hall e (proj2 (list_elem_of_In _ _) He)) as [H1 H2].
  rewrite get_value_by_path_resolve. split.
  - intros Hm. now rewrite (H1 Hm).
  - intros Hm. destruct (H2 Hm) as [x ->]. eauto.
Qed.

(** X2, witness: a gear-maintenance document with a component whose [tag]
    is a number and whose [label] is absent. *)
Lemma violation_locations_resolve_witness :
  let data := VDict [("enabled", VBool true); ("hashtagPrefix", VStr "sfs");
                     ("components", VList [VDict [("tag", VInt 5)]]); ("gears", VList [])] in
  get_value_by_path data [LStr "components"; LInt 0; LStr "tag"] = VInt 5 /\
  get_value_by_path data [LStr "components"; LInt 0; LStr "label"] = value_not_found.
Proof.
  cbv zeta. split.
  - destruct (proj2 (violation_locations_resolve sample_core GearMaintenanceModel
                       (VDict [("enabled", VBool true); ("hashtagPrefix", VStr "sfs");
                               ("components", VList [VDict [("tag", VInt 5)]]);
                               ("gears", VList [])])
                       (LineError string_type [LStr "components"; LInt 0; LStr "tag"])
                       sample_core_reports_no_missing eq_refl eq_refl eq_refl
                       (or_introl eq_refl))) as (x & Hres & Hget); [discriminate|].
    injection Hres as <-. exact Hget.
  - apply (proj1 (violation_locations_resolve sample_core GearMaintenanceModel
                    (VDict [("enabled", VBool true); ("hashtagPrefix", VStr "sfs");
                            ("components", VList [VDict [("tag", VInt 5)]]);
                            ("gears", VList [])])
                    (LineError missing [LStr "components"; LInt 0; LStr "label"])
                    sample_core_reports_no_missing eq_refl eq_refl eq_refl
                    (or_intror (or_introl eq_refl)))).
    reflexivity.
Defined.

(** ** A union that fails *)

Lemma validate_union_locations {A : Type} (V : A -> validator) (alts : list (string * A)) :
  forall v e,
    In e (errors_of (snd (validate_union V alts v))) ->
    exists label rest, le_loc e = LStr label :: rest /\ In label (map fst alts).
Proof.
  induction alts as [|[label a] alts IH]; intros v e; simpl; [contradiction|].
  destruct (V a v) as [v' [o|errs|ex]]; simpl; try contradiction.
  specialize (IH v' e).
  destruct (validate_union V alts v') as [v'' [o'|errs'|ex']]; simpl in *; try contradiction.
  intros He. apply in_app_or in He as [He|He].
  - apply in_map_iff in He as (e' & <- & _). exists label, (le_loc e'). auto.
  - destruct (IH He) as (label' & rest & Hloc & Hin). exists label', rest. auto.
Qed.

(** X3: every violation of a union that fails lies under the label of
    an alternative, which is no key of the document: unless the value is a
    mapping that has such a label as a key, [get_value_by_path] cannot
    follow the location, and the report shows ["<value not found>"] in
    place of the invalid value. *)
Theorem union_violation_value_not_found (core : pydantic_core) (alts : list (string * ty))
    (v : value) (e : line_error) :
  In e (errors_of (snd (validate core (TUnion alts) v))) ->
  (forall d label, v = VDict d -> In label (map fst alts) -> dict_get d label = None) ->
  (exists label rest, le_loc e = LStr label :: rest /\ In label (map fst alts)) /\
  get_value_by_path v (le_loc e) = value_not_found.
Proof.
  intros He Hkeys.
  destruct (validate_union_locations (validate core) alts v e He) as (label & rest & Hloc & Hin).
  split; [eauto|]. rewrite Hloc.
  destruct v as [| | | | | |d]; try reflexivity.
  simpl. now rewrite (Hkeys d label eq_refl Hin).
Qed.

(** X3, witness: [maxHeartRateFormula: 42]. *)
Lemma union_violation_value_not_found_witness :
  get_value_by_path (VInt 42) [LStr "str"] = value_not_found /\
  get_value_by_path (VInt 42) [LStr "dict[str,int]"] = value_not_found.
Proof.
  split.
  - apply (union_violation_value_not_found sample_core
             [("str", TStr); ("dict[str,int]", TDict TInt)] (VInt 42)
             (LineError string_type [LStr "str"]) (or_introl eq_refl)).
    intros d label Hd. discriminate Hd.
  - apply (union_violation_value_not_found sample_core
             [("str", TStr); ("dict[str,int]", TDict TInt)] (VInt 42)
             (LineError dict_type [LStr "dict[str,int]"]) (or_intror (or_introl eq_refl))).
    intros d label Hd. discriminate Hd.
Defined.

(** ** Unexpected keys *)

Lemma filter_under_extra_absent (aliases : list string) (d : dict) (k : string) :
  ~ In k (map fst d) -> List.filter (loc_under k) (extra_errors aliases d) = [].
Proof.
  unfold extra_errors. induction d as [|[k' x] d IH]; simpl; intros Hk; [reflexivity|].
  rewrite List.filter_app, IH, app_nil_r by tauto.
  destruct (mem_string k' aliases); [reflexivity|]. unfold loc_under. simpl.
  destruct (String.eqb k' k) eqn:Heq; [|reflexivity].
  apply String.eqb_eq in Heq. tauto.
Qed.

Lemma filter_under_extra_key (aliases : list string) (d : dict) (k : string) :
  NoDup (map fst d) -> In k (map fst d) -> ~ In k aliases ->
  List.filter (loc_under k) (extra_errors aliases d) = [LineError extra_forbidden [LStr k]].
Proof.
  intros Hnd Hk Hal. induction d as [|[k' x] d IH]; simpl in *; [contradiction|].
  apply NoDup_cons in Hnd as [Hfresh Hnd]. rewrite list_elem_of_In in Hfresh.
  change (extra_errors aliases ((k', x) :: d))
    with ((if mem_string k' aliases then [] else [LineError extra_forbidden [LStr k']])
          ++ extra_errors aliases d).
  rewrite List.filter_app.
  destruct (String.eqb k' k) eqn:Heq.
  - apply String.eqb_eq in Heq. subst k'.
    rewrite filter_under_extra_absent by exact Hfresh.
    destruct (mem_string k aliases) eqn:Hmem; [apply mem_string_In in Hmem; contradiction|].
    simpl. unfold loc_under. simpl. now rewrite String.eqb_refl.
  - destruct Hk as [->|Hk]; [rewrite String.eqb_refl in Heq; discriminate|].
    rewrite (IH Hnd Hk).
    destruct (mem_string k' aliases); [reflexivity|]. simpl. unfold loc_under. simpl.
    now rewrite Heq.
Qed.

(** X4: [extra = "forbid"].  For every model class (with distinct field
    aliases), unless an exception ends the validation, a key of the input
    map that is no field of the class gives exactly one violation at or
    below that key: [extra_forbidden] at the key itself, whatever the other
    keys are. *)
Theorem unexpected_key_reported_once (core : pydantic_core) (m : model_class)
    (fields : list (field ty)) (v : value) (d : dict) (k : string) :
  NoDup (map f_alias fields) ->
  run_before m v = inr (VDict d) ->
  not_raised (snd (validate core (TModel m fields) v)) ->
  NoDup (map fst d) -> In k (map fst d) -> ~ In k (map f_alias fields) ->
  List.filter (loc_under k) (errors_of (snd (validate core (TModel m fields) v)))
    = [LineError extra_forbidden [LStr k]].
Proof.
  intros Hnd Hbefore Hnr Hkeys Hk Hal.
  rewrite (validate_model core m fields v d Hnd Hbefore Hnr).
  assert (Hfilter : List.filter (loc_under k) (field_level_errors (validate core) fields d)
                    = [LineError extra_forbidden [LStr k]]).
  { unfold field_level_errors.
    rewrite List.filter_app, filter_under_other_fields, filter_under_extra_key by assumption.
    reflexivity. }
  destruct (field_level_errors (validate core) fields d); [discriminate Hfilter|exact Hfilter].
Qed.

Lemma NoDup_DateFormat_aliases : NoDup ["short"; "normal"].
Proof. apply (bool_decide_unpack _). vm_compute. exact I. Defined.

Lemma NoDup_three_keys : NoDup ["short"; "normal"; "extra"].
Proof. apply (bool_decide_unpack _). vm_compute. exact I. Defined.

(** X4, witness: a [dateFormat] map with the key [extra]. *)
Lemma unexpected_key_reported_once_witness :
  List.filter (loc_under "extra")
    (errors_of (snd (validate sample_core DateFormat
       (VDict [("short", VStr "d-m-y"); ("normal", VInt 3); ("extra", VInt 1)]))))
  = [LineError extra_forbidden [LStr "extra"]].
Proof.
  apply (unexpected_key_reported_once sample_core (plain "DateFormat")
           [req "short" TStr; req "normal" TStr]
           (VDict [("short", VStr "d-m-y"); ("normal", VInt 3); ("extra", VInt 1)])
           [("short", VStr "d-m-y"); ("normal", VInt 3); ("extra", VInt 1)] "extra"
           NoDup_DateFormat_aliases eq_refl I NoDup_three_keys).
  - simpl. auto.
  - simpl. intros [H|[H|[]]]; discriminate H.
Defined.

(** ** Lists and dicts *)

Lemma errors_of_finish (errs : list line_error) (o : pyobj) :
  errors_of (finish (inl errs) o) = errs.
Proof. now destruct errs. Qed.

Lemma validate_items_errors (V : validator) :
  pure_validator V ->
  forall l i,
    validate_items V i l =
      (l, inl (concat (imap (fun j x => map (with_outer_location (LInt (i + j)))
                                            (errors_of (snd (V x)))) l))).
Proof.
  intros HV. induction l as [|x l IH]; intros i; simpl; [reflexivity|].
  destruct (HV x) as [Hfst Hnr]. destruct (V x) as [x' r]. simpl in *. subst x'.
  rewrite (IH (S i)), Nat.add_0_r.
  assert (Hshift : imap ((fun j y => map (with_outer_location (LInt (i + j)))
                                         (errors_of (snd (V y)))) ∘ S) l
                   = imap (fun j y => map (with_outer_location (LInt (S i + j)))
                                          (errors_of (snd (V y)))) l).
  { apply imap_ext. intros j y _. simpl. now rewrite Nat.add_succ_r. }
  rewrite Hshift. now destruct r.
Qed.

Lemma validate_entries_errors (V : validator) :
  pure_validator V ->
  forall d,
    validate_entries V d =
      (d, inl (flat_map (fun kv => map (with_outer_location (LStr (fst kv)))
                                       (errors_of (snd (V (snd kv))))) d)).
Proof.
  intros HV. induction d as [|[k x] d IH]; simpl; [reflexivity|].
  destruct (HV x) as [Hfst Hnr]. destruct (V x) as [x' r]. simpl in *. subst x'.
  rewrite IH. now destruct r.
Qed.

(** X5: a list and a dict never stop at the first item that fails.  For
    an item annotation without [before] validator, [List[X]] reports the
    violations of every item, in order, each under the item's index, and
    [Dict[str, X]] those of every value, each under its key; the input is
    left as it was, and nothing is reported for an empty list or dict. *)
Theorem containers_report_every_item (core : pydantic_core) (t : ty) (l : list value)
    (d : dict) :
  no_before t = true ->
  (fst (validate core (TList t) (VList l)) = VList l /\
   errors_of (snd (validate core (TList t) (VList l)))
     = concat (imap (fun i x => map (with_outer_location (LInt i))
                                    (errors_of (snd (validate core t x)))) l))
  /\
  (fst (validate core (TDict t) (VDict d)) = VDict d /\
   errors_of (snd (validate core (TDict t) (VDict d)))
     = flat_map (fun kv => map (with_outer_location (LStr (fst kv)))
                               (errors_of (snd (validate core t (snd kv))))) d).
Proof.
  intros Hnb. pose proof (validate_no_before core t Hnb) as Hpure. cbn [validate].
  rewrite (validate_items_errors _ Hpure l 0%nat), (validate_entries_errors _ Hpure d).
  cbn [fst snd Nat.add]. rewrite !errors_of_finish. auto.
Qed.

(** X5, witness: an [ftpHistory] with two items that are no integers. *)
Lemma containers_report_every_item_witness :
  errors_of (snd (validate sample_core (TList TInt)
                    (VList [VInt 240; VFloat 250.5%float; VNone; VInt 260])))
  = [LineError int_from_float [LInt 1]; LineError int_type [LInt 2]].
Proof.
  etransitivity;
    [exact (proj2 (proj1 (containers_report_every_item sample_core TInt
                            [VInt 240; VFloat 250.5%float; VNone; VInt 260] [] eq_refl)))|].
  reflexivity.
Defined.

(** ** The pages a report opens *)

Lemma doc_urls_cons (err : error_dict) (rest : list error_dict) :
  doc_urls (err :: rest) =
    match doc_url_of err with
    | Some url => url :: doc_urls rest
    | None => doc_urls rest
    end.
Proof. unfold doc_urls. simpl. now destruct (doc_url_of err). Qed.

Lemma print_errors_opened_sound (open : browser) (original_data : value)
    (auto_open_docs : bool) (errors : list error_dict) :
  forall (printed_links : gset string) url,
    In url (opened (print_errors open original_data auto_open_docs errors printed_links)) ->
    auto_open_docs = true /\ In url (doc_urls errors).
Proof.
  induction errors as [|err rest IH]; intros links url; [intros []|].
  rewrite print_errors_cons, doc_urls_cons. cbv zeta.
  destruct (doc_url_of err) as [doc_url|]; [|apply IH].
  destruct (auto_open_docs && negb (bool_decide (doc_url ∈ links))) eqn:Hopen.
  - apply andb_prop in Hopen as [-> _].
    destruct (open doc_url) as [e|]; cbn [opened app].
    + intros [<-|[]]. split; [reflexivity|now left].
    + intros [<-|Hu]; [split; [reflexivity|now left]|].
      destruct (IH _ _ Hu) as [_ Hin]. split; [reflexivity|now right].
  - cbn [opened app]. intros Hu. destruct (IH _ _ Hu) as [Hauto Hin].
    split; [exact Hauto|now right].
Qed.

Lemma print_errors_opened_complete (open : browser) (original_data : value)
    (errors : list error_dict) :
  (forall url, open url = None) ->
  forall (printed_links : gset string) url,
    In url (doc_urls errors) -> url ∉ printed_links ->
    In url (opened (print_errors open original_data true errors printed_links)).
Proof.
  intros Hquiet. induction errors as [|err rest IH]; intros links url; [intros []|].
  rewrite print_errors_cons, doc_urls_cons. cbv zeta.
  destruct (doc_url_of err) as [doc_url|]; [|apply IH].
  cbn [andb]. destruct (bool_decide (doc_url ∈ links)) eqn:Hin; cbn [negb].
  - apply bool_decide_eq_true in Hin. cbn [opened app].
    intros [<-|Hu] Hfresh; [contradiction|]. now apply IH.
  - rewrite Hquiet. cbn [opened app].
    intros [<-|Hu] Hfresh; [now left|].
    destruct (decide (url = doc_url)) as [->|Hne]; [now left|].
    right. apply IH; [exact Hu|].
    intros Hl. apply elem_of_union in Hl as [Hl|Hl]; [|contradiction].
    apply elem_of_singleton in Hl. contradiction.
Qed.

(** X6: which pages [print_friendly_errors] opens.  Whatever
    [webbrowser.open] does, a URL is opened only when [auto_open_docs] is
    set and the URL is the documentation link of one of the errors; with
    [auto_open_docs] off, nothing is opened.  With [auto_open_docs] set and
    a browser that does not raise, the documentation link of every error
    that has a help entry is opened. *)
Theorem opened_pages_are_the_documentation_links (open : browser)
    (errors : list error_dict) (original_data : value) (auto_open_docs : bool) :
  let d := print_friendly_errors open errors original_data auto_open_docs in
  (forall url, In url (opened d) -> auto_open_docs = true /\ In url (doc_urls errors))
  /\ (auto_open_docs = false -> opened d = [])
  /\ (auto_open_docs = true -> (forall url, open url = None) ->
      forall url, In url (doc_urls errors) -> In url (opened d)).
Proof.
  unfold print_friendly_errors. cbv zeta. cbn [opened].
  split; [|split].
  - intros url. apply print_errors_opened_sound.
  - intros ->.
    destruct (opened (print_errors open original_data false errors ∅)) as [|url urls] eqn:Ho;
      [reflexivity|].
    destruct (print_errors_opened_sound open original_data false errors ∅ url) as [Hf _];
      [rewrite Ho; now left|discriminate Hf].
  - intros -> Hquiet url Hu.
    apply print_errors_opened_complete; [exact Hquiet|exact Hu|apply not_elem_of_empty].
Qed.

(** ** The runner and the entry point *)

Lemma print_friendly_errors_raised_on (open : browser) (errors : list error_dict)
    (original_data : value) (auto_open_docs : bool) (e : exn) :
  raised (print_friendly_errors open errors original_data auto_open_docs) = Some e ->
  auto_open_docs = true.
Proof.
  unfold print_friendly_errors. cbn [raised]. intros Hr.
  now destruct (print_errors_raised open original_data auto_open_docs errors ∅ e Hr)
    as (_ & _ & _ & _ & _ & _ & _ & Hauto & _).
Qed.

Lemma print_friendly_errors_off (open : browser) (errors : list error_dict)
    (original_data : value) :
  opened (print_friendly_errors open errors original_data false) = [] /\
  raised (print_friendly_errors open errors original_data false) = None.
Proof.
  unfold print_friendly_errors. cbn [opened raised]. split.
  - destruct (opened (print_errors open original_data false errors ∅)) as [|url urls] eqn:Ho;
      [reflexivity|].
    destruct (print_errors_opened_sound open original_data false errors ∅ url) as [Hf _];
      [rewrite Ho; now left|discriminate Hf].
  - apply (print_errors_all open original_data false errors (or_introl eq_refl) ∅).
Qed.

(** A call with [open_docs=False], as the entry point makes it. *)
Lemma validate_yaml_config_run (core : pydantic_core) (open : browser)
    (file : yaml_file) (file_path : string) (model_class : ty) :
  let r := validate_yaml_config core open file file_path model_class false in
  (ended r = Returns <-> valid_file core file model_class = true)
  /\ opened (shown r) = [] /\ raised (shown r) = None
  /\ (ended r = Returns \/ ended r = SysExit 1 \/
      exists e, file = Unreadable e /\ ended r = Uncaught e).
Proof.
  cbv zeta. unfold validate_yaml_config, valid_file.
  destruct file as [|e|data]; cbn [ended shown opened raised].
  1: repeat split; try discriminate; auto.
  1: repeat split; try discriminate; eauto.
  destruct (validate core model_class data) as [data' [o|errs|e]];
    cbn [ended shown opened raised snd is_valid].
  1, 3: repeat split; try discriminate; auto.
  destruct (print_friendly_errors_off open (errors errs) data') as [-> ->].
  repeat split; try discriminate; auto.
Qed.

(** X7: how a call of [validate_yaml_config] ends.  It returns exactly
    when the file exists, loads, and its document is valid, and then it
    has printed the success line and nothing else.  A file on which
    [path.open] or [yaml.load] raises ends the call with that exception
    uncaught and nothing printed.  In every case the call returns, ends
    with [sys.exit(1)], or ends with an uncaught exception, which is that
    of loading the file or one of [webbrowser.open] (with [open_docs]
    set).  With [open_docs] off it opens no page and the display ends with
    no exception: the call returns, exits with status 1, or ends with the
    exception of loading the file. *)
Theorem validate_yaml_config_outcome (core : pydantic_core) (open : browser)
    (file : yaml_file) (file_path : string) (model_class : ty) (open_docs : bool) :
  let r := validate_yaml_config core open file file_path model_class open_docs in
  (ended r = Returns <-> valid_file core file model_class = true)
  /\ (ended r = Returns -> shown r = Display [PIsValid file_path] [] None)
  /\ (forall e, file = Unreadable e ->
      ended r = Uncaught e /\ shown r = Display [] [] None)
  /\ (ended r = Returns \/ ended r = SysExit 1 \/
      exists e, ended r = Uncaught e /\
        (file = Unreadable e \/ (raised (shown r) = Some e /\ open_docs = true)))
  /\ (open_docs = false ->
      opened (shown r) = [] /\ raised (shown r) = None /\
      (ended r = Returns \/ ended r = SysExit 1 \/
       exists e, file = Unreadable e /\ ended r = Uncaught e)).
Proof.
  cbv zeta. unfold validate_yaml_config, valid_file.
  destruct file as [|e0|data]; cbn [ended shown opened raised].
  - split; [split; discriminate|]. split; [discriminate|]. split; [discriminate|].
    split; auto.
  - split; [split; discriminate|]. split; [discriminate|].
    split; [intros e [= <-]; auto|]. split; [eauto 6|]. intros _. eauto 7.
  - destruct (validate core model_class data) as [data' [o|errs|e]];
      cbn [ended shown opened raised snd is_valid].
    + split; [split; reflexivity|]. split; [reflexivity|]. split; [discriminate|].
      split; auto.
    + destruct (raised (print_friendly_errors open (errors errs) data' open_docs))
        as [e|] eqn:Hr.
      * pose proof (print_friendly_errors_raised_on _ _ _ _ _ Hr) as ->.
        split; [split; discriminate|]. split; [discriminate|]. split; [discriminate|].
        split; [eauto 7|discriminate].
      * split; [split; discriminate|]. split; [discriminate|]. split; [discriminate|].
        split; [auto|]. intros ->.
        split; [apply print_friendly_errors_off|]. auto.
    + split; [split; discriminate|]. split; [discriminate|]. split; [discriminate|].
      split; auto.
Qed.

(** X8: the entry point stops at the first file that does not pass.  It
    never opens a page and no display ends with an exception; a call
    returns, exits with status 1, or ends with the uncaught exception of
    loading one of the files; every call but the last returns;
    [custom-gear.yaml] is checked only when [config.yaml] is valid, and
    [gear-maintenance.yaml] only when both are; all calls return exactly
    when the three files are valid. *)
Theorem main_stops_at_first_failure (core : pydantic_core) (open : browser)
    (config custom_gear gear_maintenance : yaml_file) :
  let runs := main core open config custom_gear gear_maintenance in
  Forall (fun r => opened (shown r) = [] /\ raised (shown r) = None /\
                   (ended r = Returns \/ ended r = SysExit 1 \/
                    exists e, ended r = Uncaught e /\
                      In (Unreadable e) [config; custom_gear; gear_maintenance])) runs
  /\ (2 <= length runs <-> valid_file core config ConfigModel = true)%nat
  /\ (length runs = 3%nat <->
      valid_file core config ConfigModel = true /\
      valid_file core custom_gear CustomGearModel = true)
  /\ (Forall (fun r => ended r = Returns) runs <->
      valid_file core config ConfigModel = true /\
      valid_file core custom_gear CustomGearModel = true /\
      valid_file core gear_maintenance GearMaintenanceModel = true)
  /\ (forall i r, nth_error runs i = Some r -> (S i < length runs)%nat -> ended r = Returns).
Proof.
  cbv zeta. unfold main.
  pose proof (validate_yaml_config_run core open config "config.yaml" ConfigModel) as H1.
  pose proof (validate_yaml_config_run core open custom_gear "custom-gear.yaml"
                CustomGearModel) as H2.
  pose proof (validate_yaml_config_run core open gear_maintenance "gear-maintenance.yaml"
                GearMaintenanceModel) as H3.
  set (r1 := validate_yaml_config core open config "config.yaml" ConfigModel false) in *.
  set (r2 := validate_yaml_config core open custom_gear "custom-gear.yaml"
               CustomGearModel false) in *.
  set (r3 := validate_yaml_config core open gear_maintenance "gear-maintenance.yaml"
               GearMaintenanceModel false) in *.
  destruct H1 as (Hv1 & Ho1 & Hr1 & He1), H2 as (Hv2 & Ho2 & Hr2 & He2),
    H3 as (Hv3 & Ho3 & Hr3 & He3).
  rewrite <- Hv1, <- Hv2, <- Hv3. clear Hv1 Hv2 Hv3.
  set (P := fun r : run =>
         opened (shown r) = [] /\ raised (shown r) = None /\
         (ended r = Returns \/ ended r = SysExit 1 \/
          exists e, ended r = Uncaught e /\
            In (Unreadable e) [config; custom_gear; gear_maintenance])).
  assert (Hf1 : P r1).
  { split; [exact Ho1|]. split; [exact Hr1|].
    destruct He1 as [H|[H|(e & -> & H)]]; auto. right; right. exists e. simpl. auto. }
  assert (Hf2 : P r2).
  { split; [exact Ho2|]. split; [exact Hr2|].
    destruct He2 as [H|[H|(e & -> & H)]]; auto. right; right. exists e. simpl. auto. }
  assert (Hf3 : P r3).
  { split; [exact Ho3|]. split; [exact Hr3|].
    destruct He3 as [H|[H|(e & -> & H)]]; auto. right; right. exists e. simpl. auto. }
  clearbody P. clear Ho1 Hr1 He1 Ho2 Hr2 He2 Ho3 Hr3 He3.
  assert (Hnth : forall (l : list run) i r,
            nth_error l i = Some r -> (S i < S (length l))%nat ->
            Forall (fun r => ended r = Returns) l -> ended r = Returns).
  { intros l i r Hi _ Hall. rewrite Forall_forall in Hall.
    apply Hall, list_elem_of_In, (nth_error_In _ _ Hi). }
  destruct (ended r1) eqn:E1; [destruct (ended r2) eqn:E2|..]; cbn [length].
  - (* the three calls *)
    split; [repeat (apply List.Forall_cons; [assumption|]); apply List.Forall_nil|].
    split; [split; [reflexivity|lia]|]. split; [split; auto|]. split.
    + split.
      * intros H. repeat (apply Forall_cons in H as [? H]). auto.
      * intros (_ & _ & H). repeat (apply List.Forall_cons; [assumption|]). apply List.Forall_nil.
    + intros i r Hi Hlt. apply (Hnth [r1; r2] i r); [|simpl; lia|].
      * destruct i as [|[|i]]; [exact Hi|exact Hi|simpl in Hlt; lia].
      * repeat (apply List.Forall_cons; [assumption|]). apply List.Forall_nil.
  - (* the second call exits *)
    split; [repeat (apply List.Forall_cons; [assumption|]); apply List.Forall_nil|].
    split; [split; [reflexivity|lia]|].
    split; [split; [discriminate|intros [_ H]; discriminate H]|]. split.
    + split.
      * intros H. repeat (apply Forall_cons in H as [? H]). congruence.
      * intros (_ & H & _). discriminate H.
    + intros i r Hi Hlt. apply (Hnth [r1] i r); [|simpl; lia|].
      * destruct i as [|i]; [exact Hi|simpl in Hlt; lia].
      * repeat (apply List.Forall_cons; [assumption|]). apply List.Forall_nil.
  - (* the second call ends with the exception of loading its file *)
    split; [repeat (apply List.Forall_cons; [assumption|]); apply List.Forall_nil|].
    split; [split; [reflexivity|lia]|].
    split; [split; [discriminate|intros [_ H]; discriminate H]|]. split.
    + split.
      * intros H. repeat (apply Forall_cons in H as [? H]). congruence.
      * intros (_ & H & _). discriminate H.
    + intros i r Hi Hlt. apply (Hnth [r1] i r); [|simpl; lia|].
      * destruct i as [|i]; [exact Hi|simpl in Hlt; lia].
      * repeat (apply List.Forall_cons; [assumption|]). apply List.Forall_nil.
  - (* the first call exits *)
    split; [repeat (apply List.Forall_cons; [assumption|]); apply List.Forall_nil|].
    split; [split; [lia|discriminate]|].
    split; [split; [discriminate|intros [H _]; discriminate H]|]. split.
    + split.
      * intros H. repeat (apply Forall_cons in H as [? H]). congruence.
      * intros (H & _). discriminate H.
    + intros i r Hi Hlt. simpl in Hlt. lia.
  - (* the first call ends with the exception of loading its file *)
    split; [repeat (apply List.Forall_cons; [assumption|]); apply List.Forall_nil|].
    split; [split; [lia|discriminate]|].
    split; [split; [discriminate|intros [H _]; discriminate H]|]. split.
    + split.
      * intros H. repeat (apply Forall_cons in H as [? H]). congruence.
      * intros (H & _). discriminate H.
    + intros i r Hi Hlt. simpl in Hlt. lia.
Qed.




(** ** When validation raises *)

Lemma validate_fields_app_pure_raised {A : Type} (V : A -> validator)
    (fs1 fs2 : list (field A)) :
  Forall (fun f => pure_validator (V (f_type f))) fs1 ->
  forall d e,
    snd (validate_fields V (fs1 ++ fs2) d) = inr e <-> snd (validate_fields V fs2 d) = inr e.
Proof.
  induction 1 as [|f fs1 Hf _ IH]; intros d e; simpl; [reflexivity|].
  destruct (dict_get d (f_alias f)) as [x|] eqn:Hget.
  - destruct (Hf x) as [Hx Hr]. destruct (V (f_type f) x) as [x' r]. simpl in *. subst x'.
    rewrite (dict_set_same _ _ _ Hget). rewrite <- (IH d e).
    destruct (validate_fields V (fs1 ++ fs2) d) as [d' [[values errs]|e']];
      destruct r; simpl in *; try contradiction;
      split; intros H; first [discriminate H|exact H].
  - rewrite <- (IH d e).
    destruct (validate_fields V (fs1 ++ fs2) d) as [d' [[values errs]|e']]; simpl;
      [destruct (f_default f)|]; split; intros H; first [discriminate H|exact H].
Qed.

Lemma validate_fields_single_raised {A : Type} (V : A -> validator) (f : field A) (d : dict)
    (e : exn) :
  snd (validate_fields V [f] d) = inr e <->
  exists x, dict_get d (f_alias f) = Some x /\ snd (V (f_type f) x) = Raised e.
Proof.
  simpl. destruct (dict_get d (f_alias f)) as [x|].
  - destruct (V (f_type f) x) as [x' r] eqn:HV. simpl. split.
    + destruct r; simpl; try discriminate. intros [= ->]. exists x. now rewrite HV.
    + intros (y & [= <-] & Hy). rewrite HV in Hy. simpl in Hy. now subst r.
  - split; [destruct (f_default f); discriminate|]. intros (y & Hy & _). discriminate Hy.
Qed.

Lemma plain_model_raised (core : pydantic_core) (cls : string) (fields : list (field ty))
    (v : value) (e : exn) :
  snd (validate core (TModel (plain cls) fields) v) = Raised e <->
  exists d, v = VDict d /\ snd (validate_fields (validate core) fields d) = inr e.
Proof.
  cbn [validate run_before plain before].
  destruct v as [| | | | | |d];
    try (split; [discriminate|intros (d' & Hd & _); discriminate Hd]).
  destruct (validate_fields (validate core) fields d) as [d' [[values errs]|e']] eqn:Hrun;
    cbn [snd].
  - split; [|intros (d0 & [= <-] & H); rewrite Hrun in H; discriminate H].
    intros H. exfalso.
    pose proof (not_raised_finish_model (plain cls) fields d' (values, errs)) as Hnr.
    now rewrite H in Hnr.
  - simpl. split.
    + intros [= ->]. exists d. now rewrite Hrun.
    + intros (d0 & [= <-] & H). rewrite Hrun in H. simpl in H. now injection H as ->.
Qed.

Lemma AIIntegration_raised (core : pydantic_core) (v : value) (e : exn) :
  snd (validate core AIIntegration v) = Raised e <-> e = AttributeError "get" /\ is_dict v = false.
Proof.
  destruct v as [| | | | | |d];
    try (simpl; split; [intros [= <-]; auto|intros [-> _]; reflexivity]).
  pose proof (validate_model_not_raised core AIIntegration_class AIIntegration_fields (VDict d)
                _ eq_refl (AIIntegration_skip_dict d)) as [_ Hnr].
  change (TModel AIIntegration_class AIIntegration_fields) with AIIntegration in Hnr.
  split; [|intros [_ H]; discriminate H].
  intros H. rewrite H in Hnr. contradiction.
Qed.

Lemma CustomGearModel_raised (core : pydantic_core) (v : value) (e : exn) :
  snd (validate core CustomGearModel v) = Raised e <->
  e = AttributeError "get" /\ is_dict v = false.
Proof.
  destruct v as [| | | | | |d];
    try (simpl; split; [intros [= <-]; auto|intros [-> _]; reflexivity]).
  pose proof (validate_model_not_raised core CustomGearModel_class CustomGearModel_fields
                (VDict d) _ eq_refl (CustomGearModel_skip_dict d)) as [_ Hnr].
  change (TModel CustomGearModel_class CustomGearModel_fields) with CustomGearModel in Hnr.
  split; [|intros [_ H]; discriminate H].
  intros H. rewrite H in Hnr. contradiction.
Qed.

Lemma ConfigModel_raised (core : pydantic_core) (v : value) (e : exn) :
  snd (validate core ConfigModel v) = Raised e <->
  e = AttributeError "get" /\
  exists x, resolve v [LStr "integrations"; LStr "ai"] = Some x /\ is_dict x = false.
Proof.
  unfold ConfigModel. rewrite plain_model_raised.
  assert (Hinner : forall y,
            snd (validate core Integrations y) = Raised e <->
            e = AttributeError "get" /\
            exists x, resolve y [LStr "ai"] = Some x /\ is_dict x = false).
  { intros y. unfold Integrations. rewrite plain_model_raised. split.
    - intros (di & -> & Hr). apply validate_fields_single_raised in Hr as (x & Hget & Hx).
      cbn [f_alias f_type req] in Hget, Hx. apply AIIntegration_raised in Hx as [-> Hx].
      split; [reflexivity|]. exists x. simpl. now rewrite Hget.
    - intros (-> & x & Hres & Hx). destruct y as [| | | | | |di]; try discriminate Hres.
      simpl in Hres. destruct (dict_get di "ai") as [x'|] eqn:Hget; [|discriminate Hres].
      injection Hres as ->. exists di. split; [reflexivity|].
      apply validate_fields_single_raised. exists x. cbn [f_alias f_type req].
      split; [exact Hget|]. now apply AIIntegration_raised. }
  assert (Hpure : Forall (fun f => pure_validator (validate core (f_type f)))
                    [ req "general" General; req "appearance" Appearance;
                      Field "import_" "import" ImportSettings None;
                      req "metrics" Metrics; req "zwift" Zwift ]).
  { repeat constructor; apply validate_no_before; reflexivity. }
  split.
  - intros (d & -> & Hr).
    apply (validate_fields_app_pure_raised (validate core) _ [req "integrations" Integrations]
             Hpure d e) in Hr.
    apply validate_fields_single_raised in Hr as (y & Hget & Hy).
    cbn [f_alias f_type req] in Hget, Hy. apply Hinner in Hy as (-> & x & Hres & Hx).
    split; [reflexivity|]. exists x. split; [|exact Hx].
    change (resolve (VDict d) [LStr "integrations"; LStr "ai"])
      with (match dict_get d "integrations" with
            | Some y' => resolve y' [LStr "ai"]
            | None => None
            end).
    now rewrite Hget.
  - intros (-> & x & Hres & Hx). destruct v as [| | | | | |d]; try discriminate Hres.
    change (resolve (VDict d) [LStr "integrations"; LStr "ai"])
      with (match dict_get d "integrations" with
            | Some y' => resolve y' [LStr "ai"]
            | None => None
            end) in Hres.
    destruct (dict_get d "integrations") as [y|] eqn:Hget; [|discriminate Hres].
    exists d. split; [reflexivity|].
    apply (validate_fields_app_pure_raised (validate core) _ [req "integrations" Integrations]
             Hpure d). 
    apply validate_fields_single_raised. exists y. cbn [f_alias f_type req].
    split; [exact Hget|]. apply Hinner. eauto.
Qed.

(** X10: the only exception a validation lets through is the
    [AttributeError] of [values.get] in a [before] validator, raised on an
    input that is no mapping.  Validating a gear-maintenance document
    never raises; a custom-gear document raises exactly when the document
    itself is no mapping; a config document raises exactly when
    [integrations.ai] is there and is no mapping.  [validate_yaml_config]
    then prints the exception in place of the violations, and exits with
    status 1. *)
Theorem validation_raises_on_a_non_mapping (core : pydantic_core) (open : browser)
    (v : value) (e : exn) (file_path : string) (model_class : ty) (open_docs : bool) :
  not_raised (snd (validate core GearMaintenanceModel v))
  /\ (snd (validate core CustomGearModel v) = Raised e <->
      e = AttributeError "get" /\ is_dict v = false)
  /\ (snd (validate core ConfigModel v) = Raised e <->
      e = AttributeError "get" /\
      exists x, resolve v [LStr "integrations"; LStr "ai"] = Some x /\ is_dict x = false)
  /\ (snd (validate core model_class v) = Raised e ->
      shown (validate_yaml_config core open (Loaded v) file_path model_class open_docs)
        = Display [PHasErrors file_path; PException e] [] None /\
      ended (validate_yaml_config core open (Loaded v) file_path model_class open_docs)
        = SysExit 1).
Proof.
  split; [apply (validate_no_before core GearMaintenanceModel eq_refl v)|].
  split; [apply CustomGearModel_raised|]. split; [apply ConfigModel_raised|].
  unfold validate_yaml_config.
  destruct (validate core model_class v) as [data' [o|errs|e']]; simpl; try discriminate.
  intros [= ->]. auto.
Qed.

(** ** A gate that is truthy and reads false *)

Lemma str_as_bool_truthy (s : string) (b : bool) :
  str_as_bool s = Some b -> truthy (VStr s) = true.
Proof. destruct s; [discriminate|reflexivity]. Qed.

(** X11: the gate is the truth value of the raw input, the flag is what
    pydantic reads from it.  For an [ai] map whose [enabled] is a string
    that reads as false (["false"], ["no"], ["off"], ["0"], ...), the
    [before] validator removes nothing: the document is left as it was and
    what is stored under [provider] and [configuration] is validated, its
    violations reported under the field; the [after] validator then
    requires nothing, so without a field-level violation the map is
    valid. *)
Theorem AIIntegration_string_gate (core : pydantic_core) (d : dict) (s : string) :
  dict_get d "enabled" = Some (VStr s) -> str_as_bool s = Some false ->
  fst (validate core AIIntegration (VDict d)) = VDict d
  /\ List.filter (loc_under "provider") (errors_of (snd (validate core AIIntegration (VDict d))))
     = match dict_get d "provider" with
       | Some x => map (with_outer_location (LStr "provider"))
                       (errors_of (snd (validate core (TOptional AIProvider) x)))
       | None => []
       end
  /\ List.filter (loc_under "configuration")
       (errors_of (snd (validate core AIIntegration (VDict d))))
     = match dict_get d "configuration" with
       | Some x => map (with_outer_location (LStr "configuration"))
                       (errors_of (snd (validate core (TOptional AIConfiguration) x)))
       | None => []
       end
  /\ (field_level_errors (validate core) AIIntegration_fields d = [] ->
      snd (validate core AIIntegration (VDict d)) = Valid OOpaque).
Proof.
  intros Hen Hfalse.
  assert (Htruthy : truthy (get_enabled d) = true).
  { unfold get_enabled. rewrite Hen. exact (str_as_bool_truthy s false Hfalse). }
  assert (Hbefore : run_before AIIntegration_class (VDict d) = inr (VDict d)).
  { cbn [run_before AIIntegration_class before]. now rewrite AIIntegration_skip_dict, Htruthy. }
  destruct (validate_model_not_raised core AIIntegration_class AIIntegration_fields
              (VDict d) d eq_refl Hbefore) as [Hfst Hnr].
  pose proof (validate_model core AIIntegration_class AIIntegration_fields (VDict d) d
                NoDup_AIIntegration_aliases Hbefore Hnr) as Hr.
  split; [exact Hfst|]. split; [|split].
  - etransitivity;
      [exact (errors_under_field core AIIntegration_class AIIntegration_fields (VDict d) d
                (Field "provider" "provider" (TOptional AIProvider) (Some ONone))
                NoDup_AIIntegration_aliases
                (or_intror (or_intror (or_introl eq_refl))) Hbefore Hnr)|].
    reflexivity.
  - etransitivity;
      [exact (errors_under_field core AIIntegration_class AIIntegration_fields (VDict d) d
                (Field "configuration" "configuration" (TOptional AIConfiguration) (Some ONone))
                NoDup_AIIntegration_aliases
                (or_intror (or_intror (or_intror (or_introl eq_refl)))) Hbefore Hnr)|].
    reflexivity.
  - intros Hnone. change (TModel AIIntegration_class AIIntegration_fields) with AIIntegration in Hr.
    rewrite Hr, Hnone. cbn [flat_map AIIntegration_fields].
    assert (HE : field_attr (validate core) d (req "enabled" TBool) = [("enabled", OBool false)]).
    { unfold field_attr. cbn [f_alias req f_type f_name]. rewrite Hen.
      cbn [validate snd validate_bool]. now rewrite Hfalse. }
    rewrite HE. reflexivity.
Qed.

(** X11, witness: [enabled: "false"] with a [provider] that is no known
    provider. *)
Lemma AIIntegration_string_gate_witness :
  let d := [("enabled", VStr "false"); ("enableUI", VBool true); ("provider", VStr "hal")] in
  fst (validate sample_core AIIntegration (VDict d)) = VDict d /\
  List.filter (loc_under "provider") (errors_of (snd (validate sample_core AIIntegration (VDict d))))
  = [LineError (literal_error (map LitStr ["anthropic"; "gemini"; "ollama"; "openAI";
                                           "deepseek"; "mistral"])) [LStr "provider"]].
Proof.
  cbv zeta.
  pose proof (AIIntegration_string_gate sample_core
                [("enabled", VStr "false"); ("enableUI", VBool true); ("provider", VStr "hal")]
                "false" eq_refl eq_refl) as (Hfst & Hprovider & _).
  split; [exact Hfst|exact Hprovider].
Defined.

(** ** The [after] validators on an instance *)

Lemma field_level_errors_loc {A : Type} (V : A -> validator) (fields : list (field A))
    (d : dict) (e : line_error) :
  In e (field_level_errors V fields d) -> le_loc e <> [].
Proof.
  unfold field_level_errors, extra_errors. intros Hin.
  apply in_app_or in Hin as [Hin|Hin]; apply in_flat_map in Hin as (a & _ & Hin).
  - unfold field_errors in Hin. destruct (dict_get d (f_alias a)).
    + apply in_map_iff in Hin as (e' & <- & _). discriminate.
    + destruct (f_default a); [contradiction|]. destruct Hin as [<-|[]]. discriminate.
  - destruct (mem_string (fst a) (map f_alias fields)); [contradiction|].
    destruct Hin as [<-|[]]. discriminate.
Qed.

(** A required field of a model without field-level violation is in the
    input, and its validator reports nothing. *)
Lemma field_level_none {A : Type} (V : A -> validator) (fields : list (field A)) (d : dict)
    (f : field A) :
  field_level_errors V fields d = [] -> In f fields ->
  match dict_get d (f_alias f) with
  | Some x => errors_of (snd (V (f_type f) x)) = []
  | None => f_default f <> None
  end.
Proof.
  unfold field_level_errors. intros Hnone Hin.
  apply app_eq_nil in Hnone as [Hnone _].
  assert (Hf : field_errors V d f = []).
  { destruct (field_errors V d f) as [|e es] eqn:Hfe; [reflexivity|].
    assert (Habs : In e (flat_map (field_errors V d) fields)).
    { apply in_flat_map. exists f. split; [exact Hin|]. rewrite Hfe. now left. }
    rewrite Hnone in Habs. contradiction. }
  unfold field_errors in Hf. destruct (dict_get d (f_alias f)) as [x|].
  - now apply map_eq_nil in Hf.
  - now destruct (f_default f).
Qed.

Lemma validate_bool_no_errors (x : value) :
  errors_of (validate_bool x) = [] -> exists b, validate_bool x = Valid (OBool b).
Proof.
  destruct x; simpl; unfold of_bool_parse, invalid1;
    repeat match goal with
           | |- context [match ?t with _ => _ end] => destruct t
           end; simpl; intros H; try discriminate H; eauto.
Qed.

Lemma validate_str_no_errors (x : value) :
  errors_of (validate_str x) = [] -> validate_str x = Valid OOpaque.
Proof. destruct x; simpl; intros H; first [discriminate H|reflexivity]. Qed.

Lemma validate_literal_no_errors (expected : list literal) (x : value) :
  errors_of (validate_literal expected x) = [] -> validate_literal expected x = Valid OOpaque.
Proof.
  unfold validate_literal. destruct (existsb _ expected); intros H;
    first [discriminate H|reflexivity].
Qed.

Lemma validate_list_no_errors (core : pydantic_core) (t : ty) (x : value) :
  not_raised (snd (validate core (TList t) x)) ->
  errors_of (snd (validate core (TList t) x)) = [] ->
  snd (validate core (TList t) x) = Valid OOpaque.
Proof.
  destruct x; simpl; try discriminate.
  destruct (validate_items (validate core t) 0 l) as [l' [[|e es]|e]]; simpl;
    intros Hnr H; first [reflexivity|discriminate H|contradiction].
Qed.

Lemma validate_model_no_errors (core : pydantic_core) (m : model_class)
    (fields : list (field ty)) (x : value) :
  not_raised (snd (validate core (TModel m fields) x)) ->
  errors_of (snd (validate core (TModel m fields) x)) = [] ->
  snd (validate core (TModel m fields) x) = Valid OOpaque.
Proof.
  simpl. destruct (run_before m x) as [e|[| | | | | |d]]; simpl;
    try (intros Hnr H; first [contradiction|discriminate H]).
  destruct (validate_fields (validate core) fields d) as [d' [[values errs]|e]]; simpl;
    [|contradiction].
  destruct (errs ++ extra_errors (map f_alias fields) d') as [|e es]; simpl;
    [|intros _ H; discriminate H].
  unfold run_after. destruct (after m) as [check|]; [|reflexivity].
  destruct (check values); simpl; intros _ H; first [discriminate H|reflexivity].
Qed.

(** X12: [CustomGearModel.check_required_if_enabled] never raises.  On an
    instance both gated fields hold a validated [str] and list, so the
    verdict on a mapping is that of its fields and keys alone, read after
    [skip_nested_if_disabled]; and no document has a violation at the
    document's own location. *)
Theorem CustomGearModel_check_never_raises (core : pydantic_core) :
  (forall d : dict,
     snd (validate core CustomGearModel (VDict d)) =
       match field_level_errors (validate core) CustomGearModel_fields
               (if truthy (get_enabled d) then d
                else dict_pop (dict_pop d "hashtagPrefix") "customGears") with
       | [] => Valid OOpaque
       | errs => Invalid errs
       end)
  /\ (forall (v : value) (e : line_error),
        In e (errors_of (snd (validate core CustomGearModel v))) -> le_loc e <> []).
Proof.
  assert (Hverdict : forall d : dict,
     snd (validate core CustomGearModel (VDict d)) =
       match field_level_errors (validate core) CustomGearModel_fields
               (if truthy (get_enabled d) then d
                else dict_pop (dict_pop d "hashtagPrefix") "customGears") with
       | [] => Valid OOpaque
       | errs => Invalid errs
       end).
  { intros d.
    set (d0 := if truthy (get_enabled d) then d
               else dict_pop (dict_pop d "hashtagPrefix") "customGears").
    assert (Hbefore : run_before CustomGearModel_class (VDict d) = inr (VDict d0)).
    { cbn [run_before CustomGearModel_class before]. apply CustomGearModel_skip_dict. }
    destruct (validate_model_not_raised core CustomGearModel_class CustomGearModel_fields
                (VDict d) d0 eq_refl Hbefore) as [_ Hnr].
    pose proof (validate_model core CustomGearModel_class CustomGearModel_fields (VDict d) d0
                  NoDup_CustomGearModel_aliases Hbefore Hnr) as Hr.
    change (TModel CustomGearModel_class CustomGearModel_fields) with CustomGearModel in Hr.
    rewrite Hr.
    destruct (field_level_errors (validate core) CustomGearModel_fields d0) as [|e es] eqn:Hnone;
      [|reflexivity].
    pose proof (field_level_none _ _ _ (req "enabled" TBool) Hnone (or_introl eq_refl)) as HE.
    pose proof (field_level_none _ _ _ (req "hashtagPrefix" TStr) Hnone
                  (or_intror (or_introl eq_refl))) as HH.
    pose proof (field_level_none _ _ _ (req "customGears" (TList CustomGearEntry)) Hnone
                  (or_intror (or_intror (or_introl eq_refl)))) as HG.
    cbn [f_alias f_type f_default req] in HE, HH, HG.
    cbn [flat_map CustomGearModel_fields]. unfold field_attr. cbn [f_alias f_type f_name req].
    destruct (dict_get d0 "enabled") as [xe|]; [|now contradiction HE].
    destruct (dict_get d0 "hashtagPrefix") as [xh|]; [|now contradiction HH].
    destruct (dict_get d0 "customGears") as [xg|]; [|now contradiction HG].
    destruct (validate_bool_no_errors xe HE) as [b Hb].
    change (validate_bool xe) with (snd (validate core TBool xe)) in Hb.
    pose proof (validate_str_no_errors xh HH) as Hs.
    change (validate_str xh) with (snd (validate core TStr xh)) in Hs.
    rewrite Hb, Hs.
    rewrite (validate_list_no_errors core CustomGearEntry xg
               (proj2 (validate_no_before core (TList CustomGearEntry) eq_refl xg)) HG).
    unfold run_after. cbn [after CustomGearModel_class].
    now destruct b. }
  split; [exact Hverdict|].
  intros v e. destruct v as [| | | | | |d]; try (intros []).
  rewrite Hverdict.
  destruct (field_level_errors _ _ _) as [|e' es] eqn:Hfl; [intros []|].
  cbn [errors_of]. rewrite <- Hfl. apply field_level_errors_loc.
Qed.

(** X13: [AIIntegration.check_required_if_enabled] on an instance.  For a
    mapping with a truthy [enabled] and no field-level violation, the flag
    read from [enabled] decides: with a false flag (the strings that read
    as false) the map is valid; with a true flag the map is valid
    exactly when [provider] and [configuration] are both present and not
    null, and otherwise the one violation names [provider] if that is
    absent or null, else [configuration]. *)
Theorem AIIntegration_enabled_verdict (core : pydantic_core) (d : dict) (x : value) :
  dict_get d "enabled" = Some x -> truthy x = true ->
  field_level_errors (validate core) AIIntegration_fields d = [] ->
  exists b : bool,
    validate_bool x = Valid (OBool b) /\
    snd (validate core AIIntegration (VDict d)) =
      if b && absent_or_null d "provider"
      then invalid1 (value_error "provider is required when AI integration is enabled")
      else if b && absent_or_null d "configuration"
      then invalid1 (value_error "configuration is required when AI integration is enabled")
      else Valid OOpaque.
Proof.
  intros Hen Htruthy Hnone.
  assert (Hbefore : run_before AIIntegration_class (VDict d) = inr (VDict d)).
  { cbn [run_before AIIntegration_class before]. rewrite AIIntegration_skip_dict.
    unfold get_enabled. now rewrite Hen, Htruthy. }
  destruct (validate_model_not_raised core AIIntegration_class AIIntegration_fields
              (VDict d) d eq_refl Hbefore) as [_ Hnr].
  pose proof (validate_model core AIIntegration_class AIIntegration_fields (VDict d) d
                NoDup_AIIntegration_aliases Hbefore Hnr) as Hr.
  change (TModel AIIntegration_class AIIntegration_fields) with AIIntegration in Hr.
  rewrite Hr, Hnone. clear Hr Hnr Hbefore.
  pose proof (field_level_none _ _ _ (req "enabled" TBool) Hnone (or_introl eq_refl)) as HE.
  pose proof (field_level_none _ _ _
                (Field "provider" "provider" (TOptional AIProvider) (Some ONone)) Hnone
                (or_intror (or_intror (or_introl eq_refl)))) as HP.
  pose proof (field_level_none _ _ _
                (Field "configuration" "configuration" (TOptional AIConfiguration) (Some ONone))
                Hnone (or_intror (or_intror (or_intror (or_introl eq_refl))))) as HC.
  cbn [f_alias f_type f_default req] in HE, HP, HC.
  rewrite Hen in HE. cbn [validate snd] in HE.
  destruct (validate_bool_no_errors x HE) as [b Hb]. exists b. split; [exact Hb|].
  cbn [flat_map AIIntegration_fields]. rewrite app_nil_r.
  assert (HEa : field_attr (validate core) d (req "enabled" TBool) = [("enabled", OBool b)]).
  { unfold field_attr. cbn [f_alias f_type f_name req]. rewrite Hen. cbn [validate snd].
    now rewrite Hb. }
  assert (HPa : field_attr (validate core) d
                  (Field "provider" "provider" (TOptional AIProvider) (Some ONone))
                = [("provider", if absent_or_null d "provider" then ONone else OOpaque)]).
  { unfold field_attr, absent_or_null. cbn [f_alias f_type f_name f_default].
    destruct (dict_get d "provider") as [xp|]; [|reflexivity].
    destruct xp; try reflexivity; cbn [validate snd AIProvider] in HP |- *;
      now rewrite (validate_literal_no_errors _ _ HP). }
  assert (HCa : field_attr (validate core) d
                  (Field "configuration" "configuration" (TOptional AIConfiguration) (Some ONone))
                = [("configuration", if absent_or_null d "configuration" then ONone else OOpaque)]).
  { unfold field_attr, absent_or_null. cbn [f_alias f_type f_name f_default].
    destruct (dict_get d "configuration") as [xc|]; [|reflexivity].
    pose proof (validate_model_no_errors core (plain "AIConfiguration")
                  [req "key" TStr; req "model" TStr; req "url" (TOptional TStr)] xc
                  (proj2 (validate_no_before core AIConfiguration eq_refl xc))) as Hm.
    change (TModel _ _) with AIConfiguration in Hm.
    destruct xc; try reflexivity;
      change (validate core (TOptional AIConfiguration) ?v) with (validate core AIConfiguration v)
        in HP, HC |- *;
      now rewrite (Hm HC). }
  rewrite HEa, HPa, HCa. clear HEa HPa HCa.
  unfold run_after. cbn [after AIIntegration_class].
  unfold AIIntegration_check_required_if_enabled.
  destruct (field_attr_cases (validate core) d (req "enableUI" TBool)) as [->|[oU ->]];
    cbn [f_name req];
    destruct b, (absent_or_null d "provider"), (absent_or_null d "configuration"); reflexivity.
Qed.

(** X13, witness: [enabled: true] with [provider: null]. *)
Lemma AIIntegration_enabled_verdict_witness :
  snd (validate sample_core AIIntegration
         (VDict [("enabled", VBool true); ("enableUI", VBool false); ("provider", VNone)]))
  = invalid1 (value_error "provider is required when AI integration is enabled").
Proof.
  destruct (AIIntegration_enabled_verdict sample_core
              [("enabled", VBool true); ("enableUI", VBool false); ("provider", VNone)]
              (VBool true) eq_refl eq_refl eq_refl) as (b & Hb & Hverdict).
  injection Hb as <-. exact Hverdict.
Defined.

(** ** Which violations find a help entry *)

Lemma prefix_append (k s : string) : String.prefix k (k +:+ s) = true.
Proof.
  induction k as [|c k IH]; simpl; [now destruct s|].
  destruct (Ascii.ascii_dec c c); [exact IH|congruence].
Qed.

Lemma prefix_refl (k : string) : String.prefix k k = true.
Proof.
  induction k as [|c k IH]; simpl; [reflexivity|].
  destruct (Ascii.ascii_dec c c); [exact IH|congruence].
Qed.

(** The location string of a location under the key [k] starts with
    [k]. *)
Lemma loc_str_of_prefix (k : string) (rest : loc) :
  String.prefix k (loc_str_of (LStr k :: rest)) = true.
Proof.
  unfold loc_str_of. cbn [map str_loc_item].
  destruct (map str_loc_item rest) as [|s l] eqn:Hrest; cbn [String.concat].
  - apply prefix_refl.
  - apply prefix_append.
Qed.

(** No entry of a map under a key that starts none of its keys. *)
Lemma lookup_prefix {A : Type} (m : gmap string A) (k s : string) :
  forallb (fun h => negb (String.prefix k h)) (map fst (map_to_list m)) = true ->
  String.prefix k s = true -> m !! s = None.
Proof.
  intros Hall Hprefix. destruct (m !! s) as [h|] eqn:Hget; [|reflexivity].
  apply elem_of_map_to_list in Hget.
  rewrite forallb_forall in Hall.
  assert (Hin : In s (map fst (map_to_list m))).
  { apply in_map_iff. exists (s, h). split; [reflexivity|]. now apply list_elem_of_In. }
  specialize (Hall s Hin). now rewrite Hprefix in Hall.
Qed.

(** Where the violations of a model lie: at the model's own location,
    under the alias of a field, or at an unexpected key. *)
Lemma model_error_locs (core : pydantic_core) (m : model_class) (fields : list (field ty))
    (v : value) (e : line_error) :
  NoDup (map f_alias fields) ->
  In e (errors_of (snd (validate core (TModel m fields) v))) ->
  le_loc e = []
  \/ (exists f rest, In f fields /\ le_loc e = LStr (f_alias f) :: rest)
  \/ (exists k, e = LineError extra_forbidden [LStr k]).
Proof.
  intros Hnd Hin.
  destruct (run_before m v) as [ex|v'] eqn:Hbefore.
  { simpl in Hin. rewrite Hbefore in Hin. contradiction. }
  destruct (snd (validate core (TModel m fields) v)) as [o|errs|ex] eqn:Hres;
    try contradiction.
  assert (Hnr : not_raised (snd (validate core (TModel m fields) v))) by now rewrite Hres.
  destruct v' as [| | | | | |d].
  1-6: simpl in Hres; rewrite Hbefore in Hres; injection Hres as <-;
       destruct Hin as [<-|[]]; now left.
  rewrite (validate_model core m fields v d Hnd Hbefore Hnr) in Hres.
  destruct (field_level_errors (validate core) fields d) as [|e' es] eqn:Hfl.
  - unfold run_after in Hres. destruct (after m) as [check|]; [|discriminate Hres].
    destruct (check _); [|discriminate Hres].
    injection Hres as <-. destruct Hin as [<-|[]]. now left.
  - injection Hres as <-. cbn [errors_of] in Hin. rewrite <- Hfl in Hin.
    unfold field_level_errors, extra_errors in Hin.
    apply in_app_or in Hin as [Hin|Hin]; apply in_flat_map in Hin as (a & Ha & Hin).
    + right; left. unfold field_errors in Hin. destruct (dict_get d (f_alias a)).
      * apply in_map_iff in Hin as (e0 & <- & _). now exists a, (le_loc e0).
      * destruct (f_default a); [contradiction|]. destruct Hin as [<-|[]]. now exists a, [].
    + right; right. destruct (mem_string _ _); [contradiction|].
      destruct Hin as [<-|[]]. now exists (fst a).
Qed.

Lemma NoDup_GearMaintenanceModel_aliases :
  NoDup ["enabled"; "hashtagPrefix"; "components"; "gears"].
Proof. apply (bool_decide_unpack _). vm_compute. exact I. Defined.

(** X14: the help entries of [FIELD_HELP] are keyed by paths no
    custom-gear or gear-maintenance violation has.  For such a document a
    violation finds a help entry (its description and link are printed,
    the link may be opened) only if it is an unexpected key of the
    document that is spelled like a key of [FIELD_HELP]; every violation
    at or below a declared field, and at the document itself, is printed
    with the expected type and the general link. *)
Theorem gear_violations_find_no_help (core : pydantic_core) (model_class : ty) (v : value)
    (e : line_error) :
  model_class = CustomGearModel \/ model_class = GearMaintenanceModel ->
  In e (errors_of (snd (validate core model_class v))) ->
  is_Some (FIELD_HELP !! loc_str_of (le_loc e)) ->
  exists k, e = LineError extra_forbidden [LStr k] /\ is_Some (FIELD_HELP !! k).
Proof.
  intros Hclass Hin [h Hhelp].
  assert (Hlocs : le_loc e = []
    \/ (exists k rest,
          In k ["enabled"; "hashtagPrefix"; "customGears"; "components"; "gears"] /\
          le_loc e = LStr k :: rest)
    \/ (exists k, e = LineError extra_forbidden [LStr k])).
  { destruct Hclass as [-> | ->].
    - destruct (model_error_locs core CustomGearModel_class CustomGearModel_fields v e
                  NoDup_CustomGearModel_aliases Hin) as [H|[(f & rest & Hf & H)|H]]; auto.
      right; left. exists (f_alias f), rest. split; [|exact H].
      destruct Hf as [<-|[<-|[<-|[]]]]; simpl; auto.
    - destruct (model_error_locs core (plain "GearMaintenanceModel")
                  [req "enabled" TBool; req "hashtagPrefix" TStr;
                   req "components" (TList Component); req "gears" (TList GearImage)] v e
                  NoDup_GearMaintenanceModel_aliases Hin) as [H|[(f & rest & Hf & H)|H]]; auto.
      right; left. exists (f_alias f), rest. split; [|exact H].
      destruct Hf as [<-|[<-|[<-|[<-|[]]]]]; simpl; auto 6. }
  destruct Hlocs as [Hloc|[(k & rest & Hk & Hloc)|[k ->]]].
  - rewrite Hloc in Hhelp. vm_compute in Hhelp. discriminate Hhelp.
  - rewrite Hloc in Hhelp.
    assert (Hkeys : forallb (fun h => negb (String.prefix k h))
                      (map fst (map_to_list FIELD_HELP)) = true).
    { destruct Hk as [<-|[<-|[<-|[<-|[<-|[]]]]]]; vm_compute; reflexivity. }
    pose proof (lookup_prefix FIELD_HELP k _ Hkeys (loc_str_of_prefix k rest)) as Hnone.
    congruence.
  - exists k. split; [reflexivity|]. exists h. exact Hhelp.
Qed.

(** X14, witness: a custom-gear document with the unexpected key
    [custom-gear.name]. *)
Lemma gear_violations_find_no_help_witness :
  exists k, LineError extra_forbidden [LStr "custom-gear.name"] = LineError extra_forbidden [LStr k]
            /\ is_Some (FIELD_HELP !! k).
Proof.
  apply (gear_violations_find_no_help sample_core CustomGearModel
           (VDict [("enabled", VBool true); ("hashtagPrefix", VStr "sfs");
                   ("customGears", VList []); ("custom-gear.name", VStr "bike")])
           (LineError extra_forbidden [LStr "custom-gear.name"])).
  - now left.
  - vm_compute. now left.
  - vm_compute. eauto.
Defined.
